(** * Envelope codec, MSISDN codec and request signatures of the client

    A shallow embedding of [app/service/crypto_helper.py] and of the
    [EncryptionService] of [app/client/encrypt.py], together with the
    library routines they call (UTF-8, base64, PKCS#7, SHA-2, HMAC,
    AES-CBC), and the properties the specification states about them.

    Conventions.  A function that can raise returns a [result]; a
    [try ... except Exception] is [try_except].  What the code reads from
    outside is an argument: the environment variables and the key file
    ([environ]), the clock, and the bytes of [os.urandom].  The library
    routines follow CPython 3.11 (the lenient base64 decoder, the Unicode
    14 tables of blanks and decimal digits) and pycryptodome; integers turn
    into text whatever their size (the interpreter's configurable limit on
    the digits of an [int] is left out). *)

From Stdlib Require Import String Ascii.
From Stdlib Require Import Strings.Byte.
From Stdlib Require Import ZArith NArith List ListSet Bool Lia Morphisms.
From Stdlib Require Import DecimalZ DecimalPos.
From AAC_tactics Require Import AAC.
Import ListNotations.

Open Scope N_scope.

(** ** Python data *)

(** [bytes] objects are lists of bytes; [str] objects are lists of Unicode
    code points (a Python [str] may hold lone surrogates, which is why it
    is not modelled by its UTF-8 encoding). *)
Definition bytes := list byte.
Definition pystr := list N.

Definition byte_of_N (n : N) : byte :=
  match Byte.of_N (n mod 256) with Some b => b | None => x00 end.

Definition bxor (a b : byte) : byte :=
  byte_of_N (N.lxor (Byte.to_N a) (Byte.to_N b)).

(** An ASCII literal as a [str]. *)
Definition lit (s : string) : pystr :=
  map N_of_ascii (list_ascii_of_string s).

Definition pystr_eqb (a b : pystr) : bool :=
  if list_eq_dec N.eq_dec a b then true else false.

Definition bytes_eqb (a b : bytes) : bool :=
  if list_eq_dec Byte.byte_eq_dec a b then true else false.

(** Exceptions.  Every class below derives from [Exception]; all but
    [TypeError] derive from [ValueError]. *)
Inductive exn : Type :=
| ValueError | UnicodeEncodeError | UnicodeDecodeError | BinasciiError | TypeError.

Definition is_ValueError (e : exn) : bool :=
  match e with TypeError => false | _ => true end.

Inductive result (A : Type) : Type :=
| Ok (a : A)
| Raise (e : exn).
Arguments Ok {A} a.
Arguments Raise {A} e.

Definition bind {A B} (r : result A) (k : A -> result B) : result B :=
  match r with Ok a => k a | Raise e => Raise e end.

Notation "x <- r ;; k" := (bind r (fun x => k))
  (at level 61, r at next level, right associativity).

(** [try: body  except Exception: return d]. *)
Definition try_except {A} (body : result A) (d : A) : A :=
  match body with Ok a => a | Raise _ => d end.

(** Fixed-size pieces of a list, the last one possibly shorter. *)
Fixpoint chunks_fuel {A} (fuel n : nat) (l : list A) : list (list A) :=
  match fuel with
  | O => []
  | S f =>
      match l with
      | [] => []
      | _ => firstn n l :: chunks_fuel f n (skipn n l)
      end
  end.

Definition chunks {A} (n : nat) (l : list A) : list (list A) :=
  chunks_fuel (length l) n l.

(** ** SHA-2 (hashlib.sha256, hashlib.sha512) *)

Module Sha2.

Record params : Type := {
  wbits : N;                 (* word size *)
  wbytes : nat;              (* bytes per word *)
  ktab : list N;             (* round constants *)
  hinit : list N;            (* initial hash value *)
  bsig0 : N * N * N;         (* rotations of the big sigma 0 *)
  bsig1 : N * N * N;
  ssig0 : N * N * N;         (* rotr, rotr, shr of the small sigma 0 *)
  ssig1 : N * N * N
}.

Section Generic.
Variable p : params.

Definition wrap (x : N) : N := x mod 2 ^ wbits p.
Definition add (a b : N) : N := wrap (a + b).
Definition rotr (n x : N) : N :=
  wrap (N.lor (N.shiftr x n) (N.shiftl x (wbits p - n))).
Definition wnot (x : N) : N := N.lxor x (N.ones (wbits p)).

Definition Ch (x y z : N) := N.lxor (N.land x y) (N.land (wnot x) z).
Definition Maj (x y z : N) :=
  N.lxor (N.lxor (N.land x y) (N.land x z)) (N.land y z).
Definition Sigma (r : N * N * N) (x : N) :=
  let '(a, b, c) := r in N.lxor (N.lxor (rotr a x) (rotr b x)) (rotr c x).
Definition sigma (r : N * N * N) (x : N) :=
  let '(a, b, c) := r in N.lxor (N.lxor (rotr a x) (rotr b x)) (N.shiftr x c).

(** Big-endian conversions. *)
Fixpoint be_bytes (n : nat) (x : N) : bytes :=
  match n with
  | O => []
  | S n' => byte_of_N (N.shiftr x (8 * N.of_nat n')) :: be_bytes n' x
  end.

Definition be_word (bs : bytes) : N :=
  fold_left (fun acc b => acc * 256 + Byte.to_N b) bs 0.

Definition block_bytes : nat := (16 * wbytes p)%nat.

Definition pad_message (msg : bytes) : bytes :=
  let len := length msg in
  let lenbytes := (2 * wbytes p)%nat in
  let k := ((block_bytes - (len + 1 + lenbytes) mod block_bytes) mod block_bytes)%nat in
  msg ++ [x80] ++ repeat x00 k ++ be_bytes lenbytes (8 * N.of_nat len).

Fixpoint extend (n : nat) (ws : list N) : list N :=
  match n with
  | O => ws
  | S n' =>
      let t := length ws in
      let w := add (add (sigma (ssig1 p) (nth (t - 2) ws 0)) (nth (t - 7) ws 0))
                   (add (sigma (ssig0 p) (nth (t - 15) ws 0)) (nth (t - 16) ws 0)) in
      extend n' (ws ++ [w])
  end.

Definition schedule (block : bytes) : list N :=
  let ws := map be_word (chunks (wbytes p) block) in
  extend (length (ktab p) - 16) ws.

Definition hstate : Type := N * N * N * N * N * N * N * N.

Definition round (s : hstate) (kw : N * N) : hstate :=
  let '(a, b, c, d, e, f, g, h) := s in
  let '(k, w) := kw in
  let t1 := add (add (add h (Sigma (bsig1 p) e)) (add (Ch e f g) k)) w in
  let t2 := add (Sigma (bsig0 p) a) (Maj a b c) in
  (add t1 t2, a, b, c, add d t1, e, f, g).

Definition compress (s : hstate) (block : bytes) : hstate :=
  let '(a, b, c, d, e, f, g, h) := s in
  let '(a', b', c', d', e', f', g', h') :=
    fold_left round (combine (ktab p) (schedule block)) s in
  (add a a', add b b', add c c', add d d', add e e', add f f', add g g', add h h').

Definition init_state : hstate :=
  let h i := nth i (hinit p) 0 in
  (h 0%nat, h 1%nat, h 2%nat, h 3%nat, h 4%nat, h 5%nat, h 6%nat, h 7%nat).

Definition state_bytes (n : nat) (s : hstate) : bytes :=
  let '(a, b, c, d, e, f, g, h) := s in
  be_bytes n a ++ be_bytes n b ++ be_bytes n c ++ be_bytes n d ++
  be_bytes n e ++ be_bytes n f ++ be_bytes n g ++ be_bytes n h.

Definition digest (msg : bytes) : bytes :=
  state_bytes (wbytes p)
    (fold_left compress (chunks block_bytes (pad_message msg)) init_state).

End Generic.

(** The constants are the leading fractional bits of the square roots (for
    the initial hash value) and of the cube roots (for the round constants)
    of the first primes. *)
Definition is_prime (n : N) : bool :=
  (2 <=? n) && forallb (fun d => negb (n mod d =? 0))
                       (map N.of_nat (seq 2 (N.to_nat n - 2))).

Definition first_primes : list N :=
  Eval vm_compute in filter is_prime (map N.of_nat (seq 2 420)).

Definition primes (count : nat) : list N := firstn count first_primes.

(** The largest [r] below [2 ^ bits] with [r ^ k <= n], added to [acc]. *)
Fixpoint iroot (k n : N) (bits : nat) (acc : N) : N :=
  match bits with
  | O => acc
  | S b =>
      let c := acc + 2 ^ N.of_nat b in
      iroot k n b (if c ^ k <=? n then c else acc)
  end.

Definition frac_root (k w p : N) : N :=
  iroot k (p * 2 ^ (k * w)) (N.to_nat w + 3) 0 mod 2 ^ w.

Definition k256 : list N := Eval vm_compute in map (frac_root 3 32) (primes 64).
Definition h256 : list N := Eval vm_compute in map (frac_root 2 32) (primes 8).
Definition k512 : list N := Eval vm_compute in map (frac_root 3 64) (primes 80).
Definition h512 : list N := Eval vm_compute in map (frac_root 2 64) (primes 8).

Definition p256 : params := {|
  wbits := 32; wbytes := 4;
  ktab := k256;
  hinit := h256;
  bsig0 := (2, 13, 22); bsig1 := (6, 11, 25);
  ssig0 := (7, 18, 3); ssig1 := (17, 19, 10)
|}.

Definition p512 : params := {|
  wbits := 64; wbytes := 8;
  ktab := k512;
  hinit := h512;
  bsig0 := (28, 34, 39); bsig1 := (14, 18, 41);
  ssig0 := (1, 8, 7); ssig1 := (19, 61, 6)
|}.

Definition sha256 : bytes -> bytes := digest p256.
Definition sha512 : bytes -> bytes := digest p512.

End Sha2.

(** [bytes.hex()] and [hexdigest()]: two lowercase hexadecimal characters
    per byte. *)
Definition hex_char (n : N) : N := if n <? 10 then 48 + n else 87 + n.

Definition hex_of_bytes (bs : bytes) : pystr :=
  flat_map (fun b => [hex_char (Byte.to_N b / 16); hex_char (Byte.to_N b mod 16)]) bs.


(** ** AES (Crypto.Cipher.AES of pycryptodome), FIPS-197 *)

Module Aes.

Definition sbox_table : list byte :=
  [ x63; x7c; x77; x7b; xf2; x6b; x6f; xc5; x30; x01; x67; x2b; xfe; xd7; xab; x76;
      xca; x82; xc9; x7d; xfa; x59; x47; xf0; xad; xd4; xa2; xaf; x9c; xa4; x72; xc0;
      xb7; xfd; x93; x26; x36; x3f; xf7; xcc; x34; xa5; xe5; xf1; x71; xd8; x31; x15;
      x04; xc7; x23; xc3; x18; x96; x05; x9a; x07; x12; x80; xe2; xeb; x27; xb2; x75;
      x09; x83; x2c; x1a; x1b; x6e; x5a; xa0; x52; x3b; xd6; xb3; x29; xe3; x2f; x84;
      x53; xd1; x00; xed; x20; xfc; xb1; x5b; x6a; xcb; xbe; x39; x4a; x4c; x58; xcf;
      xd0; xef; xaa; xfb; x43; x4d; x33; x85; x45; xf9; x02; x7f; x50; x3c; x9f; xa8;
      x51; xa3; x40; x8f; x92; x9d; x38; xf5; xbc; xb6; xda; x21; x10; xff; xf3; xd2;
      xcd; x0c; x13; xec; x5f; x97; x44; x17; xc4; xa7; x7e; x3d; x64; x5d; x19; x73;
      x60; x81; x4f; xdc; x22; x2a; x90; x88; x46; xee; xb8; x14; xde; x5e; x0b; xdb;
      xe0; x32; x3a; x0a; x49; x06; x24; x5c; xc2; xd3; xac; x62; x91; x95; xe4; x79;
      xe7; xc8; x37; x6d; x8d; xd5; x4e; xa9; x6c; x56; xf4; xea; x65; x7a; xae; x08;
      xba; x78; x25; x2e; x1c; xa6; xb4; xc6; xe8; xdd; x74; x1f; x4b; xbd; x8b; x8a;
      x70; x3e; xb5; x66; x48; x03; xf6; x0e; x61; x35; x57; xb9; x86; xc1; x1d; x9e;
      xe1; xf8; x98; x11; x69; xd9; x8e; x94; x9b; x1e; x87; xe9; xce; x55; x28; xdf;
      x8c; xa1; x89; x0d; xbf; xe6; x42; x68; x41; x99; x2d; x0f; xb0; x54; xbb; x16 ].

Definition inv_sbox_table : list byte :=
  [ x52; x09; x6a; xd5; x30; x36; xa5; x38; xbf; x40; xa3; x9e; x81; xf3; xd7; xfb;
      x7c; xe3; x39; x82; x9b; x2f; xff; x87; x34; x8e; x43; x44; xc4; xde; xe9; xcb;
      x54; x7b; x94; x32; xa6; xc2; x23; x3d; xee; x4c; x95; x0b; x42; xfa; xc3; x4e;
      x08; x2e; xa1; x66; x28; xd9; x24; xb2; x76; x5b; xa2; x49; x6d; x8b; xd1; x25;
      x72; xf8; xf6; x64; x86; x68; x98; x16; xd4; xa4; x5c; xcc; x5d; x65; xb6; x92;
      x6c; x70; x48; x50; xfd; xed; xb9; xda; x5e; x15; x46; x57; xa7; x8d; x9d; x84;
      x90; xd8; xab; x00; x8c; xbc; xd3; x0a; xf7; xe4; x58; x05; xb8; xb3; x45; x06;
      xd0; x2c; x1e; x8f; xca; x3f; x0f; x02; xc1; xaf; xbd; x03; x01; x13; x8a; x6b;
      x3a; x91; x11; x41; x4f; x67; xdc; xea; x97; xf2; xcf; xce; xf0; xb4; xe6; x73;
      x96; xac; x74; x22; xe7; xad; x35; x85; xe2; xf9; x37; xe8; x1c; x75; xdf; x6e;
      x47; xf1; x1a; x71; x1d; x29; xc5; x89; x6f; xb7; x62; x0e; xaa; x18; xbe; x1b;
      xfc; x56; x3e; x4b; xc6; xd2; x79; x20; x9a; xdb; xc0; xfe; x78; xcd; x5a; xf4;
      x1f; xdd; xa8; x33; x88; x07; xc7; x31; xb1; x12; x10; x59; x27; x80; xec; x5f;
      x60; x51; x7f; xa9; x19; xb5; x4a; x0d; x2d; xe5; x7a; x9f; x93; xc9; x9c; xef;
      xa0; xe0; x3b; x4d; xae; x2a; xf5; xb0; xc8; xeb; xbb; x3c; x83; x53; x99; x61;
      x17; x2b; x04; x7e; xba; x77; xd6; x26; xe1; x69; x14; x63; x55; x21; x0c; x7d ].

Definition sub_byte (b : byte) : byte := nth (Byte.to_nat b) sbox_table x00.
Definition inv_sub_byte (b : byte) : byte := nth (Byte.to_nat b) inv_sbox_table x00.

(** Multiplication by x in GF(2^8) modulo x^8 + x^4 + x^3 + x + 1. *)
Definition xtime (b : byte) : byte :=
  let n := Byte.to_N b in
  byte_of_N (if n <? 128 then 2 * n else N.lxor (2 * n) 0x11b).

Definition m2 := xtime.
Definition m3 (a : byte) := bxor (m2 a) a.
Definition m4 (a : byte) := xtime (xtime a).
Definition m8 (a : byte) := xtime (m4 a).
Definition m9 (a : byte) := bxor (m8 a) a.
Definition m11 (a : byte) := bxor (bxor (m8 a) (m2 a)) a.
Definition m13 (a : byte) := bxor (bxor (m8 a) (m4 a)) a.
Definition m14 (a : byte) := bxor (bxor (m8 a) (m4 a)) (m2 a).

(** A word is a column of four bytes; the state is four columns. *)
Definition word : Type := byte * byte * byte * byte.
Definition state : Type := word * word * word * word.

Definition wmap (f : byte -> byte) (w : word) : word :=
  let '(a, b, c, d) := w in (f a, f b, f c, f d).
Definition wxor (v w : word) : word :=
  let '(a, b, c, d) := v in
  let '(a', b', c', d') := w in
  (bxor a a', bxor b b', bxor c c', bxor d d').
Definition smap (f : word -> word) (s : state) : state :=
  let '(c0, c1, c2, c3) := s in (f c0, f c1, f c2, f c3).
Definition sxor (s k : state) : state :=
  let '(c0, c1, c2, c3) := s in
  let '(k0, k1, k2, k3) := k in
  (wxor c0 k0, wxor c1 k1, wxor c2 k2, wxor c3 k3).

Definition sub_bytes : state -> state := smap (wmap sub_byte).
Definition inv_sub_bytes : state -> state := smap (wmap inv_sub_byte).

Definition shift_rows (s : state) : state :=
  let '((a0, a1, a2, a3), (b0, b1, b2, b3), (c0, c1, c2, c3), (d0, d1, d2, d3)) := s in
  ((a0, b1, c2, d3), (b0, c1, d2, a3), (c0, d1, a2, b3), (d0, a1, b2, c3)).

Definition inv_shift_rows (s : state) : state :=
  let '((a0, a1, a2, a3), (b0, b1, b2, b3), (c0, c1, c2, c3), (d0, d1, d2, d3)) := s in
  ((a0, d1, c2, b3), (b0, a1, d2, c3), (c0, b1, a2, d3), (d0, c1, b2, a3)).

Definition x4 (a b c d : byte) : byte := bxor (bxor (bxor a b) c) d.

Definition mix_column (w : word) : word :=
  let '(a0, a1, a2, a3) := w in
  (x4 (m2 a0) (m3 a1) a2 a3,
   x4 a0 (m2 a1) (m3 a2) a3,
   x4 a0 a1 (m2 a2) (m3 a3),
   x4 (m3 a0) a1 a2 (m2 a3)).

Definition inv_mix_column (w : word) : word :=
  let '(a0, a1, a2, a3) := w in
  (x4 (m14 a0) (m11 a1) (m13 a2) (m9 a3),
   x4 (m9 a0) (m14 a1) (m11 a2) (m13 a3),
   x4 (m13 a0) (m9 a1) (m14 a2) (m11 a3),
   x4 (m11 a0) (m13 a1) (m9 a2) (m14 a3)).

Definition mix_columns : state -> state := smap mix_column.
Definition inv_mix_columns : state -> state := smap inv_mix_column.

Definition add_round_key (k s : state) : state := sxor s k.

(** Key expansion. *)
Definition w0 : word := (x00, x00, x00, x00).
Definition rot_word (w : word) : word :=
  let '(a, b, c, d) := w in (b, c, d, a).
Definition rcon (i : nat) : word := (Nat.iter (i - 1) xtime x01, x00, x00, x00).

Fixpoint words_of_bytes (bs : bytes) : list word :=
  match bs with
  | a :: b :: c :: d :: rest => (a, b, c, d) :: words_of_bytes rest
  | _ => []
  end.

Fixpoint states_of_words (ws : list word) : list state :=
  match ws with
  | a :: b :: c :: d :: rest => (a, b, c, d) :: states_of_words rest
  | _ => []
  end.

Fixpoint expand (n nk : nat) (ws : list word) : list word :=
  match n with
  | O => ws
  | S n' =>
      let i := length ws in
      let temp := nth (i - 1) ws w0 in
      let temp' :=
        if (i mod nk =? 0)%nat then wxor (wmap sub_byte (rot_word temp)) (rcon (i / nk))
        else if ((6 <? nk) && (i mod nk =? 4))%nat then wmap sub_byte temp
        else temp in
      expand n' nk (ws ++ [wxor (nth (i - nk) ws w0) temp'])
  end.

Definition key_schedule (key : bytes) : list state :=
  let nk := (length key / 4)%nat in
  let nr := (nk + 6)%nat in
  states_of_words (expand (4 * (nr + 1) - nk) nk (words_of_bytes key)).

(** The cipher and the inverse cipher over a list of round keys. *)
Fixpoint rounds (rks : list state) (s : state) : state :=
  match rks with
  | [] => s
  | [kl] => add_round_key kl (shift_rows (sub_bytes s))
  | k :: rest => rounds rest (add_round_key k (mix_columns (shift_rows (sub_bytes s))))
  end.

Definition cipher (rks : list state) (s : state) : state :=
  match rks with
  | [] => s
  | k0 :: rest => rounds rest (add_round_key k0 s)
  end.

Fixpoint inv_rounds (rks : list state) (s : state) : state :=
  match rks with
  | [] => s
  | [kl] => inv_sub_bytes (inv_shift_rows (add_round_key kl s))
  | k :: rest =>
      inv_sub_bytes (inv_shift_rows (inv_mix_columns (add_round_key k (inv_rounds rest s))))
  end.

Definition inv_cipher (rks : list state) (s : state) : state :=
  match rks with
  | [] => s
  | k0 :: rest => add_round_key k0 (inv_rounds rest s)
  end.

(** Blocks of sixteen bytes, column by column. *)
Definition bytes_of_word (w : word) : bytes :=
  let '(a, b, c, d) := w in [a; b; c; d].
Definition bytes_of_state (s : state) : bytes :=
  let '(c0, c1, c2, c3) := s in
  bytes_of_word c0 ++ bytes_of_word c1 ++ bytes_of_word c2 ++ bytes_of_word c3.

Fixpoint blocks_of_bytes (bs : bytes) : option (list state) :=
  match bs with
  | [] => Some []
  | a0 :: a1 :: a2 :: a3 :: b0 :: b1 :: b2 :: b3 ::
    c0 :: c1 :: c2 :: c3 :: d0 :: d1 :: d2 :: d3 :: rest =>
      match blocks_of_bytes rest with
      | Some l => Some (((a0, a1, a2, a3), (b0, b1, b2, b3), (c0, c1, c2, c3), (d0, d1, d2, d3)) :: l)
      | None => None
      end
  | _ => None
  end.

Definition bytes_of_blocks (l : list state) : bytes := flat_map bytes_of_state l.

(** CBC chaining. *)
Fixpoint cbc_encrypt (rks : list state) (prev : state) (blocks : list state) : list state :=
  match blocks with
  | [] => []
  | b :: bs => let c := cipher rks (sxor b prev) in c :: cbc_encrypt rks c bs
  end.

Fixpoint cbc_decrypt (rks : list state) (prev : state) (blocks : list state) : list state :=
  match blocks with
  | [] => []
  | c :: cs => sxor (inv_cipher rks c) prev :: cbc_decrypt rks c cs
  end.

(** [AES.new(key, AES.MODE_CBC, iv)]: the key must have 16, 24 or 32 bytes
    and the IV 16 bytes, else [ValueError]. *)
Record cbc_cipher : Type := { round_keys : list state; iv_state : state }.

Definition valid_key_length (n : nat) : bool :=
  ((n =? 16) || (n =? 24) || (n =? 32))%nat.

Definition new_cbc (key iv : bytes) : result cbc_cipher :=
  if valid_key_length (length key) then
    match blocks_of_bytes iv with
    | Some [ivs] => Ok {| round_keys := key_schedule key; iv_state := ivs |}
    | _ => Raise ValueError
    end
  else Raise ValueError.

(** [cipher.encrypt(data)] and [cipher.decrypt(data)]: [ValueError] unless
    the data is a whole number of blocks. *)
Definition encrypt (c : cbc_cipher) (data : bytes) : result bytes :=
  match blocks_of_bytes data with
  | Some bl => Ok (bytes_of_blocks (cbc_encrypt (round_keys c) (iv_state c) bl))
  | None => Raise ValueError
  end.

Definition decrypt (c : cbc_cipher) (data : bytes) : result bytes :=
  match blocks_of_bytes data with
  | Some bl => Ok (bytes_of_blocks (cbc_decrypt (round_keys c) (iv_state c) bl))
  | None => Raise ValueError
  end.

End Aes.

(** ** HMAC (hmac.new(key, msg, digestmod).digest()) *)

Definition hmac (H : bytes -> bytes) (block : nat) (key msg : bytes) : bytes :=
  let k0 := if (block <? length key)%nat then H key else key in
  let k := k0 ++ repeat x00 (block - length k0) in
  H (map (bxor x5c) k ++ H (map (bxor x36) k ++ msg)).

Definition hmac_sha512 : bytes -> bytes -> bytes := hmac Sha2.sha512 128.
Definition hmac_sha256 : bytes -> bytes -> bytes := hmac Sha2.sha256 64.

(** ** Text codecs *)

(** [s.encode("ascii")] and [b.decode("ascii")]. *)
Definition encode_ascii (s : pystr) : result bytes :=
  if forallb (fun c => c <? 128) s then Ok (map byte_of_N s)
  else Raise UnicodeEncodeError.

Definition decode_ascii (bs : bytes) : result pystr :=
  if forallb (fun b => Byte.to_N b <? 128) bs then Ok (map Byte.to_N bs)
  else Raise UnicodeDecodeError.

(** [s.encode("utf-8")]: surrogates (and anything past U+10FFFF) cannot be
    encoded. *)
Definition utf8_encode_char (c : N) : option bytes :=
  if c <? 0x80 then Some [byte_of_N c]
  else if c <? 0x800 then
    Some [byte_of_N (0xC0 + c / 64); byte_of_N (0x80 + c mod 64)]
  else if c <? 0x10000 then
    if (0xD800 <=? c) && (c <=? 0xDFFF) then None
    else Some [byte_of_N (0xE0 + c / 4096); byte_of_N (0x80 + (c / 64) mod 64);
               byte_of_N (0x80 + c mod 64)]
  else if c <? 0x110000 then
    Some [byte_of_N (0xF0 + c / 262144); byte_of_N (0x80 + (c / 4096) mod 64);
          byte_of_N (0x80 + (c / 64) mod 64); byte_of_N (0x80 + c mod 64)]
  else None.

Fixpoint utf8_encode_opt (s : pystr) : option bytes :=
  match s with
  | [] => Some []
  | c :: r =>
      match utf8_encode_char c, utf8_encode_opt r with
      | Some bs, Some rest => Some (bs ++ rest)
      | _, _ => None
      end
  end.

Definition utf8_encode (s : pystr) : result bytes :=
  match utf8_encode_opt s with Some bs => Ok bs | None => Raise UnicodeEncodeError end.

(** [b.decode("utf-8", errors="strict")]: well-formed sequences only (no
    overlong forms, no surrogates, nothing past U+10FFFF). *)
Definition in_range (lo hi : N) (b : byte) : bool :=
  (lo <=? Byte.to_N b) && (Byte.to_N b <=? hi).

Definition tail6 (b : byte) : N := Byte.to_N b - 0x80.

Fixpoint utf8_decode_opt (bs : bytes) : option pystr :=
  match bs with
  | [] => Some []
  | b0 :: r0 =>
      let n0 := Byte.to_N b0 in
      if n0 <? 0x80 then option_map (cons n0) (utf8_decode_opt r0)
      else if in_range 0xC2 0xDF b0 then
        match r0 with
        | b1 :: r1 =>
            if in_range 0x80 0xBF b1
            then option_map (cons ((n0 - 0xC0) * 64 + tail6 b1)) (utf8_decode_opt r1)
            else None
        | _ => None
        end
      else if in_range 0xE0 0xEF b0 then
        match r0 with
        | b1 :: b2 :: r2 =>
            let lo := if n0 =? 0xE0 then 0xA0 else 0x80 in
            let hi := if n0 =? 0xED then 0x9F else 0xBF in
            if in_range lo hi b1 && in_range 0x80 0xBF b2
            then option_map (cons ((n0 - 0xE0) * 4096 + tail6 b1 * 64 + tail6 b2))
                            (utf8_decode_opt r2)
            else None
        | _ => None
        end
      else if in_range 0xF0 0xF4 b0 then
        match r0 with
        | b1 :: b2 :: b3 :: r3 =>
            let lo := if n0 =? 0xF0 then 0x90 else 0x80 in
            let hi := if n0 =? 0xF4 then 0x8F else 0xBF in
            if in_range lo hi b1 && in_range 0x80 0xBF b2 && in_range 0x80 0xBF b3
            then option_map
                   (cons ((n0 - 0xF0) * 262144 + tail6 b1 * 4096 + tail6 b2 * 64 + tail6 b3))
                   (utf8_decode_opt r3)
            else None
        | _ => None
        end
      else None
  end.

Definition utf8_decode (bs : bytes) : result pystr :=
  match utf8_decode_opt bs with Some s => Ok s | None => Raise UnicodeDecodeError end.

(** ** Whitespace, splitting, prefixes *)

(** [str.isspace] on one code point. *)
Definition is_space (c : N) : bool :=
  ((9 <=? c) && (c <=? 13)) || ((28 <=? c) && (c <=? 32)) ||
  (c =? 0x85) || (c =? 0xa0) || (c =? 0x1680) ||
  ((0x2000 <=? c) && (c <=? 0x200a)) ||
  (c =? 0x2028) || (c =? 0x2029) || (c =? 0x202f) || (c =? 0x205f) || (c =? 0x3000).

(** The C-locale [isspace] the byte-level parsers use. *)
Definition is_ascii_space (c : N) : bool :=
  ((9 <=? c) && (c <=? 13)) || (c =? 32).

Fixpoint lstrip (s : pystr) : pystr :=
  match s with
  | c :: r => if is_space c then lstrip r else s
  | [] => []
  end.

(** [s.strip()]. *)
Definition strip (s : pystr) : pystr := rev (lstrip (rev (lstrip s))).

(** [s.split(sep)] for a one-character separator. *)
Fixpoint split_on (sep : N) (s : pystr) : list pystr :=
  match s with
  | [] => [[]]
  | c :: r =>
      if c =? sep then [] :: split_on sep r
      else match split_on sep r with
           | h :: t => (c :: h) :: t
           | [] => [[c]]
           end
  end.

(** [s.splitlines()]. *)
Definition is_linebreak (c : N) : bool :=
  ((10 <=? c) && (c <=? 13)) || ((0x1c <=? c) && (c <=? 0x1e)) ||
  (c =? 0x85) || (c =? 0x2028) || (c =? 0x2029).

Fixpoint splitlines_from (cur : pystr) (s : pystr) : list pystr :=
  match s with
  | [] => match cur with [] => [] | _ => [rev cur] end
  | c :: r =>
      if c =? 13 then
        match r with
        | d :: r' => if d =? 10 then rev cur :: splitlines_from [] r'
                     else rev cur :: splitlines_from [] r
        | [] => [rev cur]
        end
      else if is_linebreak c then rev cur :: splitlines_from [] r
      else splitlines_from (c :: cur) r
  end.

Definition splitlines (s : pystr) : list pystr := splitlines_from [] s.

Definition ascii_lower (c : N) : N :=
  if (65 <=? c) && (c <=? 90) then c + 32 else c.

Fixpoint startswith (prefix s : pystr) : bool :=
  match prefix, s with
  | [], _ => true
  | p :: ps, c :: cs => (p =? c) && startswith ps cs
  | _ :: _, [] => false
  end.

(** [s.lower().startswith(prefix)] for a lowercase ASCII [prefix] made of
    letters that only their ASCII capitals lowercase to. *)
Definition lower_startswith (prefix s : pystr) : bool :=
  startswith prefix (map ascii_lower (firstn (length prefix) s)).

(** ** Hexadecimal *)

Definition hex_value (c : N) : option N :=
  if (48 <=? c) && (c <=? 57) then Some (c - 48)
  else if (97 <=? c) && (c <=? 102) then Some (c - 87)
  else if (65 <=? c) && (c <=? 70) then Some (c - 55)
  else None.

(** [bytes.fromhex(s)]: pairs of hexadecimal digits, ASCII whitespace
    allowed between the pairs. *)
Fixpoint fromhex (s : pystr) : result bytes :=
  match s with
  | [] => Ok []
  | c :: r =>
      if is_ascii_space c then fromhex r
      else match hex_value c, r with
           | Some t, d :: r' =>
               match hex_value d with
               | Some b => x <- fromhex r' ;; Ok (byte_of_N (16 * t + b) :: x)
               | None => Raise ValueError
               end
           | _, _ => Raise ValueError
           end
  end.

(** ** Base64 (base64, binascii) *)

Module Base64.

Definition alphabet (i : N) : N :=
  if i <? 26 then 65 + i
  else if i <? 52 then 97 + (i - 26)
  else if i <? 62 then 48 + (i - 52)
  else if i =? 62 then 43 else 47.

(** [binascii.b2a_base64(s, newline=False)]. *)
Definition sextet (i : N) : byte := byte_of_N (alphabet i).

Fixpoint b64encode (bs : bytes) : bytes :=
  match bs with
  | [] => []
  | [a] =>
      let a := Byte.to_N a in
      [sextet (a / 4); sextet (a mod 4 * 16); x3d; x3d]
  | [a; b] =>
      let a := Byte.to_N a in
      let b := Byte.to_N b in
      [sextet (a / 4); sextet (a mod 4 * 16 + b / 16); sextet (b mod 16 * 4); x3d]
  | a :: b :: c :: rest =>
      let a := Byte.to_N a in
      let b := Byte.to_N b in
      let c := Byte.to_N c in
      sextet (a / 4) :: sextet (a mod 4 * 16 + b / 16) ::
      sextet (b mod 16 * 4 + c / 64) :: sextet (c mod 64) :: b64encode rest
  end.

(** The URL-safe alphabet writes [-] for [+] and [_] for [/]. *)
Definition to_urlsafe (b : byte) : byte :=
  match b with x2b => x2d | x2f => x5f | _ => b end.
Definition from_urlsafe (b : byte) : byte :=
  match b with x2d => x2b | x5f => x2f | _ => b end.

Definition urlsafe_b64encode (bs : bytes) : bytes := map to_urlsafe (b64encode bs).

(** The decoding table of [binascii]. *)
Definition a2b_value (b : byte) : option N :=
  let c := Byte.to_N b in
  if (65 <=? c) && (c <=? 90) then Some (c - 65)
  else if (97 <=? c) && (c <=? 122) then Some (c - 71)
  else if (48 <=? c) && (c <=? 57) then Some (c + 4)
  else if c =? 43 then Some 62
  else if c =? 47 then Some 63
  else None.

(** [binascii.a2b_base64(s)] in its lenient mode: characters outside the
    alphabet are skipped, a completed pad sequence ends the input, and
    leftover characters of an unfinished quad are an error. *)
Fixpoint a2b_from (s : bytes) (quad_pos leftchar pads : N) : result bytes :=
  match s with
  | [] => if quad_pos =? 0 then Ok [] else Raise BinasciiError
  | ch :: rest =>
      if Byte.eqb ch x3d then
        if (2 <=? quad_pos) && (4 <=? quad_pos + (pads + 1)) then Ok []
        else a2b_from rest quad_pos leftchar (if 2 <=? quad_pos then pads + 1 else pads)
      else
        match a2b_value ch with
        | None => a2b_from rest quad_pos leftchar pads
        | Some v =>
            if quad_pos =? 0 then a2b_from rest 1 v 0
            else if quad_pos =? 1 then
              x <- a2b_from rest 2 (v mod 16) 0 ;;
              Ok (byte_of_N (leftchar * 4 + v / 16) :: x)
            else if quad_pos =? 2 then
              x <- a2b_from rest 3 (v mod 4) 0 ;;
              Ok (byte_of_N (leftchar * 16 + v / 4) :: x)
            else
              x <- a2b_from rest 0 0 0 ;;
              Ok (byte_of_N (leftchar * 64 + v) :: x)
        end
  end.

Definition a2b_base64 (s : bytes) : result bytes := a2b_from s 0 0 0.

(** [base64._bytes_from_decode_data] on a [str]: ASCII only, else
    [ValueError]. *)
Definition bytes_from_decode_data (s : pystr) : result bytes :=
  match encode_ascii s with
  | Ok b => Ok b
  | Raise _ => Raise ValueError
  end.

(** [base64.b64decode(s, validate=False)]. *)
Definition b64decode (s : pystr) : result bytes :=
  b <- bytes_from_decode_data s ;; a2b_base64 b.

(** [base64.urlsafe_b64decode(s)]. *)
Definition urlsafe_b64decode (s : pystr) : result bytes :=
  b <- bytes_from_decode_data s ;; a2b_base64 (map from_urlsafe b).

End Base64.

(** ** PKCS#7 (Crypto.Util.Padding) *)

Module Padding.

(** [pad(data, block_size, style="pkcs7")]. *)
Definition pad (data : bytes) (block_size : nat) : bytes :=
  let padding_len := (block_size - length data mod block_size)%nat in
  data ++ repeat (byte_of_N (N.of_nat padding_len)) padding_len.

(** [unpad(data, block_size, style="pkcs7")]; every failure is a
    [ValueError]. *)
Definition unpad (padded : bytes) (block_size : nat) : result bytes :=
  let pdata_len := length padded in
  if (pdata_len =? 0)%nat then Raise ValueError
  else if negb (pdata_len mod block_size =? 0)%nat then Raise ValueError
  else
    let padding_len := Byte.to_nat (last padded x00) in
    if ((padding_len <? 1) || (Nat.min block_size pdata_len <? padding_len))%nat
    then Raise ValueError
    else if negb (bytes_eqb (skipn (pdata_len - padding_len) padded)
                            (repeat (byte_of_N (N.of_nat padding_len)) padding_len))
    then Raise ValueError
    else Ok (firstn (pdata_len - padding_len) padded).

End Padding.

(** ** Integers and their decimal text *)

Fixpoint uint_chars (u : Decimal.uint) : pystr :=
  match u with
  | Decimal.Nil => []
  | Decimal.D0 u => 48 :: uint_chars u
  | Decimal.D1 u => 49 :: uint_chars u
  | Decimal.D2 u => 50 :: uint_chars u
  | Decimal.D3 u => 51 :: uint_chars u
  | Decimal.D4 u => 52 :: uint_chars u
  | Decimal.D5 u => 53 :: uint_chars u
  | Decimal.D6 u => 54 :: uint_chars u
  | Decimal.D7 u => 55 :: uint_chars u
  | Decimal.D8 u => 56 :: uint_chars u
  | Decimal.D9 u => 57 :: uint_chars u
  end.

(** [str(n)] and the [{n}] of an f-string, for an [int]. *)
Definition str_of_int (z : Z) : pystr :=
  match Z.to_int z with
  | Decimal.Pos u => uint_chars u
  | Decimal.Neg u => 45 :: uint_chars u
  end.

(** The first code point of every run of ten Unicode decimal digits. *)
Definition decimal_zeros : list N :=
  [ 0x30; 0x660; 0x6f0; 0x7c0; 0x966; 0x9e6; 0xa66; 0xae6;
    0xb66; 0xbe6; 0xc66; 0xce6; 0xd66; 0xde6; 0xe50; 0xed0;
    0xf20; 0x1040; 0x1090; 0x17e0; 0x1810; 0x1946; 0x19d0; 0x1a80;
    0x1a90; 0x1b50; 0x1bb0; 0x1c40; 0x1c50; 0xa620; 0xa8d0; 0xa900;
    0xa9d0; 0xa9f0; 0xaa50; 0xabf0; 0xff10; 0x104a0; 0x10d30; 0x11066;
    0x110f0; 0x11136; 0x111d0; 0x112f0; 0x11450; 0x114d0; 0x11650; 0x116c0;
    0x11730; 0x118e0; 0x11950; 0x11c50; 0x11d50; 0x11da0; 0x16a60; 0x16ac0;
    0x16b50; 0x1d7ce; 0x1d7d8; 0x1d7e2; 0x1d7ec; 0x1d7f6; 0x1e140; 0x1e2f0;
    0x1e950; 0x1fbf0 ].

Definition decimal_value (c : N) : option N :=
  match find (fun z => (z <=? c) && (c <? z + 10)) decimal_zeros with
  | Some z => Some (c - z)
  | None => None
  end.

(** What [int(s)] does to the text first: Unicode digits become ASCII
    digits, Unicode spaces become a blank, and the text is cut with a [?] at
    any other non-ASCII character. *)
Fixpoint to_ascii_decimal (s : pystr) : pystr :=
  match s with
  | [] => []
  | c :: r =>
      if c <? 127 then c :: to_ascii_decimal r
      else if is_space c then 32 :: to_ascii_decimal r
      else match decimal_value c with
           | Some d => (48 + d) :: to_ascii_decimal r
           | None => [63]
           end
  end.

Definition digit_cons (d : N) (u : Decimal.uint) : Decimal.uint :=
  match d with
  | 0 => Decimal.D0 u | 1 => Decimal.D1 u | 2 => Decimal.D2 u | 3 => Decimal.D3 u
  | 4 => Decimal.D4 u | 5 => Decimal.D5 u | 6 => Decimal.D6 u | 7 => Decimal.D7 u
  | 8 => Decimal.D8 u | _ => Decimal.D9 u
  end.

Definition is_digit (c : N) : bool := (48 <=? c) && (c <=? 57).

(** Digits with single underscores between them; stops at the first other
    character. *)
Fixpoint scan_digits (s : pystr) (prev : N) : option (Decimal.uint * pystr) :=
  match s with
  | [] => if prev =? 95 then None else Some (Decimal.Nil, [])
  | c :: r =>
      if is_digit c then
        match scan_digits r c with
        | Some (u, e) => Some (digit_cons (c - 48) u, e)
        | None => None
        end
      else if c =? 95 then (if prev =? 95 then None else scan_digits r 95)
      else if prev =? 95 then None else Some (Decimal.Nil, s)
  end.

Fixpoint lstrip_ascii (s : pystr) : pystr :=
  match s with
  | c :: r => if is_ascii_space c then lstrip_ascii r else s
  | [] => []
  end.

(** [int(s)] for a [str] (base ten).  The interpreter's limit on the number
    of digits of a literal is not modelled. *)
Definition py_int (s : pystr) : result Z :=
  let t := lstrip_ascii (to_ascii_decimal s) in
  let '(neg, t) :=
    match t with
    | c :: r => if c =? 43 then (false, r) else if c =? 45 then (true, r) else (false, t)
    | [] => (false, t)
    end in
  if startswith [95] t then Raise ValueError
  else
    match scan_digits t 0 with
    | Some (Decimal.Nil, _) => Raise ValueError
    | Some (u, rest) =>
        if forallb is_ascii_space rest
        then Ok (if neg then - Z.of_uint u else Z.of_uint u)%Z
        else Raise ValueError
    | None => Raise ValueError
    end.

(** ** Python values *)

(** The values a JSON document decodes to.  A [float] is represented by its
    [repr]; a [dict] by its items in insertion order (keys are [str]). *)
#[warnings="-register-all"]
Inductive pyval : Type :=
| VNone
| VBool (b : bool)
| VInt (z : Z)
| VFloat (repr : pystr)
| VStr (s : pystr)
| VList (l : list pyval)
| VDict (d : list (pystr * pyval)).

Definition empty_dict : pyval := VDict [].

(** [bool(v)]. *)
Definition truthy (v : pyval) : bool :=
  match v with
  | VNone => false
  | VBool b => b
  | VInt z => negb (z =? 0)%Z
  | VFloat r => negb (pystr_eqb r (lit "0.0") || pystr_eqb r (lit "-0.0"))
  | VStr s => match s with [] => false | _ => true end
  | VList l => match l with [] => false | _ => true end
  | VDict d => match d with [] => false | _ => true end
  end.

Definition is_dict (v : pyval) : bool :=
  match v with VDict _ => true | _ => false end.

(** [d.get(key)]. *)
Fixpoint dict_get (key : pystr) (d : list (pystr * pyval)) : pyval :=
  match d with
  | [] => VNone
  | (k, v) :: r => if pystr_eqb k key then v else dict_get key r
  end.

(** [key in d]. *)
Definition dict_mem (key : pystr) (d : list (pystr * pyval)) : bool :=
  existsb (fun kv => pystr_eqb (fst kv) key) d.

(** [d[key] = v]: the value of an existing key is replaced in place, a new
    key goes to the end. *)
Fixpoint dict_set (key : pystr) (v : pyval) (d : list (pystr * pyval))
  : list (pystr * pyval) :=
  match d with
  | [] => [(key, v)]
  | (k, x) :: r => if pystr_eqb k key then (k, v) :: r else (k, x) :: dict_set key v r
  end.

(** [json.dumps(v, ensure_ascii=False, separators=(",", ":"))]. *)
Definition json_escape_char (c : N) : pystr :=
  if c =? 34 then [92; 34]
  else if c =? 92 then [92; 92]
  else if c =? 8 then [92; 98]
  else if c =? 12 then [92; 102]
  else if c =? 10 then [92; 110]
  else if c =? 13 then [92; 114]
  else if c =? 9 then [92; 116]
  else if c <? 32 then [92; 117; 48; 48; hex_char (c / 16); hex_char (c mod 16)]
  else [c].

Definition json_string (s : pystr) : pystr :=
  [34] ++ flat_map json_escape_char s ++ [34].

Definition json_float (r : pystr) : pystr :=
  if pystr_eqb r (lit "nan") then lit "NaN"
  else if pystr_eqb r (lit "inf") then lit "Infinity"
  else if pystr_eqb r (lit "-inf") then lit "-Infinity"
  else r.

Fixpoint json_dumps (v : pyval) : pystr :=
  match v with
  | VNone => lit "null"
  | VBool true => lit "true"
  | VBool false => lit "false"
  | VInt z => str_of_int z
  | VFloat r => json_float r
  | VStr s => json_string s
  | VList l =>
      [91] ++
      (fix items (l : list pyval) : pystr :=
         match l with
         | [] => []
         | x :: r => json_dumps x ++ match r with [] => [] | _ => 44 :: items r end
         end) l ++ [93]
  | VDict d =>
      [123] ++
      (fix items (d : list (pystr * pyval)) : pystr :=
         match d with
         | [] => []
         | (k, x) :: r =>
             json_string k ++ [58] ++ json_dumps x ++
             match r with [] => [] | _ => 44 :: items r end
         end) d ++ [125]
  end.

(** ** app/service/crypto_helper.py *)

(** The process environment the module reads: its module-level constants,
    the [XDATA_KEYS] variable, and the file [xdata.keys] ([None] when it
    does not exist, otherwise what [read_text] gives). *)
Record environ : Type := {
  XDATA_KEY : pystr;
  AX_API_SIG_KEY : pystr;
  X_API_BASE_SECRET : pystr;
  ENCRYPTED_FIELD_KEY : pystr;
  XDATA_KEYS : pystr;
  xdata_keys_file : option (result pystr)
}.

Module CryptoHelper.

Definition _BLOCK_SIZE : nat := 16.

Definition nonempty {A} (l : list A) : bool :=
  match l with [] => false | _ => true end.

Definition _key_bytes (key_str : pystr) : option bytes :=
  if negb (nonempty key_str) then None
  else
    let s := strip key_str in
    let decoded :=
      if lower_startswith (lit "hex:") s then fromhex (strip (skipn 4 s))
      else if lower_startswith (lit "b64:") s then Base64.b64decode (strip (skipn 4 s))
      else utf8_encode s in
    match decoded with
    | Raise _ => None
    | Ok kb => if Aes.valid_key_length (length kb) then Some kb else None
    end.

Definition _fix_b64 (s : pystr) : pystr :=
  if negb (nonempty s) then []
  else
    let s2 := filter (fun c => negb (is_space c)) s in
    let pad_len := ((4 - length s2 mod 4) mod 4)%nat in
    s2 ++ repeat 61 pad_len.

Definition derive_iv (xtime_ms : Z) : bytes :=
  try_except
    (digits <- utf8_encode (str_of_int xtime_ms) ;;
     let sha_hex := hex_of_bytes (Sha2.sha256 digits) in
     iv <- encode_ascii (firstn 16 sha_hex) ;;
     Ok (if (length iv =? _BLOCK_SIZE)%nat then iv else repeat x30 _BLOCK_SIZE))
    (repeat x30 _BLOCK_SIZE).

(** [except ValueError: return None]; anything else propagates. *)
Definition _safe_unpad (data : bytes) : result (option bytes) :=
  match Padding.unpad data _BLOCK_SIZE with
  | Ok pt => Ok (Some pt)
  | Raise e => if is_ValueError e then Ok None else Raise e
  end.

Definition _hmac_sha512_hex (key_str msg_str : pystr) : pystr :=
  try_except
    (k <- utf8_encode key_str ;;
     m <- utf8_encode msg_str ;;
     Ok (hex_of_bytes (hmac_sha512 k m)))
    [].

(** The generator, as the list of what it yields.  [seen] is the set of
    keys already yielded. *)
Definition bytes_in (kb : bytes) (seen : set bytes) : bool :=
  set_mem (list_eq_dec Byte.byte_eq_dec) kb seen.

Fixpoint push_all (seen : set bytes) (raws : list pystr) : list bytes :=
  match raws with
  | [] => []
  | raw :: rest =>
      match _key_bytes raw with
      | Some kb =>
          if nonempty kb && negb (bytes_in kb seen)
          then kb :: push_all (set_add (list_eq_dec Byte.byte_eq_dec) kb seen) rest
          else push_all seen rest
      | None => push_all seen rest
      end
  end.

Definition _iter_candidate_keys (env : environ) : list bytes :=
  let primary := if nonempty (XDATA_KEY env) then [XDATA_KEY env] else [] in
  let extra := XDATA_KEYS env in
  let env_list :=
    filter nonempty
      (map strip (if nonempty extra then split_on 44 extra else [])) in
  let file_list :=
    match xdata_keys_file env with
    | Some (Ok text) =>
        filter (fun s => nonempty s && negb (startswith [35] s))
               (map strip (splitlines text))
    | _ => []
    end in
  push_all (empty_set bytes) (primary ++ env_list ++ file_list).

Definition encrypt_xdata (env : environ) (plaintext : pystr) (xtime_ms : Z) : pystr :=
  try_except
    (if negb (nonempty plaintext) then Ok []
     else match _key_bytes (XDATA_KEY env) with
          | None => Ok []
          | Some key =>
              let iv := derive_iv xtime_ms in
              c <- Aes.new_cbc key iv ;;
              data <- utf8_encode plaintext ;;
              ct <- Aes.encrypt c (Padding.pad data _BLOCK_SIZE) ;;
              decode_ascii (Base64.urlsafe_b64encode ct)
          end)
    [].

Definition _try_decrypt_with_key (ct_b64 : pystr) (xtime_ms : Z) (key : bytes)
  : option pystr :=
  try_except
    (let iv := derive_iv xtime_ms in
     ct <- Base64.urlsafe_b64decode (_fix_b64 ct_b64) ;;
     c <- Aes.new_cbc key iv ;;
     pt_padded <- Aes.decrypt c ct ;;
     pt <- _safe_unpad pt_padded ;;
     match pt with
     | Some pt => s <- utf8_decode pt ;; Ok (Some s)
     | None => Ok None
     end)
    None.

Fixpoint first_success (xdata : pystr) (xtime_ms : Z) (keys : list bytes)
  : option pystr :=
  match keys with
  | [] => None
  | key :: rest =>
      match _try_decrypt_with_key xdata xtime_ms key with
      | Some pt => Some pt
      | None => first_success xdata xtime_ms rest
      end
  end.

Definition decrypt_xdata (env : environ) (xdata : pystr) (xtime_ms : Z) : pystr :=
  if negb (nonempty xdata) then lit "{}"
  else match first_success xdata xtime_ms (_iter_candidate_keys env) with
       | Some pt => pt
       | None => lit "{}"
       end.

(** [os.urandom(8)] is the argument [rnd]. *)
Definition encrypt_circle_msisdn (env : environ) (rnd : bytes) (msisdn : pystr) : pystr :=
  try_except
    (if negb (nonempty msisdn) then Ok []
     else match _key_bytes (ENCRYPTED_FIELD_KEY env) with
          | None => Ok []
          | Some key =>
              let iv_hex := hex_of_bytes rnd in
              iv <- encode_ascii iv_hex ;;
              c <- Aes.new_cbc key iv ;;
              data <- utf8_encode msisdn ;;
              ct <- Aes.encrypt c (Padding.pad data _BLOCK_SIZE) ;;
              b64 <- decode_ascii (Base64.urlsafe_b64encode ct) ;;
              Ok (b64 ++ iv_hex)
          end)
    [].

Definition decrypt_circle_msisdn_body (env : environ) (encrypted_msisdn_b64 : pystr)
  : result pystr :=
  if negb (nonempty encrypted_msisdn_b64) || (length encrypted_msisdn_b64 <? 16)%nat
  then Ok []
  else match _key_bytes (ENCRYPTED_FIELD_KEY env) with
       | None => Ok []
       | Some key =>
           let n := length encrypted_msisdn_b64 in
           let iv_hex := skipn (n - 16) encrypted_msisdn_b64 in
           let ct_b64 := firstn (n - 16) encrypted_msisdn_b64 in
           iv <- encode_ascii iv_hex ;;
           ct <- Base64.urlsafe_b64decode (_fix_b64 ct_b64) ;;
           c <- Aes.new_cbc key iv ;;
           pt_padded <- Aes.decrypt c ct ;;
           pt <- _safe_unpad pt_padded ;;
           match pt with
           | Some pt => utf8_decode pt
           | None => Ok []
           end
       end.

Definition decrypt_circle_msisdn (env : environ) (encrypted_msisdn_b64 : pystr) : pystr :=
  try_except (decrypt_circle_msisdn_body env encrypted_msisdn_b64) [].

Definition make_x_signature (env : environ) (id_token method path : pystr)
    (sig_time_sec : Z) : pystr :=
  let key_str :=
    X_API_BASE_SECRET env ++ [59] ++ id_token ++ [59] ++ method ++ [59] ++ path ++
    [59] ++ str_of_int sig_time_sec in
  let msg_str := id_token ++ [59] ++ str_of_int sig_time_sec ++ [59] in
  _hmac_sha512_hex key_str msg_str.

Definition decrypt_xdata_any (env : environ) (xdata : pystr) (xtime_ms : Z) : pystr :=
  decrypt_xdata env xdata xtime_ms.

Definition make_x_signature_payment (env : environ) (access_token : pystr)
    (sig_time_sec : Z) (package_code token_payment payment_method payment_for path : pystr)
  : pystr :=
  let key_str :=
    X_API_BASE_SECRET env ++ [59] ++ str_of_int sig_time_sec ++
    lit "#ae-hei_9Tee6he+Ik3Gais5=;POST;" ++ path ++ [59] ++ str_of_int sig_time_sec in
  let msg_str :=
    access_token ++ [59] ++ token_payment ++ [59] ++ str_of_int sig_time_sec ++ [59] ++
    payment_for ++ [59] ++ payment_method ++ [59] ++ package_code ++ [59] in
  _hmac_sha512_hex key_str msg_str.

Definition make_ax_api_signature (env : environ) (ts_for_sign contact code contact_type : pystr)
  : pystr :=
  try_except
    (if negb (nonempty (AX_API_SIG_KEY env)) then Ok []
     else
       key_bytes <- encode_ascii (AX_API_SIG_KEY env) ;;
       let preimage :=
         ts_for_sign ++ lit "password" ++ contact_type ++ contact ++ code ++ lit "openid" in
       msg <- utf8_encode preimage ;;
       let digest := hmac_sha256 key_bytes msg in
       decode_ascii (Base64.b64encode digest))
    [].

Definition make_x_signature_bounty (env : environ) (access_token : pystr) (sig_time_sec : Z)
    (package_code token_payment : pystr) : pystr :=
  let path := lit "api/v8/personalization/bounties-exchange" in
  let key_str :=
    X_API_BASE_SECRET env ++ [59] ++ access_token ++ [59] ++ str_of_int sig_time_sec ++
    lit "#ae-hei_9Tee6he+Ik3Gais5=;POST;" ++ path ++ [59] ++ str_of_int sig_time_sec in
  let msg_str :=
    access_token ++ [59] ++ token_payment ++ [59] ++ str_of_int sig_time_sec ++ [59] ++
    package_code ++ [59] in
  _hmac_sha512_hex key_str msg_str.



Definition _valid_len (s : pystr) : option nat :=
  match _key_bytes s with
  | Some kb => if nonempty kb then Some (length kb) else None
  | None => None
  end.

Definition int_or_none (n : option nat) : pyval :=
  match n with Some k => VInt (Z.of_nat k) | None => VNone end.

(** The sample text of the self-test, [{"ping":"pong"}]. *)
Definition self_test_sample : pystr :=
  [123; 34] ++ lit "ping" ++ [34; 58; 34] ++ lit "pong" ++ [34; 125].

(** [os.urandom(8)] of the circle round trip is the argument [rnd]. *)
Definition crypto_self_test (env : environ) (rnd : bytes) : list (pystr * pyval) :=
  let report :=
    [(lit "xdata_key_len", int_or_none (_valid_len (XDATA_KEY env)));
     (lit "circle_key_len", int_or_none (_valid_len (ENCRYPTED_FIELD_KEY env)));
     (lit "ax_api_sig_key_present", VBool (nonempty (AX_API_SIG_KEY env)));
     (lit "x_api_base_secret_present", VBool (nonempty (X_API_BASE_SECRET env)));
     (lit "xdata_roundtrip_ok", VBool false);
     (lit "circle_roundtrip_ok", VBool false)] in
  let report :=
    let sample := self_test_sample in
    let xtime := 1700000000000%Z in
    let ct := encrypt_xdata env sample xtime in
    if nonempty ct then
      let pt := decrypt_xdata env ct xtime in
      dict_set (lit "xdata_roundtrip_ok") (VBool (pystr_eqb pt sample)) report
    else report in
  let report :=
    let msisdn := lit "6281234567890" in
    let enc := encrypt_circle_msisdn env rnd msisdn in
    if nonempty enc then
      let dec := decrypt_circle_msisdn env enc in
      dict_set (lit "circle_roundtrip_ok") (VBool (pystr_eqb dec msisdn)) report
    else report in
  report.

End CryptoHelper.

(** ** app/client/encrypt.py *)

(** The [encoding] argument of [_aes_key_bytes]. *)
Inductive encoding : Type := Utf8 | Ascii.

Definition str_encode (enc : encoding) (s : pystr) : result bytes :=
  match enc with Utf8 => utf8_encode s | Ascii => encode_ascii s end.

Module Encrypt.

Section Runtime.

(** [json.loads] on a [str], and [repr] on the containers, are taken from
    the interpreter. *)
Variable json_loads : pystr -> result pyval.
Variable container_repr : pyval -> pystr.

(** [str(v)]. *)
Definition py_str (v : pyval) : pystr :=
  match v with
  | VNone => lit "None"
  | VBool true => lit "True"
  | VBool false => lit "False"
  | VInt z => str_of_int z
  | VFloat r => r
  | VStr s => s
  | VList _ | VDict _ => container_repr v
  end.

Definition _safe_json_dumps (payload : pyval) : pystr := json_dumps payload.

Definition _safe_int (value : pyval) (default : option Z) : option Z :=
  try_except
    (match value with
     | VNone => Ok default
     | VBool b => Ok (Some (if b then 1 else 0)%Z)
     | VInt z => Ok (Some z)
     | _ =>
         let s := strip (py_str value) in
         if CryptoHelper.nonempty s then (z <- py_int s ;; Ok (Some z)) else Ok default
     end)
    default.

(** [xtime = int(time.time() * 1000)] is the argument [xtime]. *)
Definition encrypt_and_sign_xdata (env : environ) (xtime : Z)
    (method path id_token : pystr) (payload : pyval) : pyval :=
  try_except
    (let plain_body := _safe_json_dumps payload in
     let xdata := CryptoHelper.encrypt_xdata env plain_body xtime in
     if negb (CryptoHelper.nonempty xdata) then Raise ValueError
     else
       let sig_time_sec := (xtime / 1000)%Z in
       let x_sig := CryptoHelper.make_x_signature env id_token method path sig_time_sec in
       if negb (CryptoHelper.nonempty x_sig) then Raise ValueError
       else Ok (VDict [(lit "x_signature", VStr x_sig);
                       (lit "encrypted_body",
                        VDict [(lit "xdata", VStr xdata); (lit "xtime", VInt xtime)])]))
    empty_dict.

Definition decrypt_xdata_payload (env : environ) (encrypted_payload : pyval) : pyval :=
  try_except
    (match encrypted_payload with
     | VDict d =>
         let xdata := dict_get (lit "xdata") d in
         let xtime := dict_get (lit "xtime") d in
         if negb (truthy xdata) || match xtime with VNone => true | _ => false end
         then Raise ValueError
         else match _safe_int xtime None with
              | None => Raise ValueError
              | Some xtime_i =>
                  let plaintext := CryptoHelper.decrypt_xdata env (py_str xdata) xtime_i in
                  match json_loads plaintext with
                  | Raise _ => Ok empty_dict
                  | Ok parsed => Ok (if is_dict parsed then parsed else empty_dict)
                  end
              end
     | _ => Raise ValueError
     end)
    empty_dict.

Definition _aes_key_bytes (key : pystr) (allow_lengths : list nat) (enc : encoding)
  : option bytes :=
  if negb (CryptoHelper.nonempty key) then None
  else match str_encode enc key with
       | Raise _ => None
       | Ok b => if existsb (Nat.eqb (length b)) allow_lengths then Some b else None
       end.

(** [c in "0123456789abcdefABCDEF"]. *)
Definition is_hex_digit (c : N) : bool :=
  existsb (N.eqb c) (lit "0123456789abcdefABCDEF").

(** [crypto_ready] tells whether pycryptodome was imported,
    [encrypted_field_key] is the key of the configuration and [token] is
    [secrets.token_hex(8)]. *)
Definition build_encrypted_field (crypto_ready : bool) (encrypted_field_key token : pystr)
    (iv_hex16 : option pystr) (urlsafe_b64 : bool) : pystr :=
  if negb crypto_ready then []
  else
    try_except
      (match _aes_key_bytes encrypted_field_key [16; 24; 32]%nat Utf8 with
       | None => Ok []
       | Some key_b =>
           let chosen :=
             match iv_hex16 with
             | Some s => if CryptoHelper.nonempty s then s else token
             | None => token
             end in
           let iv_hex := strip chosen in
           if negb (length iv_hex =? 16)%nat || existsb (fun c => negb (is_hex_digit c)) iv_hex
           then Raise ValueError
           else
             iv <- encode_ascii iv_hex ;;
             let pt := Padding.pad [] 16 in
             c <- Aes.new_cbc key_b iv ;;
             ct <- Aes.encrypt c pt ;;
             txt <- decode_ascii (if urlsafe_b64 then Base64.urlsafe_b64encode ct
                                  else Base64.b64encode ct) ;;
             Ok (txt ++ iv_hex)
       end)
      [].

(** The compatibility layer: the [api_key] argument is ignored. *)
Definition encryptsign_xdata (env : environ) (xtime : Z) (api_key method path id_token : pystr)
    (payload : pyval) : pyval :=
  encrypt_and_sign_xdata env xtime method path id_token
    (if is_dict payload then payload else empty_dict).

Definition decrypt_xdata (env : environ) (api_key : pystr) (encrypted_payload : pyval)
  : pyval :=
  decrypt_xdata_payload env (if is_dict encrypted_payload then encrypted_payload else empty_dict).

Definition encrypt_circle_msisdn (env : environ) (rnd : bytes) (api_key msisdn : pystr)
  : pystr :=
  CryptoHelper.encrypt_circle_msisdn env rnd msisdn.

Definition decrypt_circle_msisdn (env : environ) (api_key encrypted_msisdn_b64 : pystr)
  : pystr :=
  CryptoHelper.decrypt_circle_msisdn env encrypted_msisdn_b64.

End Runtime.

End Encrypt.

(** ** app/client/engsel.py *)

Module Engsel.

Section Runtime.

Variable json_loads : pystr -> result pyval.
Variable container_repr : pyval -> pystr.

(** [self.config.api_key] is the argument [api_key]. *)
Definition _decrypt_if_possible (env : environ) (api_key : pystr) (response_json : pyval)
  : pyval :=
  match response_json with
  | VDict d =>
      if negb (dict_mem (lit "xdata") d) || negb (dict_mem (lit "xtime") d) then empty_dict
      else
        let dec := Encrypt.decrypt_xdata json_loads container_repr env api_key response_json in
        if is_dict dec then dec else empty_dict
  | _ => empty_dict
  end.

End Runtime.

End Engsel.

(** ** app/client/circle.py *)

Module ClientCircle.

Section Runtime.

Variable container_repr : pyval -> pystr.

Definition _as_str (value : pyval) : pystr :=
  match value with
  | VNone => []
  | _ => Encrypt.py_str container_repr value
  end.

(** [self.api_key] is the argument [api_key]; the two-argument
    [encrypt_circle_msisdn] of [encrypt.py] raises no [TypeError], so the
    fallback calls are never reached. *)
Definition _encrypt (env : environ) (rnd : bytes) (api_key : pystr) (msisdn : pyval) : pystr :=
  let msisdn_s := strip (_as_str msisdn) in
  if negb (CryptoHelper.nonempty msisdn_s) then []
  else Encrypt.encrypt_circle_msisdn env rnd api_key msisdn_s.

End Runtime.

End ClientCircle.

(** ** app/menus/circle.py *)

Module MenusCircle.

Section Runtime.

Variable container_repr : pyval -> pystr.

Definition _safe_str (val : pyval) (default : pystr) : pystr :=
  match val with
  | VNone => default
  | _ => Encrypt.py_str container_repr val
  end.

Definition _decrypt_msisdn (env : environ) (api_key : pystr) (encrypted : pyval) : pystr :=
  let enc := strip (_safe_str encrypted []) in
  if negb (CryptoHelper.nonempty enc) then lit "<Empty>"
  else
    let plain := Encrypt.decrypt_circle_msisdn env api_key enc in
    let shown := _safe_str (VStr plain) (lit "<Hidden>") in
    if CryptoHelper.nonempty shown then shown else lit "<Hidden>".

End Runtime.

End MenusCircle.

(** ** app/menus/circle.py: numbers typed by the user *)

(** The characters [\d] matches in a [str] pattern: the decimal digits of
    Unicode 14.0 (CPython 3.11), as inclusive ranges of code points. *)
Definition decimal_ranges : list (N * N) :=
  [(0x30, 0x39); (0x660, 0x669); (0x6F0, 0x6F9); (0x7C0, 0x7C9); (0x966, 0x96F);
   (0x9E6, 0x9EF); (0xA66, 0xA6F); (0xAE6, 0xAEF); (0xB66, 0xB6F); (0xBE6, 0xBEF);
   (0xC66, 0xC6F); (0xCE6, 0xCEF); (0xD66, 0xD6F); (0xDE6, 0xDEF); (0xE50, 0xE59);
   (0xED0, 0xED9); (0xF20, 0xF29); (0x1040, 0x1049); (0x1090, 0x1099); (0x17E0, 0x17E9);
   (0x1810, 0x1819); (0x1946, 0x194F); (0x19D0, 0x19D9); (0x1A80, 0x1A89);
   (0x1A90, 0x1A99); (0x1B50, 0x1B59); (0x1BB0, 0x1BB9); (0x1C40, 0x1C49);
   (0x1C50, 0x1C59); (0xA620, 0xA629); (0xA8D0, 0xA8D9); (0xA900, 0xA909);
   (0xA9D0, 0xA9D9); (0xA9F0, 0xA9F9); (0xAA50, 0xAA59); (0xABF0, 0xABF9);
   (0xFF10, 0xFF19); (0x104A0, 0x104A9); (0x10D30, 0x10D39); (0x11066, 0x1106F);
   (0x110F0, 0x110F9); (0x11136, 0x1113F); (0x111D0, 0x111D9); (0x112F0, 0x112F9);
   (0x11450, 0x11459); (0x114D0, 0x114D9); (0x11650, 0x11659); (0x116C0, 0x116C9);
   (0x11730, 0x11739); (0x118E0, 0x118E9); (0x11950, 0x11959); (0x11C50, 0x11C59);
   (0x11D50, 0x11D59); (0x11DA0, 0x11DA9); (0x16A60, 0x16A69); (0x16AC0, 0x16AC9);
   (0x16B50, 0x16B59); (0x1D7CE, 0x1D7FF); (0x1E140, 0x1E149); (0x1E2F0, 0x1E2F9);
   (0x1E950, 0x1E959); (0x1FBF0, 0x1FBF9)].

Definition is_decimal (c : N) : bool :=
  existsb (fun r => (fst r <=? c) && (c <=? snd r)) decimal_ranges.

Module MenusCircleInput.

(** [re.sub] with the pattern [\D] and the empty replacement keeps the
    decimal digits; a missing input counts as the empty text. *)
Definition _normalize_msisdn (user_input : option pystr) : option pystr :=
  let s := strip (filter is_decimal (match user_input with Some u => u | None => [] end)) in
  if negb (CryptoHelper.nonempty s) then None
  else
    let s :=
      if startswith (lit "08") s then lit "62" ++ skipn 1 s
      else if startswith (lit "8") s then lit "62" ++ s
      else if startswith (lit "0062") s then lit "62" ++ skipn 4 s
      else if startswith (lit "6208") s then lit "62" ++ skipn 3 s
      else s in
    if negb (startswith (lit "628") s) then None
    else if ((length s <? 10) || (15 <? length s))%nat then None
    else Some s.

End MenusCircleInput.

(** ** Auxiliary definitions for the statements *)

(** The 256 bytes. *)
Definition all_bytes : list byte := map (fun n => byte_of_N (N.of_nat n)) (seq 0 256).

Definition is_ascii (s : pystr) : bool := forallb (fun c => c <? 128) s.

(** The bytes of an ASCII text. *)
Definition ascii_bytes (s : pystr) : bytes := map byte_of_N s.

(** What matters about the character of a sextet, in either alphabet. *)
Definition sextet_ok (i : N) : bool :=
  let b := Base64.sextet i in
  let u := Base64.to_urlsafe b in
  negb (Byte.eqb b x3d)
  && match Base64.a2b_value b with Some v => v =? i | None => false end
  && Byte.eqb (Base64.from_urlsafe u) b
  && (Byte.to_N u <? 128) && negb (is_space (Byte.to_N u)).

(** An ASCII byte that is no blank. *)
Definition plain_byte (b : byte) : bool :=
  (Byte.to_N b <? 128) && negb (is_space (Byte.to_N b)).

(** A map of bytes that is linear over xor. *)
Definition linear (f : byte -> byte) : Prop :=
  forall a b, f (bxor a b) = bxor (f a) (f b).

(** The entries of the product of the MixColumns matrix and its inverse, as
    maps of one byte: the diagonal entry and the three others. *)
Definition mix_diag (a : byte) : byte :=
  Aes.x4 (Aes.m14 (Aes.m2 a)) (Aes.m11 a) (Aes.m13 a) (Aes.m9 (Aes.m3 a)).
Definition mix_off1 (a : byte) : byte :=
  Aes.x4 (Aes.m14 (Aes.m3 a)) (Aes.m11 (Aes.m2 a)) (Aes.m13 a) (Aes.m9 a).
Definition mix_off2 (a : byte) : byte :=
  Aes.x4 (Aes.m14 a) (Aes.m11 (Aes.m3 a)) (Aes.m13 (Aes.m2 a)) (Aes.m9 a).
Definition mix_off3 (a : byte) : byte :=
  Aes.x4 (Aes.m14 a) (Aes.m11 a) (Aes.m13 (Aes.m3 a)) (Aes.m9 (Aes.m2 a)).

(** Whether a key passes the checks of [_try_decrypt_with_key] on a
    ciphertext: the padding is right and the plaintext decodes. *)
Definition opens (ct_b64 : pystr) (xtime_ms : Z) (key : bytes) : bool :=
  match CryptoHelper._try_decrypt_with_key ct_b64 xtime_ms key with
  | Some _ => true
  | None => false
  end.

(** ** Sample configurations and messages *)

(** A process whose xdata key is the given text. *)
Definition env_with_xdata_key (key : string) : environ :=
  {| XDATA_KEY := lit key; AX_API_SIG_KEY := []; X_API_BASE_SECRET := [];
     ENCRYPTED_FIELD_KEY := []; XDATA_KEYS := []; xdata_keys_file := None |}.

(** A process after a rotation: a new primary key, the old one kept in
    [XDATA_KEYS]. *)
Definition env_rotated (new_key old_key : string) : environ :=
  {| XDATA_KEY := lit new_key; AX_API_SIG_KEY := []; X_API_BASE_SECRET := [];
     ENCRYPTED_FIELD_KEY := []; XDATA_KEYS := lit old_key; xdata_keys_file := None |}.

Definition env_with_field_key (key : string) : environ :=
  {| XDATA_KEY := []; AX_API_SIG_KEY := []; X_API_BASE_SECRET := [];
     ENCRYPTED_FIELD_KEY := lit key; XDATA_KEYS := []; xdata_keys_file := None |}.

Definition env_with_secret (secret : string) : environ :=
  {| XDATA_KEY := []; AX_API_SIG_KEY := []; X_API_BASE_SECRET := lit secret;
     ENCRYPTED_FIELD_KEY := []; XDATA_KEYS := []; xdata_keys_file := None |}.

(** The text [{"ping":"pong"}]. *)
Definition ping_pong : pystr :=
  json_dumps (VDict [(lit "ping", VStr (lit "pong"))]).

(** The payload [{"a": "\ud800"}], whose text holds a lone surrogate. *)
Definition surrogate_payload : pyval := VDict [(lit "a", VStr [0xD800])].

(** The text [{"id":186299}]. *)
Definition id_186299 : pystr := json_dumps (VDict [(lit "id", VInt 186299)]).

(** [json.loads] on the two documents the examples below parse, and a
    [repr] for containers that the examples never consult. *)
Definition sample_json_loads (s : pystr) : result pyval :=
  if pystr_eqb s (lit "{}") then Ok empty_dict
  else if pystr_eqb s ping_pong then Ok (VDict [(lit "ping", VStr (lit "pong"))])
  else Raise ValueError.

Definition sample_repr (v : pyval) : pystr := lit "<container>".

(** The envelope of [{"ping":"pong"}] at 1700000000000 under the key
    [0123456789abcdef], with [xtime] as an [int] and as text. *)
Definition ping_envelope (xtime : pyval) : list (pystr * pyval) :=
  [(lit "xdata", VStr (lit "jOwsETHIK1TM3OjPjSHS-g==")); (lit "xtime", xtime)].

(** The bytes a hexadecimal text spells. *)
Definition unhex (s : string) : bytes :=
  match fromhex (lit s) with Ok b => b | Raise _ => [] end.

(** One block through the cipher and back, in hexadecimal. *)
Definition aes_block (key block : string) : pystr :=
  match Aes.blocks_of_bytes (unhex block) with
  | Some bl => hex_of_bytes (Aes.bytes_of_blocks (map (Aes.cipher (Aes.key_schedule (unhex key))) bl))
  | None => []
  end.

Definition aes_inv_block (key block : string) : pystr :=
  match Aes.blocks_of_bytes (unhex block) with
  | Some bl =>
      hex_of_bytes (Aes.bytes_of_blocks (map (Aes.inv_cipher (Aes.key_schedule (unhex key))) bl))
  | None => []
  end.

(** ** Shapes of texts *)

(** A lowercase hexadecimal digit. *)
Definition is_lower_hex (c : N) : bool :=
  ((48 <=? c) && (c <=? 57)) || ((97 <=? c) && (c <=? 102)).

(** What matters about the two hexadecimal digits of a byte. *)
Definition hex_pair_ok (b : byte) : bool :=
  let h := hex_char (Byte.to_N b / 16) in
  let l := hex_char (Byte.to_N b mod 16) in
  is_lower_hex h && is_lower_hex l &&
  match hex_value h, hex_value l with
  | Some x, Some y => Byte.eqb (byte_of_N (16 * x + y)) b
  | _, _ => false
  end.

(** A character that is no blank. *)
Definition solid (c : N) : bool := negb (is_space c).

(** The key text is one of the spellings of a prefix, whatever the case of its
    letters. *)
Definition spells (prefix : string) (p : pystr) : bool :=
  pystr_eqb (map ascii_lower p) (lit prefix).

(** A character of the URL-safe base64 alphabet, or the pad character. *)
Definition is_urlsafe_char (c : N) : bool :=
  ((65 <=? c) && (c <=? 90)) || ((97 <=? c) && (c <=? 122)) ||
  ((48 <=? c) && (c <=? 57)) || (c =? 45) || (c =? 95) || (c =? 61).

(** A character of the standard base64 alphabet, or the pad character. *)
Definition is_b64_char (c : N) : bool :=
  ((65 <=? c) && (c <=? 90)) || ((97 <=? c) && (c <=? 122)) ||
  ((48 <=? c) && (c <=? 57)) || (c =? 43) || (c =? 47) || (c =? 61).

(** A text that has a UTF-8 encoding. *)
Definition encodable (s : pystr) : bool :=
  match utf8_encode s with Ok _ => true | Raise _ => false end.

(** A text of 128 lowercase hexadecimal digits. *)
Definition hex128 (s : pystr) : bool :=
  (length s =? 128)%nat && forallb is_lower_hex s.

(** The code points of an inclusive range. *)
Definition code_points (r : N * N) : list N :=
  map N.of_nat (seq (N.to_nat (fst r)) (N.to_nat (snd r - fst r) + 1)).

(** A character that has a UTF-8 encoding. *)
Definition encodable_char (c : N) : bool :=
  match utf8_encode_char c with Some _ => true | None => false end.
(** * Properties *)

Ltac Zify.zify_post_hook ::= Z.to_euclidean_division_equations.

(** Unfolds the monadic plumbing, and nothing else. *)
Ltac run_bind := cbv beta iota delta [bind try_except].

(** ** Known answers *)

(** FIPS 180-4: the digests of [abc]. *)
Example sha256_abc :
  hex_of_bytes (Sha2.sha256 (ascii_bytes (lit "abc")))
  = lit "ba7816bf8f01cfea414140de5dae2223b00361a396177a9cb410ff61f20015ad".
Proof. vm_compute. reflexivity. Qed.

Example sha512_abc :
  hex_of_bytes (Sha2.sha512 (ascii_bytes (lit "abc")))
  = lit ("ddaf35a193617abacc417349ae20413112e6fa4e89a97ea20a9eeee64b55d39a" ++
         "2192992a274fc1a836ba3c23a3feebbd454d4423643ce80e2a9ac94fa54ca49f").
Proof. vm_compute. reflexivity. Qed.

(** RFC 4231, test case 2. *)
Example hmac_sha512_jefe :
  hex_of_bytes (hmac_sha512 (ascii_bytes (lit "Jefe"))
                  (ascii_bytes (lit "what do ya want for nothing?")))
  = lit ("164b7a7bfcf819e2e395fbe73b56e0a387bd64222e831fd610270cd7ea250554" ++
         "9758bf75c05a994a6d034f65f8f0e6fdcaeab1a34d4a6b4b636e070a38bce737").
Proof. vm_compute. reflexivity. Qed.

(** FIPS 197, appendix C: the example vectors for the three key sizes. *)
Example aes_fips197 :
  aes_block "000102030405060708090a0b0c0d0e0f" "00112233445566778899aabbccddeeff"
    = lit "69c4e0d86a7b0430d8cdb78070b4c55a" /\
  aes_block "000102030405060708090a0b0c0d0e0f1011121314151617"
    "00112233445566778899aabbccddeeff" = lit "dda97ca4864cdfe06eaf70a0ec0d7191" /\
  aes_block "000102030405060708090a0b0c0d0e0f101112131415161718191a1b1c1d1e1f"
    "00112233445566778899aabbccddeeff" = lit "8ea2b7ca516745bfeafc49904b496089" /\
  aes_inv_block "000102030405060708090a0b0c0d0e0f101112131415161718191a1b1c1d1e1f"
    "8ea2b7ca516745bfeafc49904b496089" = lit "00112233445566778899aabbccddeeff".
Proof. split; [|split; [|split]]; vm_compute; reflexivity. Qed.

(** ** Bytes *)

Lemma to_N_byte_of_N (n : N) : n < 256 -> Byte.to_N (byte_of_N n) = n.
Proof.
  intros Hn. unfold byte_of_N. rewrite N.mod_small by exact Hn.
  destruct (Byte.of_N n) as [b|] eqn:E.
  - now apply Byte.to_of_N.
  - apply Byte.of_N_None_iff in E. lia.
Qed.

Lemma byte_of_to_N (b : byte) : byte_of_N (Byte.to_N b) = b.
Proof.
  unfold byte_of_N. pose proof (Byte.to_N_bounded b).
  rewrite N.mod_small by lia. now rewrite Byte.of_to_N.
Qed.

Lemma to_N_lt_256 (b : byte) : Byte.to_N b < 256.
Proof. pose proof (Byte.to_N_bounded b). lia. Qed.

(** A boolean property of bytes holds everywhere once it holds on the 256
    values. *)

Lemma in_all_bytes (b : byte) : In b all_bytes.
Proof.
  unfold all_bytes. apply in_map_iff. exists (N.to_nat (Byte.to_N b)). split.
  - rewrite N2Nat.id. apply byte_of_to_N.
  - apply in_seq. pose proof (to_N_lt_256 b). lia.
Qed.

Lemma byte_forall (P : byte -> bool) :
  forallb P all_bytes = true -> forall b, P b = true.
Proof. intros H b. rewrite forallb_forall in H. apply H, in_all_bytes. Qed.

Lemma byte_forall2 (P : byte -> byte -> bool) :
  forallb (fun a => forallb (P a) all_bytes) all_bytes = true ->
  forall a b, P a b = true.
Proof.
  intros H a b. apply (byte_forall (P a)). revert a. now apply byte_forall.
Qed.

Lemma bytes_eqb_eq (a b : bytes) : bytes_eqb a b = true <-> a = b.
Proof. unfold bytes_eqb. destruct (list_eq_dec _ a b); split; congruence. Qed.

Lemma pystr_eqb_eq (a b : pystr) : pystr_eqb a b = true <-> a = b.
Proof. unfold pystr_eqb. destruct (list_eq_dec _ a b); split; congruence. Qed.

(** ** ASCII text *)

Lemma utf8_encode_ascii (s : pystr) :
  is_ascii s = true -> utf8_encode s = Ok (ascii_bytes s).
Proof.
  unfold utf8_encode. induction s as [|c r IH]; simpl; intros H; [reflexivity|].
  apply andb_prop in H as [Hc Hr]. specialize (IH Hr).
  destruct (utf8_encode_opt r) as [bs|]; [|discriminate].
  unfold utf8_encode_char. apply N.ltb_lt in Hc.
  replace (c <? 0x80) with true by (symmetry; apply N.ltb_lt; lia).
  simpl. congruence.
Qed.

Lemma encode_ascii_ok (s : pystr) :
  is_ascii s = true -> encode_ascii s = Ok (ascii_bytes s).
Proof. unfold encode_ascii, is_ascii. now intros ->. Qed.

Lemma uint_chars_ascii (u : Decimal.uint) : is_ascii (uint_chars u) = true.
Proof. induction u; simpl; auto. Qed.

Lemma str_of_int_ascii (z : Z) : is_ascii (str_of_int z) = true.
Proof.
  unfold str_of_int. destruct (Z.to_int z); simpl; apply uint_chars_ascii.
Qed.

Lemma hex_char_ascii (n : N) : n < 16 -> hex_char n < 128.
Proof. unfold hex_char. destruct (n <? 10); lia. Qed.

Lemma hex_of_bytes_ascii (bs : bytes) : is_ascii (hex_of_bytes bs) = true.
Proof.
  induction bs as [|b r IH]; simpl; [reflexivity|].
  pose proof (to_N_lt_256 b).
  rewrite IH, andb_true_r. apply andb_true_intro; split; apply N.ltb_lt;
    apply hex_char_ascii; lia.
Qed.

Lemma hex_of_bytes_length (bs : bytes) :
  length (hex_of_bytes bs) = (2 * length bs)%nat.
Proof. induction bs; simpl; lia. Qed.

Lemma is_ascii_firstn (n : nat) (s : pystr) :
  is_ascii s = true -> is_ascii (firstn n s) = true.
Proof.
  unfold is_ascii. intros H. rewrite <- (firstn_skipn n s), forallb_app in H.
  now apply andb_prop in H.
Qed.

(** ** SHA-2 *)

Lemma be_bytes_length (n : nat) (x : N) : length (Sha2.be_bytes n x) = n.
Proof. induction n; simpl; congruence. Qed.

Lemma digest_length (p : Sha2.params) (msg : bytes) :
  length (Sha2.digest p msg) = (8 * Sha2.wbytes p)%nat.
Proof.
  unfold Sha2.digest.
  destruct (fold_left _ _ _) as [[[[[[[a b] c] d] e] f] g] h].
  unfold Sha2.state_bytes. rewrite !length_app, !be_bytes_length. lia.
Qed.

Lemma sha256_length (msg : bytes) : length (Sha2.sha256 msg) = 32%nat.
Proof. apply digest_length. Qed.

Lemma sha512_length (msg : bytes) : length (Sha2.sha512 msg) = 64%nat.
Proof. apply digest_length. Qed.

Lemma hmac_sha512_length (key msg : bytes) : length (hmac_sha512 key msg) = 64%nat.
Proof. apply sha512_length. Qed.

(** ** IV derivation *)

Lemma derive_iv_eq (t : Z) :
  CryptoHelper.derive_iv t =
  ascii_bytes (firstn 16 (hex_of_bytes (Sha2.sha256 (ascii_bytes (str_of_int t))))).
Proof.
  unfold CryptoHelper.derive_iv.
  rewrite (utf8_encode_ascii _ (str_of_int_ascii t)). run_bind.
  rewrite encode_ascii_ok by apply is_ascii_firstn, hex_of_bytes_ascii.
  run_bind. unfold ascii_bytes at 1 2. rewrite length_map, length_firstn.
  rewrite hex_of_bytes_length, sha256_length. reflexivity.
Qed.

Lemma derive_iv_length (t : Z) : length (CryptoHelper.derive_iv t) = 16%nat.
Proof.
  rewrite derive_iv_eq. unfold ascii_bytes.
  rewrite length_map, length_firstn, hex_of_bytes_length, sha256_length.
  reflexivity.
Qed.


(** The example of the specification: the IV for 1700000000000 spells
    [bc99b4bf100ad96c]. *)
Example derive_iv_1700000000000 :
  CryptoHelper.derive_iv 1700000000000 = ascii_bytes (lit "bc99b4bf100ad96c").
Proof. vm_compute. reflexivity. Qed.

(** ** UTF-8 *)

Ltac bool_to_prop :=
  rewrite ?andb_true_iff, ?orb_true_iff, ?N.leb_le, ?N.ltb_lt, ?N.eqb_eq.

(** Decides the test of the conditional at the head of the goal by linear
    arithmetic. *)
Ltac head_if :=
  match goal with
  | |- (if ?b then _ else _) = _ =>
      first [ replace b with true by (symmetry; bool_to_prop; lia)
            | replace b with false
                by (symmetry; apply not_true_iff_false; bool_to_prop; lia) ];
      cbv iota
  end.

Ltac head_step :=
  first
    [ head_if
    | match goal with
      | |- (if ?b then _ else _) = _ =>
          match b with
          | context [if N.eqb ?x ?y then _ else _] => destruct (N.eqb_spec x y)
          end
      end ].

Lemma some_inj {A} (a b : A) : Some a = Some b -> a = b.
Proof. congruence. Qed.

Lemma div64 (n : N) :
  exists q r, n / 64 = q /\ n mod 64 = r /\ n = 64 * q + r /\ r < 64.
Proof.
  exists (n / 64), (n mod 64). repeat split.
  - apply N.div_mod. discriminate.
  - apply N.mod_lt. discriminate.
Qed.

Lemma utf8_char_roundtrip (c : N) (bs rest : bytes) :
  utf8_encode_char c = Some bs ->
  utf8_decode_opt (bs ++ rest) = option_map (cons c) (utf8_decode_opt rest).
Proof.
  unfold utf8_encode_char. intros H.
  replace (c / 262144) with (c / 64 / 64 / 64) in H by now rewrite !N.Div0.div_div.
  replace (c / 4096) with (c / 64 / 64) in H by now rewrite !N.Div0.div_div.
  destruct (div64 c) as (q1 & r1 & E1 & E1' & Hq1 & Hr1). rewrite E1, E1' in H.
  destruct (div64 q1) as (q2 & r2 & E2 & E2' & Hq2 & Hr2). rewrite E2, ?E2' in H.
  destruct (div64 q2) as (q3 & r3 & E3 & E3' & Hq3 & Hr3). rewrite ?E3, ?E3' in H.
  clear E1 E1' E2 E2' E3 E3'.
  destruct (N.ltb_spec c 0x80).
  { apply some_inj in H; subst bs. cbn [app utf8_decode_opt].
    rewrite to_N_byte_of_N by lia. head_if. reflexivity. }
  destruct (N.ltb_spec c 0x800).
  { apply some_inj in H; subst bs. cbn [app utf8_decode_opt]. unfold in_range, tail6.
    rewrite !to_N_byte_of_N by lia. repeat head_step;
    f_equal; f_equal; lia. }
  destruct (N.ltb_spec c 0x10000).
  { destruct (N.leb_spec 0xD800 c), (N.leb_spec c 0xDFFF); cbn [andb] in H;
      try discriminate; apply some_inj in H; subst bs; cbn [app utf8_decode_opt];
      unfold in_range, tail6;
      rewrite !to_N_byte_of_N by lia; repeat head_step; f_equal; f_equal; lia. }
  destruct (N.ltb_spec c 0x110000); [|discriminate].
  apply some_inj in H; subst bs. cbn [app utf8_decode_opt]. unfold in_range, tail6.
  rewrite !to_N_byte_of_N by lia. repeat head_step; f_equal; f_equal; lia.
Qed.

Lemma utf8_roundtrip_opt (s : pystr) (bs : bytes) :
  utf8_encode_opt s = Some bs -> utf8_decode_opt bs = Some s.
Proof.
  revert bs. induction s as [|c r IH]; simpl; intros bs H.
  - now injection H as <-.
  - destruct (utf8_encode_char c) as [cb|] eqn:Ec; [|discriminate].
    destruct (utf8_encode_opt r) as [rb|]; [|discriminate].
    injection H as <-. rewrite (utf8_char_roundtrip _ _ _ Ec), (IH rb eq_refl).
    reflexivity.
Qed.

Lemma utf8_roundtrip (s : pystr) (bs : bytes) :
  utf8_encode s = Ok bs -> utf8_decode bs = Ok s.
Proof.
  unfold utf8_encode, utf8_decode.
  destruct (utf8_encode_opt s) as [b|] eqn:E; [|discriminate].
  intros [= <-]. now rewrite (utf8_roundtrip_opt _ _ E).
Qed.

(** ** PKCS#7 *)

Lemma to_nat_to_N (b : byte) : Byte.to_nat b = N.to_nat (Byte.to_N b).
Proof. destruct b; reflexivity. Qed.

Lemma to_nat_byte_of_N (n : nat) :
  (n < 256)%nat -> Byte.to_nat (byte_of_N (N.of_nat n)) = n.
Proof.
  intros H. rewrite to_nat_to_N, to_N_byte_of_N by lia. apply Nat2N.id.
Qed.

Lemma last_app_repeat {A} (l : list A) (x d : A) (n : nat) :
  (0 < n)%nat -> last (l ++ repeat x n) d = x.
Proof.
  intros H. destruct n as [|n]; [lia|].
  replace (repeat x (S n)) with (repeat x n ++ [x]).
  - now rewrite app_assoc, last_last.
  - now rewrite <- repeat_cons.
Qed.

Lemma unpad_pad (data : bytes) :
  Padding.unpad (Padding.pad data 16) 16 = Ok data.
Proof.
  unfold Padding.unpad, Padding.pad.
  set (p := (16 - length data mod 16)%nat).
  assert (Hp : (1 <= p <= 16)%nat).
  { subst p. pose proof (Nat.mod_upper_bound (length data) 16). lia. }
  assert (Hlen : ((length data + p) mod 16 = 0)%nat).
  { subst p. pose proof (Nat.div_mod_eq (length data) 16).
    replace (length data + (16 - length data mod 16))%nat
      with ((1 + length data / 16) * 16)%nat by lia.
    apply Nat.Div0.mod_mul. }
  rewrite length_app, repeat_length, Hlen.
  rewrite last_app_repeat by lia. rewrite to_nat_byte_of_N by lia.
  replace (length data + p =? 0)%nat with false by (symmetry; apply Nat.eqb_neq; lia).
  replace (p <? 1)%nat with false by (symmetry; apply Nat.ltb_ge; lia).
  replace (Nat.min 16 (length data + p) <? p)%nat with false
    by (symmetry; apply Nat.ltb_ge; lia).
  replace (length data + p - p)%nat with (length data + 0)%nat by lia.
  rewrite skipn_app, firstn_app, Nat.add_0_r.
  rewrite skipn_all, firstn_all, Nat.sub_diag. cbn [skipn firstn app negb orb Nat.eqb].
  rewrite app_nil_r.
  replace (bytes_eqb _ _) with true by (symmetry; now apply bytes_eqb_eq).
  reflexivity.
Qed.

Lemma pad_length (data : bytes) : (length (Padding.pad data 16) mod 16 = 0)%nat.
Proof.
  unfold Padding.pad. rewrite length_app, repeat_length.
  pose proof (Nat.mod_upper_bound (length data) 16).
  pose proof (Nat.div_mod_eq (length data) 16).
  replace (length data + (16 - length data mod 16))%nat
    with ((1 + length data / 16) * 16)%nat by lia.
  apply Nat.Div0.mod_mul.
Qed.

(** ** Base64 *)

Lemma N_forall_lt (n : nat) (P : N -> bool) :
  forallb P (map N.of_nat (seq 0 n)) = true ->
  forall i, i < N.of_nat n -> P i = true.
Proof.
  intros H i Hi. rewrite forallb_forall in H. apply H.
  apply in_map_iff. exists (N.to_nat i). split; [apply N2Nat.id|].
  apply in_seq. lia.
Qed.

Lemma sextet_facts (i : N) :
  i < 64 ->
  Byte.eqb (Base64.sextet i) x3d = false /\
  Base64.a2b_value (Base64.sextet i) = Some i /\
  Base64.from_urlsafe (Base64.to_urlsafe (Base64.sextet i)) = Base64.sextet i /\
  Byte.to_N (Base64.to_urlsafe (Base64.sextet i)) < 128 /\
  is_space (Byte.to_N (Base64.to_urlsafe (Base64.sextet i))) = false.
Proof.
  intros Hi.
  assert (H : sextet_ok i = true).
  { revert i Hi. apply (N_forall_lt 64). vm_compute. reflexivity. }
  unfold sextet_ok in H. cbv zeta in H.
  repeat (apply andb_prop in H; destruct H as [H ?]).
  repeat split.
  - now apply negb_true_iff.
  - destruct (Base64.a2b_value (Base64.sextet i)); [|discriminate].
    f_equal. now apply N.eqb_eq.
  - now apply Byte.byte_dec_bl.
  - now apply N.ltb_lt.
  - now apply negb_true_iff.
Qed.

Lemma list_ind3 {A} (P : list A -> Prop) :
  P [] -> (forall a, P [a]) -> (forall a b, P [a; b]) ->
  (forall a b c r, P r -> P (a :: b :: c :: r)) ->
  forall l, P l.
Proof.
  intros H0 H1 H2 H3.
  fix IH 1. intros [|a [|b [|c r]]].
  - exact H0.
  - apply H1.
  - apply H2.
  - apply H3, IH.
Qed.

Section Sextets.
Variables a b c : byte.

Let na := Byte.to_N a.
Let nb := Byte.to_N b.
Let nc := Byte.to_N c.

Lemma sextet_bounds :
  na / 4 < 64 /\ na mod 4 * 16 < 64 /\ na mod 4 * 16 + nb / 16 < 64 /\
  nb mod 16 * 4 < 64 /\ nb mod 16 * 4 + nc / 64 < 64 /\ nc mod 64 < 64.
Proof.
  pose proof (to_N_lt_256 a). pose proof (to_N_lt_256 b). pose proof (to_N_lt_256 c).
  subst na nb nc. repeat split; lia.
Qed.

Lemma sextet_join :
  byte_of_N (na / 4 * 4 + (na mod 4 * 16 + nb / 16) / 16) = a /\
  byte_of_N ((na mod 4 * 16 + nb / 16) mod 16 * 16 + (nb mod 16 * 4 + nc / 64) / 4) = b /\
  byte_of_N ((nb mod 16 * 4 + nc / 64) mod 4 * 64 + nc mod 64) = c /\
  byte_of_N (na / 4 * 4 + (na mod 4 * 16) / 16) = a /\
  byte_of_N ((na mod 4 * 16 + nb / 16) mod 16 * 16 + (nb mod 16 * 4) / 4) = b.
Proof.
  pose proof (to_N_lt_256 a). pose proof (to_N_lt_256 b). pose proof (to_N_lt_256 c).
  repeat split; symmetry.
  - rewrite <- (byte_of_to_N a) at 1. f_equal. subst na nb nc. lia.
  - rewrite <- (byte_of_to_N b) at 1. f_equal. subst na nb nc. lia.
  - rewrite <- (byte_of_to_N c) at 1. f_equal. subst na nb nc. lia.
  - rewrite <- (byte_of_to_N a) at 1. f_equal. subst na nb nc. lia.
  - rewrite <- (byte_of_to_N b) at 1. f_equal. subst na nb nc. lia.
Qed.

End Sextets.

Lemma a2b_step (i : N) (rest : bytes) (q l p : N) :
  i < 64 ->
  Base64.a2b_from (Base64.sextet i :: rest) q l p =
  if q =? 0 then Base64.a2b_from rest 1 i 0
  else if q =? 1 then
    x <- Base64.a2b_from rest 2 (i mod 16) 0 ;; Ok (byte_of_N (l * 4 + i / 16) :: x)
  else if q =? 2 then
    x <- Base64.a2b_from rest 3 (i mod 4) 0 ;; Ok (byte_of_N (l * 16 + i / 4) :: x)
  else
    x <- Base64.a2b_from rest 0 0 0 ;; Ok (byte_of_N (l * 64 + i) :: x).
Proof.
  intros Hi. destruct (sextet_facts i Hi) as (E1 & E2 & _).
  cbn [Base64.a2b_from]. now rewrite E1, E2.
Qed.

Lemma a2b_pad2 (l : N) : Base64.a2b_from [x3d; x3d] 2 l 0 = Ok [].
Proof. reflexivity. Qed.

Lemma a2b_pad1 (l : N) : Base64.a2b_from [x3d] 3 l 0 = Ok [].
Proof. reflexivity. Qed.

Lemma a2b_b64encode (bs : bytes) :
  Base64.a2b_base64 (Base64.b64encode bs) = Ok bs.
Proof.
  unfold Base64.a2b_base64.
  induction bs as [|a|a b|a b c r IH] using list_ind3.
  - reflexivity.
  - destruct (sextet_bounds a a a) as (B1 & B2 & _).
    destruct (sextet_join a a a) as (_ & _ & _ & J1 & _).
    cbn [Base64.b64encode]. rewrite !a2b_step by assumption.
    cbn [N.eqb Pos.eqb]. rewrite a2b_pad2. cbn [bind]. now rewrite J1.
  - destruct (sextet_bounds a b b) as (B1 & _ & B3 & B4 & _).
    destruct (sextet_join a b b) as (J1 & _ & _ & _ & J2).
    cbn [Base64.b64encode]. rewrite !a2b_step by assumption.
    cbn [N.eqb Pos.eqb]. rewrite a2b_pad1. cbn [bind]. now rewrite J1, J2.
  - destruct (sextet_bounds a b c) as (B1 & _ & B3 & _ & B5 & B6).
    destruct (sextet_join a b c) as (J1 & J2 & J3 & _).
    cbn [Base64.b64encode]. rewrite !a2b_step by assumption.
    cbn [N.eqb Pos.eqb]. rewrite IH. cbn [bind]. now rewrite J1, J2, J3.
Qed.

(** The text [urlsafe_b64encode] produces is ASCII without blanks, a whole
    number of quads, and back in the standard alphabet it is [b64encode]. *)
Lemma plain_sextet (i : N) :
  i < 64 -> plain_byte (Base64.to_urlsafe (Base64.sextet i)) = true.
Proof.
  intros Hi. destruct (sextet_facts i Hi) as (_ & _ & _ & E4 & E5).
  unfold plain_byte. rewrite E5. apply N.ltb_lt in E4. now rewrite E4.
Qed.

Lemma urlsafe_plain (bs : bytes) :
  forallb plain_byte (Base64.urlsafe_b64encode bs) = true.
Proof.
  unfold Base64.urlsafe_b64encode.
  induction bs as [|a|a b|a b c r IH] using list_ind3.
  - reflexivity.
  - destruct (sextet_bounds a a a) as (B1 & B2 & _).
    cbn [Base64.b64encode map forallb]. now rewrite !plain_sextet.
  - destruct (sextet_bounds a b b) as (B1 & _ & B3 & B4 & _).
    cbn [Base64.b64encode map forallb]. now rewrite !plain_sextet.
  - destruct (sextet_bounds a b c) as (B1 & _ & B3 & _ & B5 & B6).
    cbn [Base64.b64encode map forallb]. now rewrite !plain_sextet, IH.
Qed.

Lemma from_to_urlsafe (bs : bytes) :
  map Base64.from_urlsafe (Base64.urlsafe_b64encode bs) = Base64.b64encode bs.
Proof.
  unfold Base64.urlsafe_b64encode.
  assert (S : forall i, i < 64 ->
            Base64.from_urlsafe (Base64.to_urlsafe (Base64.sextet i)) = Base64.sextet i).
  { intros i Hi. now destruct (sextet_facts i Hi) as (_ & _ & E & _). }
  induction bs as [|a|a b|a b c r IH] using list_ind3.
  - reflexivity.
  - destruct (sextet_bounds a a a) as (B1 & B2 & _).
    cbn [Base64.b64encode map]. now rewrite !S.
  - destruct (sextet_bounds a b b) as (B1 & _ & B3 & B4 & _).
    cbn [Base64.b64encode map]. now rewrite !S.
  - destruct (sextet_bounds a b c) as (B1 & _ & B3 & _ & B5 & B6).
    cbn [Base64.b64encode map]. now rewrite !S, IH.
Qed.

Lemma b64encode_length (bs : bytes) :
  (length (Base64.b64encode bs) mod 4 = 0)%nat.
Proof.
  induction bs as [|a|a b|a b c r IH] using list_ind3; try reflexivity.
  cbn [Base64.b64encode length].
  replace (S (S (S (S (length (Base64.b64encode r))))))
    with (length (Base64.b64encode r) + 1 * 4)%nat by lia.
  now rewrite Nat.Div0.mod_add.
Qed.

Lemma decode_ascii_plain (bs : bytes) :
  forallb plain_byte bs = true -> decode_ascii bs = Ok (map Byte.to_N bs).
Proof.
  intros H. unfold decode_ascii.
  replace (forallb _ bs) with true; [reflexivity|].
  symmetry. rewrite forallb_forall in *. intros x Hx.
  specialize (H x Hx). unfold plain_byte in H. now apply andb_prop in H.
Qed.

Lemma fix_b64_plain (bs : bytes) :
  forallb plain_byte bs = true -> (length bs mod 4 = 0)%nat ->
  CryptoHelper._fix_b64 (map Byte.to_N bs) = map Byte.to_N bs.
Proof.
  intros H L. unfold CryptoHelper._fix_b64.
  assert (F : filter (fun c => negb (is_space c)) (map Byte.to_N bs) = map Byte.to_N bs).
  { clear L. induction bs as [|x r IH]; [reflexivity|].
    cbn [forallb] in H. apply andb_prop in H as [Hx Hr].
    unfold plain_byte in Hx. apply andb_prop in Hx as [_ Hx].
    cbn [map filter]. rewrite Hx. f_equal. now apply IH. }
  rewrite F, length_map, L. cbn [Nat.sub Nat.modulo Nat.divmod fst snd repeat].
  rewrite app_nil_r. now destruct (map Byte.to_N bs).
Qed.

Lemma encode_ascii_to_N (bs : bytes) :
  forallb plain_byte bs = true -> encode_ascii (map Byte.to_N bs) = Ok bs.
Proof.
  intros H. unfold encode_ascii.
  replace (forallb _ (map Byte.to_N bs)) with true.
  - f_equal. rewrite map_map. rewrite <- (map_id bs) at 2.
    apply map_ext, byte_of_to_N.
  - symmetry. rewrite forallb_forall. intros x Hx.
    apply in_map_iff in Hx as (b & <- & Hb).
    rewrite forallb_forall in H. specialize (H b Hb).
    unfold plain_byte in H. now apply andb_prop in H.
Qed.

(** Encoding, reading the result as text, repairing its padding and decoding
    gives the bytes back. *)
Lemma b64_text_roundtrip (bs : bytes) :
  exists t,
    decode_ascii (Base64.urlsafe_b64encode bs) = Ok t /\
    Base64.urlsafe_b64decode (CryptoHelper._fix_b64 t) = Ok bs /\
    is_ascii t = true /\
    (bs <> [] -> t <> []).
Proof.
  pose proof (urlsafe_plain bs) as Hp.
  exists (map Byte.to_N (Base64.urlsafe_b64encode bs)). repeat split.
  - now apply decode_ascii_plain.
  - rewrite fix_b64_plain; [|assumption|].
    + unfold Base64.urlsafe_b64decode, Base64.bytes_from_decode_data.
      rewrite encode_ascii_to_N by assumption. cbn [bind].
      rewrite from_to_urlsafe. apply a2b_b64encode.
    + unfold Base64.urlsafe_b64encode. rewrite length_map. apply b64encode_length.
  - unfold is_ascii. rewrite forallb_forall. intros x Hx.
    apply in_map_iff in Hx as (b & <- & Hb).
    rewrite forallb_forall in Hp. specialize (Hp b Hb).
    unfold plain_byte in Hp. now apply andb_prop in Hp.
  - intros Hne E. apply map_eq_nil in E. unfold Base64.urlsafe_b64encode in E.
    apply map_eq_nil in E. destruct bs as [|a [|b [|c r]]]; [congruence| | |];
      discriminate.
Qed.

(** ** AES: the inverse cipher undoes the cipher *)

Lemma to_N_inj (a b : byte) : Byte.to_N a = Byte.to_N b -> a = b.
Proof. intros H. rewrite <- (byte_of_to_N a), <- (byte_of_to_N b). now f_equal. Qed.

Lemma to_N_bxor (a b : byte) :
  Byte.to_N (bxor a b) = N.lxor (Byte.to_N a) (Byte.to_N b).
Proof.
  apply N.eqb_eq. revert a b.
  apply (byte_forall2 (fun a b => Byte.to_N (bxor a b) =? N.lxor (Byte.to_N a) (Byte.to_N b))).
  vm_compute. reflexivity.
Qed.

#[local] Instance bxor_assoc : Associative eq bxor.
Proof. intros a b c. apply to_N_inj. rewrite !to_N_bxor. symmetry. apply N.lxor_assoc. Qed.

#[local] Instance bxor_comm : Commutative eq bxor.
Proof. intros a b. apply to_N_inj. rewrite !to_N_bxor. apply N.lxor_comm. Qed.

#[local] Instance bxor_unit : Unit eq bxor x00.
Proof.
  split; intros a; apply to_N_inj; rewrite to_N_bxor.
  - apply N.lxor_0_l.
  - apply N.lxor_0_r.
Qed.

#[local] Instance bxor_proper : Proper (eq ==> eq ==> eq) bxor.
Proof. repeat intro; subst; reflexivity. Qed.

Lemma bxor_nilpotent (a : byte) : bxor a a = x00.
Proof. apply to_N_inj. rewrite to_N_bxor. apply N.lxor_nilpotent. Qed.

Lemma bxor_cancel (a k : byte) : bxor (bxor a k) k = a.
Proof.
  apply to_N_inj. rewrite !to_N_bxor, N.lxor_assoc, N.lxor_nilpotent.
  apply N.lxor_0_r.
Qed.

Lemma wxor_cancel (w k : Aes.word) : Aes.wxor (Aes.wxor w k) k = w.
Proof.
  destruct w as [[[a b] c] d], k as [[[a' b'] c'] d'].
  cbn [Aes.wxor]. now rewrite !bxor_cancel.
Qed.

Lemma sxor_cancel (s k : Aes.state) : Aes.sxor (Aes.sxor s k) k = s.
Proof.
  destruct s as [[[a b] c] d], k as [[[a' b'] c'] d'].
  cbn [Aes.sxor]. now rewrite !wxor_cancel.
Qed.

Lemma add_round_key_cancel (k s : Aes.state) :
  Aes.add_round_key k (Aes.add_round_key k s) = s.
Proof. apply sxor_cancel. Qed.

Lemma inv_sub_byte_sub_byte (b : byte) : Aes.inv_sub_byte (Aes.sub_byte b) = b.
Proof.
  apply Byte.byte_dec_bl. revert b.
  apply (byte_forall (fun b => Byte.eqb (Aes.inv_sub_byte (Aes.sub_byte b)) b)).
  vm_compute. reflexivity.
Qed.

Lemma inv_sub_bytes_sub_bytes (s : Aes.state) :
  Aes.inv_sub_bytes (Aes.sub_bytes s) = s.
Proof.
  destruct s as [[[[[[a0 a1] a2] a3] [[[b0 b1] b2] b3]] [[[c0 c1] c2] c3]] [[[d0 d1] d2] d3]].
  unfold Aes.inv_sub_bytes, Aes.sub_bytes. cbn [Aes.smap Aes.wmap].
  now rewrite !inv_sub_byte_sub_byte.
Qed.

Lemma inv_shift_rows_shift_rows (s : Aes.state) :
  Aes.inv_shift_rows (Aes.shift_rows s) = s.
Proof.
  now destruct s as [[[[[[a0 a1] a2] a3] [[[b0 b1] b2] b3]] [[[c0 c1] c2] c3]] [[[d0 d1] d2] d3]].
Qed.

(** Multiplication by a constant is linear over xor. *)
Lemma xtime_linear : linear Aes.xtime.
Proof.
  intros a b. apply Byte.byte_dec_bl. revert a b.
  apply (byte_forall2
           (fun a b => Byte.eqb (Aes.xtime (bxor a b)) (bxor (Aes.xtime a) (Aes.xtime b)))).
  vm_compute. reflexivity.
Qed.

Lemma m4_linear : linear Aes.m4.
Proof. intros a b. unfold Aes.m4. now rewrite !xtime_linear. Qed.

Lemma m8_linear : linear Aes.m8.
Proof. intros a b. unfold Aes.m8. now rewrite m4_linear, xtime_linear. Qed.

Lemma m9_linear : linear Aes.m9.
Proof. intros a b. unfold Aes.m9. rewrite m8_linear. aac_reflexivity. Qed.

Lemma m11_linear : linear Aes.m11.
Proof.
  intros a b. unfold Aes.m11, Aes.m2. rewrite m8_linear, xtime_linear. aac_reflexivity.
Qed.

Lemma m13_linear : linear Aes.m13.
Proof.
  intros a b. unfold Aes.m13. rewrite m8_linear, m4_linear. aac_reflexivity.
Qed.

Lemma m14_linear : linear Aes.m14.
Proof.
  intros a b. unfold Aes.m14, Aes.m2. rewrite m8_linear, m4_linear, xtime_linear.
  aac_reflexivity.
Qed.

Lemma linear_x4 (f : byte -> byte) (a b c d : byte) :
  linear f -> f (Aes.x4 a b c d) = Aes.x4 (f a) (f b) (f c) (f d).
Proof. intros L. unfold Aes.x4. now rewrite !L. Qed.

(** The product of the two circulant matrices is the identity: one check on
    the diagonal, three off it. *)
Lemma mix_diag_id (a : byte) : mix_diag a = a.
Proof.
  apply Byte.byte_dec_bl. revert a.
  apply (byte_forall (fun a => Byte.eqb (mix_diag a) a)). vm_compute. reflexivity.
Qed.

Lemma mix_off_zero (a : byte) :
  mix_off1 a = x00 /\ mix_off2 a = x00 /\ mix_off3 a = x00.
Proof.
  assert (H : Byte.eqb (mix_off1 a) x00 && Byte.eqb (mix_off2 a) x00
              && Byte.eqb (mix_off3 a) x00 = true).
  { revert a.
    apply (byte_forall (fun a => Byte.eqb (mix_off1 a) x00 && Byte.eqb (mix_off2 a) x00
                                 && Byte.eqb (mix_off3 a) x00)).
    vm_compute. reflexivity. }
  apply andb_prop in H as [H H3]. apply andb_prop in H as [H1 H2].
  repeat split; now apply Byte.byte_dec_bl.
Qed.

Lemma x4_only (a : byte) : Aes.x4 a x00 x00 x00 = a.
Proof. unfold Aes.x4. aac_reflexivity. Qed.


Lemma x4_diag (a0 a1 a2 a3 : byte) :
  Aes.x4 (mix_diag a0) (mix_off1 a1) (mix_off2 a2) (mix_off3 a3) = a0.
Proof.
  destruct (mix_off_zero a1) as (-> & _), (mix_off_zero a2) as (_ & -> & _),
           (mix_off_zero a3) as (_ & _ & ->).
  rewrite mix_diag_id. apply x4_only.
Qed.

(** Products by constants are atoms for the reordering of the xors. *)
Ltac abstract_products :=
  repeat match goal with
         | |- context [Aes.m14 ?x] => generalize (Aes.m14 x); intro
         | |- context [Aes.m11 ?x] => generalize (Aes.m11 x); intro
         | |- context [Aes.m13 ?x] => generalize (Aes.m13 x); intro
         | |- context [Aes.m9 ?x] => generalize (Aes.m9 x); intro
         end.

Ltac regroup_column :=
  unfold mix_diag, mix_off1, mix_off2, mix_off3, Aes.x4;
  abstract_products; aac_reflexivity.

Lemma inv_mix_column_mix_column (w : Aes.word) :
  Aes.inv_mix_column (Aes.mix_column w) = w.
Proof.
  destruct w as [[[a0 a1] a2] a3].
  cbn [Aes.mix_column Aes.inv_mix_column].
  rewrite !(linear_x4 _ _ _ _ _ m14_linear), !(linear_x4 _ _ _ _ _ m11_linear),
    !(linear_x4 _ _ _ _ _ m13_linear), !(linear_x4 _ _ _ _ _ m9_linear).
  f_equal; [f_equal; [f_equal|]|].
  - rewrite <- (x4_diag a0 a1 a2 a3) at 5. regroup_column.
  - rewrite <- (x4_diag a1 a2 a3 a0) at 5. regroup_column.
  - rewrite <- (x4_diag a2 a3 a0 a1) at 5. regroup_column.
  - rewrite <- (x4_diag a3 a0 a1 a2) at 5. regroup_column.
Qed.

Lemma inv_mix_columns_mix_columns (s : Aes.state) :
  Aes.inv_mix_columns (Aes.mix_columns s) = s.
Proof.
  destruct s as [[[c0 c1] c2] c3].
  unfold Aes.inv_mix_columns, Aes.mix_columns. cbn [Aes.smap].
  now rewrite !inv_mix_column_mix_column.
Qed.

Lemma inv_rounds_rounds (rks : list Aes.state) (s : Aes.state) :
  Aes.inv_rounds rks (Aes.rounds rks s) = s.
Proof.
  revert s. induction rks as [|k rest IH]; intros s; [reflexivity|].
  destruct rest as [|k' rest'].
  - cbn [Aes.rounds Aes.inv_rounds].
    now rewrite add_round_key_cancel, inv_shift_rows_shift_rows, inv_sub_bytes_sub_bytes.
  - change (Aes.rounds (k :: k' :: rest') s)
      with (Aes.rounds (k' :: rest')
              (Aes.add_round_key k (Aes.mix_columns (Aes.shift_rows (Aes.sub_bytes s))))).
    change (Aes.inv_rounds (k :: k' :: rest') ?x)
      with (Aes.inv_sub_bytes (Aes.inv_shift_rows (Aes.inv_mix_columns
              (Aes.add_round_key k (Aes.inv_rounds (k' :: rest') x))))).
    rewrite IH, add_round_key_cancel, inv_mix_columns_mix_columns,
      inv_shift_rows_shift_rows, inv_sub_bytes_sub_bytes.
    reflexivity.
Qed.

Lemma inv_cipher_cipher (rks : list Aes.state) (s : Aes.state) :
  Aes.inv_cipher rks (Aes.cipher rks s) = s.
Proof.
  destruct rks as [|k0 rest]; [reflexivity|].
  cbn [Aes.cipher Aes.inv_cipher].
  now rewrite inv_rounds_rounds, add_round_key_cancel.
Qed.

(** CBC *)

Lemma cbc_decrypt_encrypt (rks : list Aes.state) (iv : Aes.state) (bl : list Aes.state) :
  Aes.cbc_decrypt rks iv (Aes.cbc_encrypt rks iv bl) = bl.
Proof.
  revert iv. induction bl as [|b r IH]; intros iv; [reflexivity|].
  cbn [Aes.cbc_encrypt Aes.cbc_decrypt].
  now rewrite inv_cipher_cipher, sxor_cancel, IH.
Qed.

Lemma blocks_of_bytes_of_blocks (bl : list Aes.state) :
  Aes.blocks_of_bytes (Aes.bytes_of_blocks bl) = Some bl.
Proof.
  induction bl as [|s r IH]; [reflexivity|].
  destruct s as [[[[[[a0 a1] a2] a3] [[[b0 b1] b2] b3]] [[[c0 c1] c2] c3]] [[[d0 d1] d2] d3]].
  unfold Aes.bytes_of_blocks in *. cbn [flat_map Aes.bytes_of_state Aes.bytes_of_word app].
  cbn [Aes.blocks_of_bytes]. now rewrite IH.
Qed.

Lemma bytes_of_blocks_of_bytes (bs : bytes) (bl : list Aes.state) :
  Aes.blocks_of_bytes bs = Some bl -> Aes.bytes_of_blocks bl = bs.
Proof.
  revert bl.
  assert (H : forall n bs, (length bs <= n)%nat ->
            forall bl, Aes.blocks_of_bytes bs = Some bl -> Aes.bytes_of_blocks bl = bs).
  { induction n as [|n IH]; intros bs' Hlen bl E.
    - destruct bs'; [|simpl in Hlen; lia]. now injection E as <-.
    - destruct bs' as [|a0 [|a1 [|a2 [|a3 [|b0 [|b1 [|b2 [|b3 [|c0 [|c1 [|c2 [|c3
        [|d0 [|d1 [|d2 [|d3 rest]]]]]]]]]]]]]]]];
        try discriminate E.
      + now injection E as <-.
      + cbn [Aes.blocks_of_bytes] in E.
        destruct (Aes.blocks_of_bytes rest) as [l|] eqn:El; [|discriminate].
        injection E as <-.
        unfold Aes.bytes_of_blocks in *.
        cbn [flat_map Aes.bytes_of_state Aes.bytes_of_word app].
        repeat f_equal. apply (IH rest); [simpl in Hlen; lia | assumption]. }
  intros bl. apply (H (length bs)). lia.
Qed.

Lemma blocks_of_bytes_total (bs : bytes) :
  (length bs mod 16 = 0)%nat -> exists bl, Aes.blocks_of_bytes bs = Some bl.
Proof.
  assert (H : forall n bs, (length bs = 16 * n)%nat ->
            exists bl, Aes.blocks_of_bytes bs = Some bl).
  { induction n as [|n IH]; intros bs' Hlen.
    - destruct bs'; [|simpl in Hlen; lia]. now exists [].
    - destruct bs' as [|a0 [|a1 [|a2 [|a3 [|b0 [|b1 [|b2 [|b3 [|c0 [|c1 [|c2 [|c3
        [|d0 [|d1 [|d2 [|d3 rest]]]]]]]]]]]]]]]];
        simpl in Hlen; try lia.
      destruct (IH rest) as [l El]; [lia|].
      cbn [Aes.blocks_of_bytes]. rewrite El. eauto. }
  intros Hm. apply (H (length bs / 16)%nat).
  pose proof (Nat.div_mod_eq (length bs) 16). lia.
Qed.

(** An AES-CBC cipher object built from a valid key and a 16-byte IV
    decrypts what it encrypted. *)
Lemma new_cbc_ok (key iv : bytes) :
  Aes.valid_key_length (length key) = true -> length iv = 16%nat ->
  exists c, Aes.new_cbc key iv = Ok c.
Proof.
  intros Hk Hiv. unfold Aes.new_cbc. rewrite Hk.
  destruct iv as [|a0 [|a1 [|a2 [|a3 [|b0 [|b1 [|b2 [|b3 [|c0 [|c1 [|c2 [|c3
    [|d0 [|d1 [|d2 [|d3 [|x rest]]]]]]]]]]]]]]]]]; try discriminate Hiv.
  cbn [Aes.blocks_of_bytes]. eauto.
Qed.

Lemma aes_decrypt_encrypt (c : Aes.cbc_cipher) (data : bytes) :
  (length data mod 16 = 0)%nat ->
  exists ct, Aes.encrypt c data = Ok ct /\ Aes.decrypt c ct = Ok data.
Proof.
  intros Hm. destruct (blocks_of_bytes_total data Hm) as [bl E].
  unfold Aes.encrypt, Aes.decrypt. rewrite E. eexists. split; [reflexivity|].
  rewrite blocks_of_bytes_of_blocks, cbc_decrypt_encrypt.
  now rewrite (bytes_of_blocks_of_bytes _ _ E).
Qed.

(** ** Keys *)

Lemma key_bytes_valid (key_str : pystr) (kb : bytes) :
  CryptoHelper._key_bytes key_str = Some kb ->
  Aes.valid_key_length (length kb) = true /\ key_str <> [].
Proof.
  unfold CryptoHelper._key_bytes. destruct key_str as [|c r]; [discriminate|].
  cbn [CryptoHelper.nonempty negb].
  match goal with |- match ?d with _ => _ end = _ -> _ => destruct d as [k|e] end;
    [|discriminate].
  destruct (Aes.valid_key_length (length k)) eqn:E; [|discriminate].
  intros [= <-]. split; [assumption|discriminate].
Qed.

Lemma valid_key_nonempty (kb : bytes) :
  Aes.valid_key_length (length kb) = true -> CryptoHelper.nonempty kb = true.
Proof. destruct kb; [discriminate|reflexivity]. Qed.

(** ** Sealing and opening one message *)

(** With a valid key and a 16-byte IV, padding, encrypting and encoding a
    message gives a non-empty ASCII text from which decoding, decrypting and
    unpadding recover the message. *)
Lemma seal_open (key iv data : bytes) :
  Aes.valid_key_length (length key) = true -> length iv = 16%nat ->
  exists c ct txt,
    Aes.new_cbc key iv = Ok c /\
    Aes.encrypt c (Padding.pad data 16) = Ok ct /\
    decode_ascii (Base64.urlsafe_b64encode ct) = Ok txt /\
    CryptoHelper.nonempty txt = true /\ is_ascii txt = true /\
    Base64.urlsafe_b64decode (CryptoHelper._fix_b64 txt) = Ok ct /\
    Aes.decrypt c ct = Ok (Padding.pad data 16) /\
    CryptoHelper._safe_unpad (Padding.pad data 16) = Ok (Some data).
Proof.
  intros Hk Hiv.
  destruct (new_cbc_ok key iv Hk Hiv) as [c Hc].
  destruct (aes_decrypt_encrypt c _ (pad_length data)) as (ct & He & Hd).
  destruct (b64_text_roundtrip ct) as (txt & Ht & Hb & Ha & Hne).
  exists c, ct, txt. repeat split; try assumption.
  - destruct txt; [|reflexivity]. exfalso. apply Hne; [|reflexivity]. intros ->. unfold Aes.decrypt in Hd. cbn [Aes.blocks_of_bytes] in Hd.
    injection Hd as Hd. unfold Padding.pad in Hd.
    pose proof (Nat.mod_upper_bound (length data) 16).
    apply (f_equal (@length byte)) in Hd.
    rewrite length_app, repeat_length in Hd.
    cbn [Aes.bytes_of_blocks Aes.cbc_decrypt flat_map length] in Hd. lia.
  - unfold CryptoHelper._safe_unpad, CryptoHelper._BLOCK_SIZE. now rewrite unpad_pad.
Qed.

Lemma encrypt_xdata_open (env : environ) (plaintext : pystr) (t : Z) (kb data : bytes) :
  CryptoHelper.nonempty plaintext = true ->
  CryptoHelper._key_bytes (XDATA_KEY env) = Some kb ->
  utf8_encode plaintext = Ok data ->
  CryptoHelper.nonempty (CryptoHelper.encrypt_xdata env plaintext t) = true /\
  CryptoHelper._try_decrypt_with_key (CryptoHelper.encrypt_xdata env plaintext t) t kb
    = Some plaintext.
Proof.
  intros Hne Hkey Henc.
  destruct (key_bytes_valid _ _ Hkey) as [Hk _].
  destruct (seal_open kb (CryptoHelper.derive_iv t) data Hk (derive_iv_length t))
    as (c & ct & txt & Hc & He & Ht & Htne & _ & Hb & Hd & Hu).
  assert (E : CryptoHelper.encrypt_xdata env plaintext t = txt).
  { unfold CryptoHelper.encrypt_xdata. rewrite Hne.
    cbn [negb]. rewrite Hkey, Hc. run_bind.
    rewrite Henc. run_bind. unfold CryptoHelper._BLOCK_SIZE. rewrite He. run_bind.
    now rewrite Ht. }
  rewrite E. split; [assumption|].
  unfold CryptoHelper._try_decrypt_with_key. rewrite Hb. run_bind.
  rewrite Hc. run_bind. rewrite Hd. run_bind. rewrite Hu. run_bind.
  now rewrite (utf8_roundtrip _ _ Henc).
Qed.

(** What a non-empty result of [encrypt_xdata] tells. *)
Lemma encrypt_xdata_nonempty (env : environ) (plaintext : pystr) (t : Z) :
  CryptoHelper.nonempty (CryptoHelper.encrypt_xdata env plaintext t) = true ->
  CryptoHelper.nonempty plaintext = true /\
  (exists kb, CryptoHelper._key_bytes (XDATA_KEY env) = Some kb) /\
  (exists data, utf8_encode plaintext = Ok data).
Proof.
  unfold CryptoHelper.encrypt_xdata. destruct plaintext as [|c r]; [discriminate|].
  cbn [CryptoHelper.nonempty negb].
  destruct (CryptoHelper._key_bytes (XDATA_KEY env)) as [kb|]; [|discriminate].
  destruct (Aes.new_cbc kb (CryptoHelper.derive_iv t)) as [cc|]; [|discriminate].
  run_bind. destruct (utf8_encode (c :: r)) as [data|]; [|discriminate].
  intros _. repeat split; eauto.
Qed.

(** ** The candidate keys *)

Lemma iter_candidate_keys_primary (env : environ) (kb : bytes) :
  CryptoHelper._key_bytes (XDATA_KEY env) = Some kb ->
  exists rest, CryptoHelper._iter_candidate_keys env = kb :: rest.
Proof.
  intros Hkey. destruct (key_bytes_valid _ _ Hkey) as [Hk Hne].
  unfold CryptoHelper._iter_candidate_keys.
  destruct (XDATA_KEY env) as [|c r] eqn:E; [congruence|].
  cbn [CryptoHelper.nonempty app CryptoHelper.push_all]. rewrite Hkey.
  rewrite (valid_key_nonempty _ Hk). cbn [andb CryptoHelper.bytes_in set_mem empty_set negb].
  eauto.
Qed.

Lemma first_success_app (xdata : pystr) (t : Z) (l1 l2 : list bytes) :
  existsb (opens xdata t) l1 = false ->
  CryptoHelper.first_success xdata t (l1 ++ l2) = CryptoHelper.first_success xdata t l2.
Proof.
  induction l1 as [|k r IH]; intros H; [reflexivity|].
  cbn [existsb] in H. apply orb_false_iff in H as [Hk Hr]. unfold opens in Hk.
  cbn [app CryptoHelper.first_success].
  destruct (CryptoHelper._try_decrypt_with_key xdata t k); [discriminate|].
  now apply IH.
Qed.

Lemma decrypt_xdata_first (env : environ) (xdata pt : pystr) (t : Z)
    (l1 l2 : list bytes) (k : bytes) :
  CryptoHelper.nonempty xdata = true ->
  CryptoHelper._iter_candidate_keys env = l1 ++ k :: l2 ->
  existsb (opens xdata t) l1 = false ->
  CryptoHelper._try_decrypt_with_key xdata t k = Some pt ->
  CryptoHelper.decrypt_xdata env xdata t = pt.
Proof.
  intros Hne Hl Hnone Hk. unfold CryptoHelper.decrypt_xdata.
  rewrite Hne. cbn [negb].
  rewrite Hl, first_success_app by assumption.
  cbn [CryptoHelper.first_success]. now rewrite Hk.
Qed.

(** ** The envelope round trip *)

(** C1 (amended): for every non-empty plaintext that has a UTF-8 encoding,
    every valid primary key and every timestamp, decrypting the output of
    [encrypt_xdata] with the same timestamp gives the plaintext back. *)
Theorem xdata_roundtrip (env : environ) (plaintext : pystr) (t : Z) (kb data : bytes) :
  CryptoHelper.nonempty plaintext = true ->
  CryptoHelper._key_bytes (XDATA_KEY env) = Some kb ->
  utf8_encode plaintext = Ok data ->
  CryptoHelper.decrypt_xdata env (CryptoHelper.encrypt_xdata env plaintext t) t = plaintext.
Proof.
  intros Hne Hkey Henc.
  destruct (encrypt_xdata_open env plaintext t kb data Hne Hkey Henc) as [Hct Hopen].
  destruct (iter_candidate_keys_primary env kb Hkey) as [rest Hl].
  now apply (decrypt_xdata_first env _ plaintext t [] rest kb).
Qed.

Lemma xdata_roundtrip_witness :
  CryptoHelper.decrypt_xdata (env_with_xdata_key "0123456789abcdef")
    (CryptoHelper.encrypt_xdata (env_with_xdata_key "0123456789abcdef") ping_pong
       1700000000000) 1700000000000 = ping_pong.
Proof.
  apply (xdata_roundtrip (env_with_xdata_key "0123456789abcdef") ping_pong 1700000000000
           (ascii_bytes (lit "0123456789abcdef")) (ascii_bytes ping_pong)).
  - reflexivity.
  - vm_compute. reflexivity.
  - vm_compute. reflexivity.
Defined.

(** C1 as stated fails: the compact JSON text of [{"a": "\ud800"}] is a
    non-empty string, the key is valid, yet [encrypt_xdata] returns the empty
    string (the text has no UTF-8 encoding) and decrypting that gives [{}]. *)
Lemma xdata_roundtrip_surrogate :
  let env := env_with_xdata_key "0123456789abcdef" in
  let plaintext := Encrypt._safe_json_dumps surrogate_payload in
  CryptoHelper.nonempty plaintext = true /\
  CryptoHelper._key_bytes (XDATA_KEY env) = Some (ascii_bytes (lit "0123456789abcdef")) /\
  CryptoHelper.encrypt_xdata env plaintext 1700000000000 = [] /\
  CryptoHelper.decrypt_xdata env (CryptoHelper.encrypt_xdata env plaintext 1700000000000)
    1700000000000 <> plaintext.
Proof.
  cbv zeta. split; [|split; [|split]].
  - vm_compute. reflexivity.
  - vm_compute. reflexivity.
  - vm_compute. reflexivity.
  - vm_compute. discriminate.
Qed.

(** The golden value: [{"ping":"pong"}] at 1700000000000 under the key
    [0123456789abcdef]. *)
Example encrypt_xdata_golden :
  CryptoHelper.encrypt_xdata (env_with_xdata_key "0123456789abcdef") ping_pong 1700000000000
  = lit "jOwsETHIK1TM3OjPjSHS-g==".
Proof. vm_compute. reflexivity. Qed.

(** C9: the empty plaintext encrypts to the empty string, whatever the
    key. *)
Theorem encrypt_xdata_empty (env : environ) (t : Z) :
  CryptoHelper.encrypt_xdata env [] t = [].
Proof. reflexivity. Qed.

(** ** Key rotation *)

(** C3 (amended): a payload encrypted under a key that is among the
    candidates is recovered, provided no candidate ahead of that key yields a
    well-padded, UTF-8-decodable plaintext for the ciphertext. *)
Theorem key_rotation (env_old env_new : environ) (plaintext ct : pystr) (t : Z)
    (k_old : bytes) (l1 l2 : list bytes) :
  CryptoHelper._key_bytes (XDATA_KEY env_old) = Some k_old ->
  CryptoHelper.encrypt_xdata env_old plaintext t = ct ->
  CryptoHelper.nonempty ct = true ->
  CryptoHelper._iter_candidate_keys env_new = l1 ++ k_old :: l2 ->
  existsb (opens ct t) l1 = false ->
  CryptoHelper.decrypt_xdata env_new ct t = plaintext.
Proof.
  intros Hkey Hct Hne Hl Hnone. subst ct.
  destruct (encrypt_xdata_nonempty _ _ _ Hne) as (Hp & _ & data & Henc).
  destruct (encrypt_xdata_open env_old plaintext t k_old data Hp Hkey Henc) as [_ Hopen].
  now apply (decrypt_xdata_first env_new _ plaintext t l1 l2 k_old).
Qed.

Lemma key_rotation_witness :
  CryptoHelper.decrypt_xdata (env_rotated "NEW-KEY-NEW-KEY!" "OLD-KEY-OLD-KEY!")
    (CryptoHelper.encrypt_xdata (env_with_xdata_key "OLD-KEY-OLD-KEY!") ping_pong
       1700000000000) 1700000000000 = ping_pong.
Proof.
  apply (key_rotation (env_with_xdata_key "OLD-KEY-OLD-KEY!")
           (env_rotated "NEW-KEY-NEW-KEY!" "OLD-KEY-OLD-KEY!") ping_pong _ 1700000000000
           (ascii_bytes (lit "OLD-KEY-OLD-KEY!"))
           [ascii_bytes (lit "NEW-KEY-NEW-KEY!")] []).
  - vm_compute. reflexivity.
  - reflexivity.
  - vm_compute. reflexivity.
  - vm_compute. reflexivity.
  - vm_compute. reflexivity.
Defined.

(** C3 as stated fails: [{"id":186299}] encrypted under the old key at
    1700000000000 decrypts under the new primary key to a well-padded ASCII
    text, which is returned although the old key is a candidate too. *)
Lemma key_rotation_false_positive :
  let env_old := env_with_xdata_key "OLD-KEY-OLD-KEY!" in
  let env_new := env_rotated "NEW-KEY-NEW-KEY!" "OLD-KEY-OLD-KEY!" in
  let ct := CryptoHelper.encrypt_xdata env_old id_186299 1700000000000 in
  CryptoHelper._key_bytes (XDATA_KEY env_old) = Some (ascii_bytes (lit "OLD-KEY-OLD-KEY!")) /\
  CryptoHelper.nonempty ct = true /\
  In (ascii_bytes (lit "OLD-KEY-OLD-KEY!")) (CryptoHelper._iter_candidate_keys env_new) /\
  CryptoHelper.decrypt_xdata env_new ct 1700000000000 <> id_186299.
Proof.
  cbv zeta. split; [|split; [|split]].
  - vm_compute. reflexivity.
  - vm_compute. reflexivity.
  - vm_compute. right. left. reflexivity.
  - vm_compute. discriminate.
Qed.

(** The ciphertext of that case, and what comes back. *)
Example key_rotation_false_positive_ciphertext :
  CryptoHelper.encrypt_xdata (env_with_xdata_key "OLD-KEY-OLD-KEY!") id_186299 1700000000000
  = lit "LG_JfU4bODqzcOZgDQFCjw==".
Proof. vm_compute. reflexivity. Qed.

Example key_rotation_false_positive_value :
  CryptoHelper.decrypt_xdata (env_rotated "NEW-KEY-NEW-KEY!" "OLD-KEY-OLD-KEY!")
    (CryptoHelper.encrypt_xdata (env_with_xdata_key "OLD-KEY-OLD-KEY!") id_186299
       1700000000000) 1700000000000
  = [26; 10; 127; 92; 28; 64; 109; 2; 83; 40; 63; 21; 58; 69; 35].
Proof. vm_compute. reflexivity. Qed.

(** ** The MSISDN codec *)

Lemma skipn_firstn_app {A} (l1 l2 : list A) (n : nat) :
  length l2 = n ->
  skipn (length (l1 ++ l2) - n) (l1 ++ l2) = l2 /\
  firstn (length (l1 ++ l2) - n) (l1 ++ l2) = l1.
Proof.
  intros <-. rewrite length_app.
  replace (length l1 + length l2 - length l2)%nat with (length l1 + 0)%nat by lia.
  rewrite skipn_app, firstn_app, Nat.add_0_r, skipn_all, firstn_all, Nat.sub_diag.
  cbn [skipn firstn app]. now rewrite app_nil_r.
Qed.

(** C7 (amended): for every non-empty msisdn that has a UTF-8 encoding, every
    valid field key and every eight random bytes (sixteen hexadecimal
    characters of IV), decrypting the output of [encrypt_circle_msisdn] gives
    the msisdn back. *)
Theorem circle_roundtrip (env : environ) (rnd : bytes) (msisdn : pystr) (kb data : bytes) :
  CryptoHelper.nonempty msisdn = true ->
  CryptoHelper._key_bytes (ENCRYPTED_FIELD_KEY env) = Some kb ->
  length rnd = 8%nat ->
  utf8_encode msisdn = Ok data ->
  CryptoHelper.decrypt_circle_msisdn env (CryptoHelper.encrypt_circle_msisdn env rnd msisdn)
  = msisdn.
Proof.
  intros Hne Hkey Hrnd Henc.
  destruct (key_bytes_valid _ _ Hkey) as [Hk _].
  set (iv_hex := hex_of_bytes rnd).
  assert (Hlen : length iv_hex = 16%nat).
  { subst iv_hex. rewrite hex_of_bytes_length, Hrnd. reflexivity. }
  assert (Hiv : encode_ascii iv_hex = Ok (ascii_bytes iv_hex)).
  { apply encode_ascii_ok, hex_of_bytes_ascii. }
  assert (Hivlen : length (ascii_bytes iv_hex) = 16%nat).
  { unfold ascii_bytes. now rewrite length_map. }
  destruct (seal_open kb (ascii_bytes iv_hex) data Hk Hivlen)
    as (c & ct & txt & Hc & He & Ht & Htne & _ & Hb & Hd & Hu).
  assert (E : CryptoHelper.encrypt_circle_msisdn env rnd msisdn = txt ++ iv_hex).
  { unfold CryptoHelper.encrypt_circle_msisdn. rewrite Hne.
    cbn [negb]. rewrite Hkey. fold iv_hex. rewrite Hiv. run_bind.
    rewrite Hc. run_bind. rewrite Henc. run_bind.
    unfold CryptoHelper._BLOCK_SIZE. rewrite He. run_bind. now rewrite Ht. }
  rewrite E. unfold CryptoHelper.decrypt_circle_msisdn, CryptoHelper.decrypt_circle_msisdn_body.
  destruct (skipn_firstn_app txt iv_hex 16 Hlen) as [-> ->].
  replace (negb (CryptoHelper.nonempty (txt ++ iv_hex))) with false
    by (destruct txt; [discriminate|reflexivity]).
  replace (length (txt ++ iv_hex) <? 16)%nat with false
    by (symmetry; apply Nat.ltb_ge; rewrite length_app; lia).
  cbn [orb]. rewrite Hkey, Hiv. run_bind. rewrite Hb. run_bind. rewrite Hc. run_bind.
  rewrite Hd. run_bind. rewrite Hu. run_bind.
  now rewrite (utf8_roundtrip _ _ Henc).
Qed.

Lemma circle_roundtrip_witness :
  CryptoHelper.decrypt_circle_msisdn (env_with_field_key "0123456789abcdef")
    (CryptoHelper.encrypt_circle_msisdn (env_with_field_key "0123456789abcdef")
       [x01; x23; x45; x67; x89; xab; xcd; xef] (lit "6281234567890"))
  = lit "6281234567890".
Proof.
  apply (circle_roundtrip (env_with_field_key "0123456789abcdef")
           [x01; x23; x45; x67; x89; xab; xcd; xef] (lit "6281234567890")
           (ascii_bytes (lit "0123456789abcdef")) (ascii_bytes (lit "6281234567890"))).
  - reflexivity.
  - vm_compute. reflexivity.
  - reflexivity.
  - vm_compute. reflexivity.
Defined.

(** C7 as stated fails: the one-character msisdn U+DCFF (what an undecodable
    byte of a command-line argument becomes) is non-empty, the key is valid,
    yet [encrypt_circle_msisdn] returns the empty string, which decrypts to
    the empty string. *)
Lemma circle_roundtrip_surrogate :
  let env := env_with_field_key "0123456789abcdef" in
  let rnd := [x01; x23; x45; x67; x89; xab; xcd; xef] in
  let msisdn := [0xDCFF] in
  CryptoHelper.nonempty msisdn = true /\
  CryptoHelper._key_bytes (ENCRYPTED_FIELD_KEY env)
    = Some (ascii_bytes (lit "0123456789abcdef")) /\
  length rnd = 8%nat /\
  CryptoHelper.decrypt_circle_msisdn env (CryptoHelper.encrypt_circle_msisdn env rnd msisdn)
    <> msisdn.
Proof.
  cbv zeta. split; [|split; [|split]].
  - reflexivity.
  - vm_compute. reflexivity.
  - reflexivity.
  - vm_compute. discriminate.
Qed.

(** The sample number, a 15-digit one and a 31-digit one (two blocks). *)
Example circle_roundtrip_samples :
  let env := env_with_field_key "0123456789abcdef" in
  let rnd := [x01; x23; x45; x67; x89; xab; xcd; xef] in
  CryptoHelper.encrypt_circle_msisdn env rnd (lit "6281234567890")
    = lit "lFj8ET8v7RYp-ebGeFVkJg==0123456789abcdef" /\
  CryptoHelper.decrypt_circle_msisdn env
    (CryptoHelper.encrypt_circle_msisdn env rnd (lit "6281234567890")) = lit "6281234567890" /\
  CryptoHelper.decrypt_circle_msisdn env
    (CryptoHelper.encrypt_circle_msisdn env rnd (lit "628123456789012")) = lit "628123456789012" /\
  CryptoHelper.decrypt_circle_msisdn env
    (CryptoHelper.encrypt_circle_msisdn env rnd (lit "6281234567890628123456789062812"))
  = lit "6281234567890628123456789062812".
Proof. cbv zeta. split; [|split; [|split]]; vm_compute; reflexivity. Qed.


(** A corrupt blob is not always an error: the sample ciphertext of a
    31-digit number with its last character cut off still unpads and decodes,
    to a text that is not the number. *)
Example decrypt_circle_msisdn_truncated :
  let env := env_with_field_key "0123456789abcdef" in
  let blob := CryptoHelper.encrypt_circle_msisdn env [x01; x23; x45; x67; x89; xab; xcd; xef]
                (lit "6281234567890628123456789062812") in
  CryptoHelper.decrypt_circle_msisdn env (removelast blob)
  = lit ";3;0527496`:113;123456789062812".
Proof. vm_compute. reflexivity. Qed.

(** ** Integers and their text *)










(** ** Stripping *)

Lemma lstrip_spaces (ws s : pystr) :
  forallb is_space ws = true -> lstrip (ws ++ s) = lstrip s.
Proof.
  induction ws as [|c r IH]; [reflexivity|]. cbn [forallb app lstrip].
  intros H. apply andb_prop in H as [-> Hr]. now apply IH.
Qed.

Lemma lstrip_solid (s rest : pystr) :
  s <> [] -> forallb (fun c => negb (is_space c)) s = true ->
  lstrip (s ++ rest) = s ++ rest.
Proof.
  destruct s as [|c r]; [congruence|]. intros _ H. cbn [forallb] in H.
  apply andb_prop in H as [Hc _]. apply negb_true_iff in Hc.
  cbn [app lstrip]. now rewrite Hc.
Qed.

Lemma forallb_rev {A} (f : A -> bool) (l : list A) :
  forallb f (rev l) = forallb f l.
Proof.
  induction l as [|x r IH]; [reflexivity|].
  cbn [rev forallb]. rewrite forallb_app, IH. cbn [forallb].
  rewrite andb_true_r. apply andb_comm.
Qed.

Lemma strip_padded (ws1 s ws2 : pystr) :
  forallb is_space ws1 = true -> forallb is_space ws2 = true ->
  s <> [] -> forallb (fun c => negb (is_space c)) s = true ->
  strip (ws1 ++ s ++ ws2) = s.
Proof.
  intros H1 H2 Hne Hs. unfold strip.
  rewrite (lstrip_spaces _ _ H1), (lstrip_solid _ _ Hne Hs).
  rewrite rev_app_distr, lstrip_spaces by now rewrite forallb_rev.
  rewrite <- (app_nil_r (rev s)), lstrip_solid.
  - now rewrite app_nil_r, rev_involutive.
  - intros E. apply (f_equal (@rev N)) in E. rewrite rev_involutive in E. now subst.
  - now rewrite forallb_rev.
Qed.

(** ** The service of [encrypt.py] *)

Section Service.

Variable json_loads : pystr -> result pyval.
Variable container_repr : pyval -> pystr.

Abbreviation _safe_int := (Encrypt._safe_int container_repr).
Abbreviation py_str := (Encrypt.py_str container_repr).
Abbreviation decrypt_xdata_payload := (Encrypt.decrypt_xdata_payload json_loads container_repr).



(** The result of [decrypt_xdata_payload], by cases. *)
Lemma decrypt_xdata_payload_cases (env : environ) (payload : pyval) :
  decrypt_xdata_payload env payload = empty_dict \/
  exists d t parsed,
    payload = VDict d /\
    _safe_int (dict_get (lit "xtime") d) None = Some t /\
    json_loads (CryptoHelper.decrypt_xdata env (py_str (dict_get (lit "xdata") d)) t)
      = Ok parsed /\
    is_dict parsed = true /\
    decrypt_xdata_payload env payload = parsed.
Proof.
  unfold Encrypt.decrypt_xdata_payload.
  destruct payload as [| | | | | |d]; try (left; reflexivity).
  destruct (negb (truthy (dict_get (lit "xdata") d)) || _); [left; reflexivity|].
  destruct (_safe_int (dict_get (lit "xtime") d) None) as [t|] eqn:Et; [|left; reflexivity].
  destruct (json_loads _) as [parsed|] eqn:Ej; [|left; reflexivity].
  destruct (is_dict parsed) eqn:Ed; [|left; reflexivity].
  right. exists d, t, parsed. cbn [try_except]. auto.
Qed.

Hypothesis json_loads_empty_object : json_loads (lit "{}") = Ok empty_dict.

(** C6: [decrypt_xdata_payload] returns the empty dictionary when every
    candidate key fails on the envelope, and when the recovered plaintext
    parses to something that is not an object; on every input it returns a
    dictionary, so nothing is raised. *)
Theorem decrypt_xdata_payload_fails_soft (env : environ) (payload : pyval) :
  is_dict (decrypt_xdata_payload env payload) = true /\
  (forall d t,
     payload = VDict d ->
     _safe_int (dict_get (lit "xtime") d) None = Some t ->
     existsb (opens (py_str (dict_get (lit "xdata") d)) t)
             (CryptoHelper._iter_candidate_keys env) = false ->
     decrypt_xdata_payload env payload = empty_dict) /\
  (forall d t parsed,
     payload = VDict d ->
     _safe_int (dict_get (lit "xtime") d) None = Some t ->
     json_loads (CryptoHelper.decrypt_xdata env (py_str (dict_get (lit "xdata") d)) t)
       = Ok parsed ->
     is_dict parsed = false ->
     decrypt_xdata_payload env payload = empty_dict).
Proof.
  split; [|split].
  - destruct (decrypt_xdata_payload_cases env payload) as [->|(d & t & p & _ & _ & _ & Hd & ->)];
      [reflexivity|assumption].
  - intros d t -> Ht Hkeys. unfold Encrypt.decrypt_xdata_payload.
    destruct (negb (truthy (dict_get (lit "xdata") d)) || _); [reflexivity|].
    rewrite Ht.
    assert (E : CryptoHelper.decrypt_xdata env (py_str (dict_get (lit "xdata") d)) t
                = lit "{}").
    { unfold CryptoHelper.decrypt_xdata.
      destruct (negb (CryptoHelper.nonempty _)); [reflexivity|].
      rewrite <- (app_nil_r (CryptoHelper._iter_candidate_keys env)).
      now rewrite first_success_app. }
    now rewrite E, json_loads_empty_object.
  - intros d t parsed -> Ht Hj Hd. unfold Encrypt.decrypt_xdata_payload.
    destruct (negb (truthy (dict_get (lit "xdata") d)) || _); [reflexivity|].
    rewrite Ht, Hj, Hd. reflexivity.
Qed.

End Service.


(** Both give the payload back. *)
Example xtime_int_or_text_value :
  Encrypt.decrypt_xdata_payload sample_json_loads sample_repr
    (env_with_xdata_key "0123456789abcdef")
    (VDict (ping_envelope (VStr (lit " 1700000000000 "))))
  = VDict [(lit "ping", VStr (lit "pong"))].
Proof. vm_compute. reflexivity. Qed.

Lemma decrypt_xdata_payload_fails_soft_witness :
  Encrypt.decrypt_xdata_payload sample_json_loads sample_repr
    (env_rotated "NEW-KEY-NEW-KEY!" "OLD-KEY-OLD-KEY!")
    (VDict (ping_envelope (VInt 1700000000000))) = empty_dict.
Proof.
  apply (proj1 (proj2 (decrypt_xdata_payload_fails_soft sample_json_loads sample_repr
                         eq_refl (env_rotated "NEW-KEY-NEW-KEY!" "OLD-KEY-OLD-KEY!")
                         (VDict (ping_envelope (VInt 1700000000000)))))
           (ping_envelope (VInt 1700000000000)) 1700000000000%Z).
  - reflexivity.
  - reflexivity.
  - vm_compute. reflexivity.
Defined.

(** ** Signatures *)

(** The hex digest of HMAC-SHA512 has 128 characters. *)
Lemma hmac_sha512_hex_length (k m : bytes) :
  length (hex_of_bytes (hmac_sha512 k m)) = 128%nat.
Proof. now rewrite hex_of_bytes_length, hmac_sha512_length. Qed.

Lemma utf8_encode_app_ascii (s a : pystr) (bs : bytes) :
  utf8_encode s = Ok bs -> is_ascii a = true ->
  utf8_encode (a ++ s) = Ok (ascii_bytes a ++ bs).
Proof.
  unfold utf8_encode. intros Hs Ha.
  destruct (utf8_encode_opt s) as [b|] eqn:E; [|discriminate]. injection Hs as <-.
  induction a as [|c r IH]; cbn [app utf8_encode_opt ascii_bytes map].
  - now rewrite E.
  - cbn [is_ascii forallb] in Ha. apply andb_prop in Ha as [Hc Hr].
    specialize (IH Hr). destruct (utf8_encode_opt (r ++ s)) as [x|]; [|discriminate].
    injection IH as ->. unfold utf8_encode_char. now rewrite Hc.
Qed.





(** An envelope is indeed produced, and its signature is not the one of the
    millisecond value. *)
Example encrypt_and_sign_sample :
  let env := {| XDATA_KEY := lit "0123456789abcdef"; AX_API_SIG_KEY := [];
                X_API_BASE_SECRET := lit "secret"; ENCRYPTED_FIELD_KEY := [];
                XDATA_KEYS := []; xdata_keys_file := None |} in
  let payload := VDict [(lit "ping", VStr (lit "pong"))] in
  Encrypt.encrypt_and_sign_xdata env 1700000000123 (lit "POST") (lit "api/v8/profile")
    (lit "token") payload
  = VDict [(lit "x_signature",
            VStr (CryptoHelper.make_x_signature env (lit "token") (lit "POST")
                    (lit "api/v8/profile") 1700000000));
           (lit "encrypted_body",
            VDict [(lit "xdata", VStr (lit "SCmtqxxG9pZG7rdBcFGlbw==")); (lit "xtime", VInt 1700000000123)])]
  /\ CryptoHelper.make_x_signature env (lit "token") (lit "POST") (lit "api/v8/profile")
       1700000000
     <> CryptoHelper.make_x_signature env (lit "token") (lit "POST") (lit "api/v8/profile")
          1700000000123.
Proof. cbv zeta. split; [vm_compute; reflexivity | vm_compute; discriminate]. Qed.

(** ** Hexadecimal text *)

Ltac prop_of_bools := repeat progress bool_to_prop.


Lemma hex_pair_facts (b : byte) :
  is_lower_hex (hex_char (Byte.to_N b / 16)) = true /\
  is_lower_hex (hex_char (Byte.to_N b mod 16)) = true /\
  exists x y, hex_value (hex_char (Byte.to_N b / 16)) = Some x /\
              hex_value (hex_char (Byte.to_N b mod 16)) = Some y /\
              byte_of_N (16 * x + y) = b.
Proof.
  assert (H : hex_pair_ok b = true).
  { revert b. apply byte_forall. vm_compute. reflexivity. }
  unfold hex_pair_ok in H. cbv zeta in H.
  apply andb_prop in H as [H H3]. apply andb_prop in H as [H1 H2].
  split; [assumption|split; [assumption|]].
  destruct (hex_value (hex_char (Byte.to_N b / 16))) as [x|]; [|discriminate].
  destruct (hex_value (hex_char (Byte.to_N b mod 16))) as [y|]; [|discriminate].
  exists x, y. repeat split. now apply Byte.byte_dec_bl.
Qed.

Lemma lower_hex_solid (c : N) : is_lower_hex c = true -> solid c = true.
Proof.
  unfold is_lower_hex, solid, is_space. intros H.
  apply negb_true_iff, not_true_iff_false. intros S. revert H S. prop_of_bools. lia.
Qed.

Lemma lower_hex_no_ascii_space (c : N) : is_lower_hex c = true -> is_ascii_space c = false.
Proof.
  unfold is_lower_hex, is_ascii_space. intros H.
  apply not_true_iff_false. intros S. revert H S. prop_of_bools. lia.
Qed.

Lemma hex_of_bytes_lower (bs : bytes) : forallb is_lower_hex (hex_of_bytes bs) = true.
Proof.
  induction bs as [|b r IH]; [reflexivity|].
  destruct (hex_pair_facts b) as (H1 & H2 & _).
  cbn [hex_of_bytes flat_map app forallb]. fold (hex_of_bytes r).
  now rewrite H1, H2, IH.
Qed.

Lemma hex_of_bytes_solid (bs : bytes) : forallb solid (hex_of_bytes bs) = true.
Proof.
  pose proof (hex_of_bytes_lower bs) as H. rewrite forallb_forall in *.
  intros c Hc. now apply lower_hex_solid, H.
Qed.

Lemma fromhex_hex_of_bytes (bs : bytes) : fromhex (hex_of_bytes bs) = Ok bs.
Proof.
  induction bs as [|b r IH]; [reflexivity|].
  destruct (hex_pair_facts b) as (H1 & H2 & x & y & Hx & Hy & E).
  cbn [hex_of_bytes flat_map app fromhex]. fold (hex_of_bytes r).
  rewrite (lower_hex_no_ascii_space _ H1), Hx, Hy, IH. cbn [bind]. now rewrite E.
Qed.

(** ** Key texts *)

Lemma solid_lower (c : N) : solid (ascii_lower c) = true -> solid c = true.
Proof.
  unfold solid, ascii_lower, is_space.
  destruct ((65 <=? c) && (c <=? 90)) eqn:E; [|trivial].
  intros _. apply negb_true_iff, not_true_iff_false. intros S. revert E S.
  prop_of_bools. lia.
Qed.

Lemma startswith_refl (s rest : pystr) : startswith s (s ++ rest) = true.
Proof.
  induction s as [|c r IH]; [reflexivity|].
  cbn [app startswith]. now rewrite N.eqb_refl, IH.
Qed.

(** A spelling of a blank-free prefix has its length, has no blank, and is
    recognised in front of any text. *)
Lemma spells_facts (prefix : string) (p rest : pystr) :
  forallb solid (lit prefix) = true -> spells prefix p = true ->
  length p = length (lit prefix) /\ forallb solid p = true /\
  lower_startswith (lit prefix) (p ++ rest) = true /\
  skipn (length (lit prefix)) (p ++ rest) = rest.
Proof.
  intros Hs Hp. apply pystr_eqb_eq in Hp.
  assert (L : length p = length (lit prefix)) by now rewrite <- Hp, length_map.
  split; [assumption|]. split; [|split].
  - rewrite <- Hp in Hs. clear Hp L. induction p as [|c r IH]; [reflexivity|].
    cbn [map forallb] in *. apply andb_prop in Hs as [Hc Hr].
    now rewrite (solid_lower _ Hc), IH.
  - unfold lower_startswith. rewrite <- L, firstn_app, Nat.sub_diag, firstn_all.
    cbn [firstn]. rewrite app_nil_r, Hp.
    pose proof (startswith_refl (lit prefix) []) as R. now rewrite app_nil_r in R.
  - rewrite <- L, skipn_app, Nat.sub_diag, skipn_all. reflexivity.
Qed.

Lemma nonempty_app_r {A} (a b : list A) :
  CryptoHelper.nonempty b = true -> CryptoHelper.nonempty (a ++ b) = true.
Proof. destruct a; [trivial|reflexivity]. Qed.

Lemma nonempty_app_l {A} (a b : list A) :
  CryptoHelper.nonempty a = true -> CryptoHelper.nonempty (a ++ b) = true.
Proof. destruct a; [discriminate|reflexivity]. Qed.

Lemma nonempty_length {A} (l : list A) :
  (0 < length l)%nat -> CryptoHelper.nonempty l = true.
Proof. destruct l; cbn [length]; [lia|reflexivity]. Qed.

Lemma valid_key_cases (n : nat) :
  Aes.valid_key_length n = true -> n = 16%nat \/ n = 24%nat \/ n = 32%nat.
Proof.
  unfold Aes.valid_key_length. intros H.
  repeat (apply orb_prop in H; destruct H as [H|H]);
    apply Nat.eqb_eq in H; auto.
Qed.

(** The shape all prefixed key texts share: blanks, a prefix in any case,
    a blank-free text, blanks. *)
Lemma key_bytes_prefixed (prefix : string) (ws1 p body ws2 : pystr) :
  forallb solid (lit prefix) = true -> length (lit prefix) = 4%nat ->
  forallb is_space ws1 = true -> forallb is_space ws2 = true ->
  spells prefix p = true -> body <> [] -> forallb solid body = true ->
  CryptoHelper.nonempty (ws1 ++ p ++ body ++ ws2) = true /\
  strip (ws1 ++ p ++ body ++ ws2) = p ++ body /\
  lower_startswith (lit prefix) (p ++ body) = true /\
  strip (skipn 4 (p ++ body)) = body.
Proof.
  intros Hs L4 H1 H2 Hp Hne Hb.
  destruct (spells_facts prefix p body Hs Hp) as (L & Sp & St & Sk).
  split; [|split; [|split]].
  - apply nonempty_app_r, nonempty_app_r, nonempty_app_l.
    now destruct body.
  - rewrite (app_assoc p). apply strip_padded; try assumption.
    + destruct p; [|discriminate]. now destruct body.
    + change (forallb solid (p ++ body) = true). now rewrite forallb_app, Sp, Hb.
  - assumption.
  - rewrite <- L4, Sk. rewrite <- (app_nil_r body) at 1.
    now apply (strip_padded [] body []).
Qed.

(** X1: a key written as [hex:] (in any case, with blanks around the text)
    followed by the lowercase hexadecimal digits of 16, 24 or 32 bytes is
    read as those bytes. *)
Theorem key_bytes_hex (ws1 p ws2 : pystr) (kb : bytes) :
  forallb is_space ws1 = true -> forallb is_space ws2 = true ->
  spells "hex:" p = true ->
  Aes.valid_key_length (length kb) = true ->
  CryptoHelper._key_bytes (ws1 ++ p ++ hex_of_bytes kb ++ ws2) = Some kb.
Proof.
  intros H1 H2 Hp Hk.
  assert (Hne : hex_of_bytes kb <> []).
  { intros E. apply (f_equal (@length N)) in E. rewrite hex_of_bytes_length in E.
    apply valid_key_cases in Hk. cbn [length] in E. lia. }
  destruct (key_bytes_prefixed "hex:" ws1 p (hex_of_bytes kb) ws2
              eq_refl eq_refl H1 H2 Hp Hne (hex_of_bytes_solid kb))
    as (N1 & S1 & P1 & S2).
  unfold CryptoHelper._key_bytes. rewrite N1. cbn [negb]. cbv zeta.
  rewrite S1, P1, S2, fromhex_hex_of_bytes. now rewrite Hk.
Qed.

Lemma key_bytes_hex_witness :
  CryptoHelper._key_bytes
    (lit " " ++ lit "HEX:" ++ hex_of_bytes (ascii_bytes (lit "0123456789abcdef")) ++ [10])
  = Some (ascii_bytes (lit "0123456789abcdef")).
Proof.
  apply (key_bytes_hex (lit " ") (lit "HEX:") [10]); vm_compute; reflexivity.
Defined.

(** ** Base64 text in the standard alphabet *)

Lemma std_sextet (i : N) : i < 64 -> plain_byte (Base64.sextet i) = true.
Proof. revert i. apply (N_forall_lt 64). vm_compute. reflexivity. Qed.

Lemma b64encode_plain (bs : bytes) : forallb plain_byte (Base64.b64encode bs) = true.
Proof.
  induction bs as [|a|a b|a b c r IH] using list_ind3.
  - reflexivity.
  - destruct (sextet_bounds a a a) as (B1 & B2 & _).
    cbn [Base64.b64encode forallb]. now rewrite !std_sextet.
  - destruct (sextet_bounds a b b) as (B1 & _ & B3 & B4 & _).
    cbn [Base64.b64encode forallb]. now rewrite !std_sextet.
  - destruct (sextet_bounds a b c) as (B1 & _ & B3 & _ & B5 & B6).
    cbn [Base64.b64encode forallb]. now rewrite !std_sextet, IH.
Qed.

Lemma plain_solid (bs : bytes) :
  forallb plain_byte bs = true -> forallb solid (map Byte.to_N bs) = true.
Proof.
  intros H. rewrite forallb_forall in *. intros c Hc.
  apply in_map_iff in Hc as (b & <- & Hb). specialize (H b Hb).
  unfold plain_byte in H. now apply andb_prop in H.
Qed.

Lemma b64decode_b64encode (bs : bytes) :
  Base64.b64decode (map Byte.to_N (Base64.b64encode bs)) = Ok bs.
Proof.
  unfold Base64.b64decode, Base64.bytes_from_decode_data.
  rewrite encode_ascii_to_N by apply b64encode_plain. cbn [bind].
  apply a2b_b64encode.
Qed.

(** X2: a key written as [b64:] (in any case, with blanks around the text)
    followed by the standard base64 text of 16, 24 or 32 bytes is read as
    those bytes. *)
Theorem key_bytes_b64 (ws1 p ws2 : pystr) (kb : bytes) :
  forallb is_space ws1 = true -> forallb is_space ws2 = true ->
  spells "b64:" p = true ->
  Aes.valid_key_length (length kb) = true ->
  CryptoHelper._key_bytes (ws1 ++ p ++ map Byte.to_N (Base64.b64encode kb) ++ ws2) = Some kb.
Proof.
  intros H1 H2 Hp Hk.
  assert (Hne : map Byte.to_N (Base64.b64encode kb) <> []).
  { intros E. apply map_eq_nil in E. apply valid_key_cases in Hk.
    destruct kb as [|a [|b [|c r]]]; cbn [length] in Hk; try lia; discriminate. }
  destruct (key_bytes_prefixed "b64:" ws1 p _ ws2
              eq_refl eq_refl H1 H2 Hp Hne (plain_solid _ (b64encode_plain kb)))
    as (N1 & S1 & P1 & S2).
  unfold CryptoHelper._key_bytes. rewrite N1. cbn [negb]. cbv zeta.
  rewrite S1, P1, S2.
  replace (lower_startswith (lit "hex:") _) with false.
  - rewrite b64decode_b64encode. now rewrite Hk.
  - symmetry. destruct (spells_facts "b64:" p [] eq_refl Hp) as (L & _).
    apply pystr_eqb_eq in Hp.
    destruct p as [|c1 [|c2 [|c3 [|c4 [|c5 r]]]]]; try discriminate.
    injection Hp as E1 E2 E3 E4.
    unfold lower_startswith. change (length (lit "hex:")) with 4%nat.
    cbn [firstn app map]. rewrite E1. reflexivity.
Qed.

Lemma key_bytes_b64_witness :
  CryptoHelper._key_bytes
    ([9] ++ lit "B64:" ++
     map Byte.to_N (Base64.b64encode (ascii_bytes (lit "0123456789abcdef01234567"))) ++ lit " ")
  = Some (ascii_bytes (lit "0123456789abcdef01234567")).
Proof.
  apply (key_bytes_b64 [9] (lit "B64:") (lit " ")); vm_compute; reflexivity.
Defined.

(** ** The candidate keys, continued *)

Lemma bytes_in_spec (kb : bytes) (seen : set bytes) :
  CryptoHelper.bytes_in kb seen = true <-> In kb seen.
Proof.
  unfold CryptoHelper.bytes_in. split.
  - apply set_mem_correct1.
  - apply set_mem_correct2.
Qed.

Lemma bytes_in_add (kb k : bytes) (seen : set bytes) :
  CryptoHelper.bytes_in k (set_add (list_eq_dec Byte.byte_eq_dec) kb seen) = false ->
  k <> kb /\ CryptoHelper.bytes_in k seen = false.
Proof.
  intros H. apply not_true_iff_false in H. rewrite bytes_in_spec in H. split.
  - intros ->. apply H. now apply set_add_intro2.
  - apply not_true_iff_false. rewrite bytes_in_spec. intros I. apply H.
    now apply set_add_intro1.
Qed.

(** What [push_all] yields is new, valid and without repetition. *)
Lemma push_all_fresh (raws : list pystr) :
  forall seen,
    NoDup (CryptoHelper.push_all seen raws) /\
    Forall (fun k => CryptoHelper.bytes_in k seen = false /\
                     Aes.valid_key_length (length k) = true)
           (CryptoHelper.push_all seen raws).
Proof.
  induction raws as [|raw rest IH]; intros seen; cbn [CryptoHelper.push_all].
  - split; constructor.
  - destruct (CryptoHelper._key_bytes raw) as [kb|] eqn:K; [|apply IH].
    destruct (CryptoHelper.nonempty kb && negb (CryptoHelper.bytes_in kb seen)) eqn:E;
      [|apply IH].
    apply andb_prop in E as [_ E]. apply negb_true_iff in E.
    destruct (IH (set_add (list_eq_dec Byte.byte_eq_dec) kb seen)) as [ND F].
    rewrite Forall_forall in F. split.
    + constructor; [|assumption]. intros I.
      destruct (bytes_in_add kb kb seen (proj1 (F kb I))) as [N _]. now apply N.
    + constructor.
      * split; [assumption|]. now destruct (key_bytes_valid _ _ K).
      * rewrite Forall_forall. intros k I. destruct (F k I) as [B V].
        split; [|assumption]. now destruct (bytes_in_add kb k seen B).
Qed.

(** Every key text that parses is yielded, unless it was seen before. *)
Lemma push_all_complete (raws : list pystr) (raw : pystr) (kb : bytes) :
  In raw raws -> CryptoHelper._key_bytes raw = Some kb ->
  forall seen, In kb seen \/ In kb (CryptoHelper.push_all seen raws).
Proof.
  intros I K. induction raws as [|r rest IH]; [contradiction|]. intros seen.
  cbn [CryptoHelper.push_all]. destruct I as [->|I].
  - rewrite K. destruct (key_bytes_valid _ _ K) as [V _].
    rewrite (valid_key_nonempty _ V). cbn [andb].
    destruct (CryptoHelper.bytes_in kb seen) eqn:B; cbn [negb].
    + left. now apply bytes_in_spec.
    + right. now left.
  - destruct (CryptoHelper._key_bytes r) as [k|] eqn:Kr; [|now apply IH].
    destruct (CryptoHelper.nonempty k && negb (CryptoHelper.bytes_in k seen)); [|now apply IH].
    destruct (IH I (set_add (list_eq_dec Byte.byte_eq_dec) k seen)) as [S|S].
    + apply set_add_elim in S as [->|S]; [right; now left|now left].
    + right. now right.
Qed.

(** X3: the candidate keys are pairwise different and each has 16, 24 or 32
    bytes. *)
Theorem iter_candidate_keys_distinct (env : environ) :
  NoDup (CryptoHelper._iter_candidate_keys env) /\
  Forall (fun k => Aes.valid_key_length (length k) = true)
         (CryptoHelper._iter_candidate_keys env).
Proof.
  unfold CryptoHelper._iter_candidate_keys. cbv zeta.
  match goal with |- NoDup (CryptoHelper.push_all ?s ?l) /\ _ =>
    destruct (push_all_fresh l s) as [ND F] end.
  split; [assumption|]. rewrite Forall_forall in *. intros k I. now destruct (F k I).
Qed.

(** X4: no key is lost: the primary key, and every comma-separated entry of
    [XDATA_KEYS] that, once stripped, parses as a key, is among the
    candidates. *)
Theorem iter_candidate_keys_complete (env : environ) (raw : pystr) (kb : bytes) :
  raw = XDATA_KEY env \/ In raw (map strip (split_on 44 (XDATA_KEYS env))) ->
  CryptoHelper._key_bytes raw = Some kb ->
  In kb (CryptoHelper._iter_candidate_keys env).
Proof.
  intros I K. destruct (key_bytes_valid _ _ K) as [_ Hne].
  assert (Nraw : CryptoHelper.nonempty raw = true) by now destruct raw.
  unfold CryptoHelper._iter_candidate_keys. cbv zeta.
  match goal with |- In kb (CryptoHelper.push_all ?s ?l) =>
    destruct (push_all_complete l raw kb) with (seen := s) as [S|S];
      [|assumption|contradiction|assumption] end.
  destruct I as [->|I].
  - apply in_or_app. left. rewrite Nraw. now left.
  - apply in_or_app. right. apply in_or_app. left.
    apply filter_In. split; [|assumption].
    destruct (XDATA_KEYS env) as [|c r]; [|assumption].
    cbn [split_on map In] in I. destruct I as [<-|[]]. discriminate.
Qed.

Lemma iter_candidate_keys_complete_witness :
  In (ascii_bytes (lit "OLD-KEY-OLD-KEY!"))
     (CryptoHelper._iter_candidate_keys
        {| XDATA_KEY := lit "NEW-KEY-NEW-KEY!"; AX_API_SIG_KEY := [];
           X_API_BASE_SECRET := []; ENCRYPTED_FIELD_KEY := [];
           XDATA_KEYS := lit "junk, OLD-KEY-OLD-KEY! ,"; xdata_keys_file := None |}).
Proof.
  apply (iter_candidate_keys_complete _ (lit "OLD-KEY-OLD-KEY!")).
  - right. vm_compute. right. left. reflexivity.
  - vm_compute. reflexivity.
Defined.

(** ** Repairing base64 text *)

Lemma fix_b64_eq (s : pystr) :
  CryptoHelper._fix_b64 s =
  if CryptoHelper.nonempty s
  then filter solid s ++ repeat 61 ((4 - length (filter solid s) mod 4) mod 4)%nat
  else [].
Proof. unfold CryptoHelper._fix_b64. now destruct s. Qed.

Lemma filter_solid_id (s : pystr) : forallb solid s = true -> filter solid s = s.
Proof.
  induction s as [|c r IH]; [reflexivity|]. cbn [forallb filter].
  intros H. apply andb_prop in H as [-> Hr]. now rewrite IH.
Qed.

Lemma forallb_filter {A} (f : A -> bool) (l : list A) : forallb f (filter f l) = true.
Proof.
  induction l as [|x r IH]; [reflexivity|]. cbn [filter].
  destruct (f x) eqn:E; [|assumption]. cbn [forallb]. now rewrite E.
Qed.

Lemma forallb_repeat {A} (f : A -> bool) (x : A) (n : nat) :
  f x = true -> forallb f (repeat x n) = true.
Proof. intros H. induction n; [reflexivity|]. cbn [repeat forallb]. now rewrite H. Qed.

Lemma pad_len_unique (n k : nat) :
  (k < 4)%nat -> ((n + k) mod 4 = 0)%nat -> ((4 - n mod 4) mod 4 = k)%nat.
Proof.
  intros Hk Hm. rewrite <- Nat.Div0.add_mod_idemp_l in Hm.
  assert (B : (n mod 4 < 4)%nat) by (apply Nat.mod_upper_bound; lia).
  revert B Hm. generalize (n mod 4)%nat. intros r B R.
  destruct r as [|[|[|[|r]]]]; [| | | |lia];
    destruct k as [|[|[|[|k]]]]; try lia; try reflexivity; discriminate R.
Qed.

Lemma pad_len_spec (n : nat) : ((n + (4 - n mod 4) mod 4) mod 4 = 0)%nat.
Proof.
  rewrite <- Nat.Div0.add_mod_idemp_l.
  assert (B : (n mod 4 < 4)%nat) by (apply Nat.mod_upper_bound; lia).
  revert B. generalize (n mod 4)%nat. intros r B.
  destruct r as [|[|[|[|r]]]]; [| | | |lia]; reflexivity.
Qed.

(** A blank-free text of [k] characters less than a whole number of quads
    is completed with [k] pad characters. *)
Lemma fix_b64_completes (x s : pystr) (k : nat) :
  CryptoHelper.nonempty s = true -> (k < 4)%nat -> ((length s + k) mod 4 = 0)%nat ->
  filter solid x = s ->
  CryptoHelper._fix_b64 x = s ++ repeat 61 k.
Proof.
  intros Hne Hk Hm Hx. rewrite fix_b64_eq.
  assert (Nx : CryptoHelper.nonempty x = true).
  { destruct x; [|reflexivity]. cbn [filter] in Hx. now subst s. }
  rewrite Nx, Hx. f_equal. f_equal. now apply pad_len_unique.
Qed.

(** X5: what [_fix_b64] returns has no blank and a whole number of quads,
    and repairing it again changes nothing. *)
Theorem fix_b64_canonical (s : pystr) :
  forallb solid (CryptoHelper._fix_b64 s) = true /\
  (length (CryptoHelper._fix_b64 s) mod 4 = 0)%nat /\
  CryptoHelper._fix_b64 (CryptoHelper._fix_b64 s) = CryptoHelper._fix_b64 s.
Proof.
  rewrite (fix_b64_eq s). destruct (CryptoHelper.nonempty s); [|now repeat split].
  set (s2 := filter solid s). set (p := ((4 - length s2 mod 4) mod 4)%nat).
  assert (F : forallb solid (s2 ++ repeat 61 p) = true).
  { rewrite forallb_app. unfold s2. rewrite forallb_filter.
    now rewrite forallb_repeat. }
  assert (L : Nat.modulo (length (s2 ++ repeat 61 p)) 4 = 0%nat).
  { rewrite length_app, repeat_length. subst p. apply pad_len_spec. }
  split; [assumption|]. split; [assumption|].
  rewrite fix_b64_eq, (filter_solid_id _ F), L.
  cbn [Nat.sub Nat.modulo Nat.divmod fst snd repeat]. rewrite app_nil_r.
  now destruct (s2 ++ repeat 61 p).
Qed.

(** ** Decrypting a text that was reflowed *)

Lemma try_decrypt_fix (x y : pystr) (t : Z) (k : bytes) :
  CryptoHelper._fix_b64 x = CryptoHelper._fix_b64 y ->
  CryptoHelper._try_decrypt_with_key x t k = CryptoHelper._try_decrypt_with_key y t k.
Proof. intros E. unfold CryptoHelper._try_decrypt_with_key. now rewrite E. Qed.

Lemma first_success_fix (x y : pystr) (t : Z) (keys : list bytes) :
  CryptoHelper._fix_b64 x = CryptoHelper._fix_b64 y ->
  CryptoHelper.first_success x t keys = CryptoHelper.first_success y t keys.
Proof.
  intros E. induction keys as [|k r IH]; [reflexivity|].
  cbn [CryptoHelper.first_success]. now rewrite (try_decrypt_fix x y t k E), IH.
Qed.

(** X6: [decrypt_xdata] reads a text the same with blanks anywhere in it and
    with its trailing pad characters dropped: if [s ++ "=" * k] is a
    blank-free text of whole quads, every text whose non-blank characters
    are [s] decrypts as [s ++ "=" * k] does. *)
Theorem decrypt_xdata_tolerant (env : environ) (x s : pystr) (k : nat) (t : Z) :
  CryptoHelper.nonempty s = true -> forallb solid s = true ->
  (k < 4)%nat -> ((length s + k) mod 4 = 0)%nat ->
  filter solid x = s ->
  CryptoHelper.decrypt_xdata env x t = CryptoHelper.decrypt_xdata env (s ++ repeat 61 k) t.
Proof.
  intros Hne Hs Hk Hm Hx.
  assert (E : CryptoHelper._fix_b64 x = CryptoHelper._fix_b64 (s ++ repeat 61 k)).
  { rewrite (fix_b64_completes x s k Hne Hk Hm Hx).
    symmetry. rewrite <- (app_nil_r (s ++ repeat 61 k)) at 2.
    apply (fix_b64_completes _ (s ++ repeat 61 k) 0).
    - now apply nonempty_app_l.
    - lia.
    - rewrite length_app, repeat_length, Nat.add_0_r. exact Hm.
    - apply filter_solid_id. rewrite forallb_app, Hs. now apply forallb_repeat. }
  unfold CryptoHelper.decrypt_xdata.
  replace (CryptoHelper.nonempty x) with true.
  - rewrite (nonempty_app_l _ _ Hne). cbn [negb].
    now rewrite (first_success_fix _ _ t _ E).
  - destruct x; [|reflexivity]. cbn [filter] in Hx. now subst s.
Qed.

Lemma decrypt_xdata_tolerant_witness :
  CryptoHelper.decrypt_xdata (env_with_xdata_key "0123456789abcdef")
    (lit "jOwsETHI" ++ [10] ++ lit "K1TM3OjP jSHS-g") 1700000000000
  = CryptoHelper.decrypt_xdata (env_with_xdata_key "0123456789abcdef")
      (lit "jOwsETHIK1TM3OjPjSHS-g" ++ repeat 61 2) 1700000000000.
Proof.
  apply (decrypt_xdata_tolerant _ _ (lit "jOwsETHIK1TM3OjPjSHS-g") 2);
    vm_compute; try reflexivity; lia.
Defined.

(** ** Lengths *)

Lemma bytes_of_blocks_length (bl : list Aes.state) :
  length (Aes.bytes_of_blocks bl) = (16 * length bl)%nat.
Proof.
  induction bl as [|s r IH]; [reflexivity|].
  destruct s as [[[[[[a0 a1] a2] a3] [[[b0 b1] b2] b3]] [[[c0 c1] c2] c3]] [[[d0 d1] d2] d3]].
  unfold Aes.bytes_of_blocks in *. cbn [flat_map Aes.bytes_of_state Aes.bytes_of_word app length].
  rewrite IH. lia.
Qed.

Lemma cbc_encrypt_length (rks : list Aes.state) (bl : list Aes.state) :
  forall iv, length (Aes.cbc_encrypt rks iv bl) = length bl.
Proof.
  induction bl as [|b r IH]; intros iv; [reflexivity|].
  cbn [Aes.cbc_encrypt length]. now rewrite IH.
Qed.

Lemma aes_encrypt_length (c : Aes.cbc_cipher) (data ct : bytes) :
  Aes.encrypt c data = Ok ct -> length ct = length data.
Proof.
  unfold Aes.encrypt. destruct (Aes.blocks_of_bytes data) as [bl|] eqn:E; [|discriminate].
  intros [= <-]. rewrite bytes_of_blocks_length, cbc_encrypt_length.
  now rewrite <- (bytes_of_blocks_of_bytes _ _ E), bytes_of_blocks_length.
Qed.

Lemma pad_length_exact (data : bytes) :
  length (Padding.pad data 16) = (16 * (length data / 16 + 1))%nat.
Proof.
  unfold Padding.pad. rewrite length_app, repeat_length.
  pose proof (Nat.div_mod_eq (length data) 16).
  pose proof (Nat.mod_upper_bound (length data) 16). lia.
Qed.

Lemma b64encode_length_exact (bs : bytes) :
  length (Base64.b64encode bs) = (4 * ((length bs + 2) / 3))%nat.
Proof.
  induction bs as [|a|a b|a b c r IH] using list_ind3; try reflexivity.
  cbn [Base64.b64encode length]. rewrite IH.
  replace (S (S (S (length r))) + 2)%nat with ((length r + 2) + 1 * 3)%nat by lia.
  rewrite Nat.div_add by lia. lia.
Qed.

(** ** The shape of an envelope *)

Lemma urlsafe_sextet (i : N) :
  i < 64 -> is_urlsafe_char (Byte.to_N (Base64.to_urlsafe (Base64.sextet i))) = true.
Proof. revert i. apply (N_forall_lt 64). vm_compute. reflexivity. Qed.

Lemma urlsafe_chars (bs : bytes) :
  forallb is_urlsafe_char (map Byte.to_N (Base64.urlsafe_b64encode bs)) = true.
Proof.
  unfold Base64.urlsafe_b64encode.
  induction bs as [|a|a b|a b c r IH] using list_ind3.
  - reflexivity.
  - destruct (sextet_bounds a a a) as (B1 & B2 & _).
    cbn [Base64.b64encode map forallb]. now rewrite !urlsafe_sextet.
  - destruct (sextet_bounds a b b) as (B1 & _ & B3 & B4 & _).
    cbn [Base64.b64encode map forallb]. now rewrite !urlsafe_sextet.
  - destruct (sextet_bounds a b c) as (B1 & _ & B3 & _ & B5 & B6).
    cbn [Base64.b64encode map forallb]. now rewrite !urlsafe_sextet, IH.
Qed.

(** The text of a sealed message. *)
Lemma seal_text (key iv data : bytes) :
  Aes.valid_key_length (length key) = true -> length iv = 16%nat ->
  exists c ct,
    Aes.new_cbc key iv = Ok c /\
    Aes.encrypt c (Padding.pad data 16) = Ok ct /\
    decode_ascii (Base64.urlsafe_b64encode ct) = Ok (map Byte.to_N (Base64.urlsafe_b64encode ct)) /\
    length ct = (16 * (length data / 16 + 1))%nat.
Proof.
  intros Hk Hiv.
  destruct (new_cbc_ok key iv Hk Hiv) as [c Hc].
  destruct (aes_decrypt_encrypt c _ (pad_length data)) as (ct & He & _).
  exists c, ct. split; [assumption|]. split; [assumption|]. split.
  - apply decode_ascii_plain, urlsafe_plain.
  - now rewrite (aes_encrypt_length _ _ _ He), pad_length_exact.
Qed.

Lemma urlsafe_text_length (ct : bytes) :
  length (map Byte.to_N (Base64.urlsafe_b64encode ct)) = (4 * ((length ct + 2) / 3))%nat.
Proof.
  unfold Base64.urlsafe_b64encode. now rewrite !length_map, b64encode_length_exact.
Qed.

(** X7: [encrypt_xdata] returns the empty string exactly when the plaintext
    is empty, the primary key is missing or invalid, or the plaintext has no
    UTF-8 encoding. *)
Theorem encrypt_xdata_succeeds_iff (env : environ) (plaintext : pystr) (t : Z) :
  CryptoHelper.encrypt_xdata env plaintext t <> [] <->
  plaintext <> [] /\
  (exists kb, CryptoHelper._key_bytes (XDATA_KEY env) = Some kb) /\
  encodable plaintext = true.
Proof.
  split.
  - intros H.
    destruct (encrypt_xdata_nonempty env plaintext t) as (Hp & Hk & [data Hd]).
    { now destruct (CryptoHelper.encrypt_xdata env plaintext t). }
    split; [now destruct plaintext|]. split; [assumption|].
    unfold encodable. now rewrite Hd.
  - intros (Hp & [kb Hk] & He). unfold encodable in He.
    destruct (utf8_encode plaintext) as [data|] eqn:Hd; [|discriminate].
    destruct (encrypt_xdata_open env plaintext t kb data) as [Hn _];
      try assumption; [now destruct plaintext|].
    now destruct (CryptoHelper.encrypt_xdata env plaintext t).
Qed.

(** X8: the text [encrypt_xdata] returns is made of the characters of the
    URL-safe base64 alphabet and [=], and its length depends on the number
    [n] of bytes of the plaintext only: the base64 length of
    [16 * (n / 16 + 1)] bytes. *)
Theorem encrypt_xdata_shape (env : environ) (plaintext : pystr) (t : Z) (kb data : bytes) :
  CryptoHelper.nonempty plaintext = true ->
  CryptoHelper._key_bytes (XDATA_KEY env) = Some kb ->
  utf8_encode plaintext = Ok data ->
  forallb is_urlsafe_char (CryptoHelper.encrypt_xdata env plaintext t) = true /\
  length (CryptoHelper.encrypt_xdata env plaintext t)
  = (4 * ((16 * (length data / 16 + 1) + 2) / 3))%nat.
Proof.
  intros Hne Hkey Henc.
  destruct (key_bytes_valid _ _ Hkey) as [Hk _].
  destruct (seal_text kb (CryptoHelper.derive_iv t) data Hk (derive_iv_length t))
    as (c & ct & Hc & He & Ht & Hl).
  assert (E : CryptoHelper.encrypt_xdata env plaintext t
              = map Byte.to_N (Base64.urlsafe_b64encode ct)).
  { unfold CryptoHelper.encrypt_xdata. rewrite Hne.
    cbn [negb]. rewrite Hkey, Hc. run_bind.
    rewrite Henc. run_bind. unfold CryptoHelper._BLOCK_SIZE. rewrite He. run_bind.
    now rewrite Ht. }
  rewrite E. split; [apply urlsafe_chars|].
  now rewrite urlsafe_text_length, Hl.
Qed.

Lemma encrypt_xdata_shape_witness :
  forallb is_urlsafe_char
    (CryptoHelper.encrypt_xdata (env_with_xdata_key "0123456789abcdef") ping_pong 1700000000000)
  = true /\
  length (CryptoHelper.encrypt_xdata (env_with_xdata_key "0123456789abcdef") ping_pong
            1700000000000)
  = (4 * ((16 * (length (ascii_bytes ping_pong) / 16 + 1) + 2) / 3))%nat.
Proof.
  apply (encrypt_xdata_shape _ _ _ (ascii_bytes (lit "0123456789abcdef")));
    vm_compute; reflexivity.
Defined.

(** ** What [decrypt_xdata] returns *)

Lemma first_success_split (x : pystr) (t : Z) (keys : list bytes) (pt : pystr) :
  CryptoHelper.first_success x t keys = Some pt ->
  exists l1 k l2,
    keys = l1 ++ k :: l2 /\ existsb (opens x t) l1 = false /\
    CryptoHelper._try_decrypt_with_key x t k = Some pt.
Proof.
  induction keys as [|k r IH]; [discriminate|]. cbn [CryptoHelper.first_success].
  destruct (CryptoHelper._try_decrypt_with_key x t k) as [p|] eqn:E.
  - intros [= <-]. now exists [], k, r.
  - intros H. destruct (IH H) as (l1 & k' & l2 & -> & N & O).
    exists (k :: l1), k', l2. split; [reflexivity|]. split; [|assumption].
    cbn [existsb]. unfold opens at 1. now rewrite E.
Qed.

Lemma first_success_none (x : pystr) (t : Z) (keys : list bytes) :
  CryptoHelper.first_success x t keys = None <-> existsb (opens x t) keys = false.
Proof.
  induction keys as [|k r IH]; [now split|].
  cbn [CryptoHelper.first_success existsb]. unfold opens at 1.
  destruct (CryptoHelper._try_decrypt_with_key x t k); [now split|exact IH].
Qed.

(** X9: [decrypt_xdata] returns the text the first candidate key that opens
    the ciphertext gives, in the order of the candidates, and [{}] when the
    ciphertext is empty or no candidate opens it. *)
Theorem decrypt_xdata_first_opening (env : environ) (xdata : pystr) (t : Z) :
  (CryptoHelper.nonempty xdata
   && existsb (opens xdata t) (CryptoHelper._iter_candidate_keys env) = false /\
   CryptoHelper.decrypt_xdata env xdata t = lit "{}")
  \/
  (exists l1 k l2,
     CryptoHelper._iter_candidate_keys env = l1 ++ k :: l2 /\
     existsb (opens xdata t) l1 = false /\
     CryptoHelper._try_decrypt_with_key xdata t k
     = Some (CryptoHelper.decrypt_xdata env xdata t)).
Proof.
  unfold CryptoHelper.decrypt_xdata.
  destruct (CryptoHelper.nonempty xdata); cbn [negb andb]; [|now left].
  destruct (CryptoHelper.first_success xdata t (CryptoHelper._iter_candidate_keys env))
    as [pt|] eqn:E.
  - right. now apply first_success_split.
  - left. split; [|reflexivity]. now apply first_success_none.
Qed.

(** ** Signatures *)

Lemma utf8_encode_opt_app (a b : pystr) :
  utf8_encode_opt (a ++ b) =
  match utf8_encode_opt a, utf8_encode_opt b with
  | Some x, Some y => Some (x ++ y)
  | _, _ => None
  end.
Proof.
  induction a as [|c r IH]; cbn [app utf8_encode_opt].
  - now destruct (utf8_encode_opt b).
  - rewrite IH. destruct (utf8_encode_char c) as [x|]; [|reflexivity].
    destruct (utf8_encode_opt r) as [y|]; [|reflexivity].
    destruct (utf8_encode_opt b) as [z|]; [|reflexivity].
    now rewrite app_assoc.
Qed.

Lemma encodable_app (a b : pystr) : encodable (a ++ b) = encodable a && encodable b.
Proof.
  unfold encodable, utf8_encode. rewrite utf8_encode_opt_app.
  destruct (utf8_encode_opt a); [|reflexivity]. now destruct (utf8_encode_opt b).
Qed.

Lemma encodable_ascii (s : pystr) : is_ascii s = true -> encodable s = true.
Proof. intros H. unfold encodable. now rewrite utf8_encode_ascii. Qed.

Lemma encodable_int (z : Z) : encodable (str_of_int z) = true.
Proof. apply encodable_ascii, str_of_int_ascii. Qed.

(** The common core: 128 lowercase hexadecimal digits when the key text and
    the message both have a UTF-8 encoding, the empty string otherwise. *)
Lemma hmac_sha512_hex_shape (key_str msg_str : pystr) :
  if encodable key_str && encodable msg_str
  then hex128 (CryptoHelper._hmac_sha512_hex key_str msg_str) = true
  else CryptoHelper._hmac_sha512_hex key_str msg_str = [].
Proof.
  unfold CryptoHelper._hmac_sha512_hex, encodable.
  destruct (utf8_encode key_str) as [k|]; [|reflexivity]. run_bind.
  destruct (utf8_encode msg_str) as [m|]; [|reflexivity]. run_bind.
  cbn [andb]. unfold hex128.
  now rewrite hmac_sha512_hex_length, hex_of_bytes_lower.
Qed.



(** ** The AX signature *)

Lemma hmac_sha256_length (key msg : bytes) : length (hmac_sha256 key msg) = 32%nat.
Proof. apply sha256_length. Qed.

Lemma b64_sextet (i : N) : i < 64 -> is_b64_char (Byte.to_N (Base64.sextet i)) = true.
Proof. revert i. apply (N_forall_lt 64). vm_compute. reflexivity. Qed.

Lemma b64_chars (bs : bytes) :
  forallb is_b64_char (map Byte.to_N (Base64.b64encode bs)) = true.
Proof.
  induction bs as [|a|a b|a b c r IH] using list_ind3.
  - reflexivity.
  - destruct (sextet_bounds a a a) as (B1 & B2 & _).
    cbn [Base64.b64encode map forallb]. now rewrite !b64_sextet.
  - destruct (sextet_bounds a b b) as (B1 & _ & B3 & B4 & _).
    cbn [Base64.b64encode map forallb]. now rewrite !b64_sextet.
  - destruct (sextet_bounds a b c) as (B1 & _ & B3 & _ & B5 & B6).
    cbn [Base64.b64encode map forallb]. now rewrite !b64_sextet, IH.
Qed.

(** Bytes that are no whole number of triples end in a pad character. *)
Lemma b64encode_last_pad (bs : bytes) :
  (length bs mod 3 <> 0)%nat -> last (Base64.b64encode bs) x00 = x3d.
Proof.
  induction bs as [|a|a b|a b c r IH] using list_ind3; intros H.
  - now contradiction H.
  - reflexivity.
  - reflexivity.
  - assert (Hr : (length r mod 3 <> 0)%nat).
    { intros E. apply H. cbn [length].
      replace (S (S (S (length r)))) with (length r + 1 * 3)%nat by lia.
      now rewrite Nat.Div0.mod_add. }
    specialize (IH Hr). cbn [Base64.b64encode].
    destruct (Base64.b64encode r) as [|x l] eqn:E.
    + destruct r as [|p [|q [|s u]]]; [now contradiction Hr|discriminate..].
    + exact IH.
Qed.

Lemma last_map_to_N (bs : bytes) (d : byte) :
  last (map Byte.to_N bs) (Byte.to_N d) = Byte.to_N (last bs d).
Proof.
  induction bs as [|b r IH]; [reflexivity|].
  cbn [map]. destruct r as [|c r']; [reflexivity|]. exact IH.
Qed.

Lemma encode_ascii_raises (s : pystr) :
  is_ascii s = false -> encode_ascii s = Raise UnicodeEncodeError.
Proof. unfold encode_ascii, is_ascii. now intros ->. Qed.

(** X11: [make_ax_api_signature] returns the empty string when the key is
    missing, when the key is not ASCII, or when one of the texts has no UTF-8
    encoding; otherwise it returns 44 characters of the standard base64
    alphabet, the last of which is the pad character. *)
Theorem make_ax_api_signature_shape (env : environ) (ts contact code contact_type : pystr) :
  let r := CryptoHelper.make_ax_api_signature env ts contact code contact_type in
  if CryptoHelper.nonempty (AX_API_SIG_KEY env) && is_ascii (AX_API_SIG_KEY env)
     && forallb encodable [ts; contact_type; contact; code]
  then length r = 44%nat /\ forallb is_b64_char r = true /\ last r 0 = 61
  else r = [].
Proof.
  cbv zeta. unfold CryptoHelper.make_ax_api_signature.
  destruct (CryptoHelper.nonempty (AX_API_SIG_KEY env)); cbn [negb andb]; [|reflexivity].
  destruct (is_ascii (AX_API_SIG_KEY env)) eqn:A; cbn [andb].
  2:{ now rewrite (encode_ascii_raises _ A). }
  rewrite (encode_ascii_ok _ A). run_bind.
  match goal with |- context [utf8_encode ?p] =>
    assert (E : encodable p = forallb encodable [ts; contact_type; contact; code]) end.
  { rewrite !encodable_app. cbn [forallb].
    change (encodable (lit "password")) with true.
    change (encodable (lit "openid")) with true.
    now rewrite !andb_true_r. }
  rewrite <- E. unfold encodable.
  match goal with |- context [utf8_encode ?p] => destruct (utf8_encode p) as [m|] end;
    [|reflexivity].
  run_bind. rewrite (decode_ascii_plain _ (b64encode_plain _)).
  split; [|split].
  - now rewrite length_map, b64encode_length_exact, hmac_sha256_length.
  - apply b64_chars.
  - change 0 with (Byte.to_N x00). rewrite last_map_to_N, b64encode_last_pad; [reflexivity|].
    now rewrite hmac_sha256_length.
Qed.

(** ** The MSISDN codec, continued *)

Lemma new_cbc_inv (key iv : bytes) (c : Aes.cbc_cipher) :
  Aes.new_cbc key iv = Ok c ->
  Aes.valid_key_length (length key) = true /\ length iv = 16%nat.
Proof.
  unfold Aes.new_cbc. destruct (Aes.valid_key_length (length key)); [|discriminate].
  destruct (Aes.blocks_of_bytes iv) as [[|s [|s' l]]|] eqn:E; try discriminate.
  intros _. split; [reflexivity|].
  now rewrite <- (bytes_of_blocks_of_bytes _ _ E), bytes_of_blocks_length.
Qed.

Lemma hex_of_bytes_inj (a b : bytes) : hex_of_bytes a = hex_of_bytes b -> a = b.
Proof.
  intros E. apply (f_equal fromhex) in E. rewrite !fromhex_hex_of_bytes in E.
  now injection E.
Qed.

(** The blob of a number: the URL-safe base64 text of the ciphertext, then
    the sixteen hexadecimal digits of the random bytes; it decrypts to the
    number. *)
Lemma circle_blob (env : environ) (rnd : bytes) (msisdn : pystr) (kb data : bytes) :
  CryptoHelper.nonempty msisdn = true ->
  CryptoHelper._key_bytes (ENCRYPTED_FIELD_KEY env) = Some kb ->
  length rnd = 8%nat ->
  utf8_encode msisdn = Ok data ->
  exists ct,
    CryptoHelper.encrypt_circle_msisdn env rnd msisdn
    = map Byte.to_N (Base64.urlsafe_b64encode ct) ++ hex_of_bytes rnd /\
    length ct = (16 * (length data / 16 + 1))%nat /\
    CryptoHelper.decrypt_circle_msisdn env
      (map Byte.to_N (Base64.urlsafe_b64encode ct) ++ hex_of_bytes rnd) = msisdn.
Proof.
  intros Hne Hkey Hrnd Henc.
  destruct (key_bytes_valid _ _ Hkey) as [Hk _].
  set (iv_hex := hex_of_bytes rnd).
  assert (Hlen : length iv_hex = 16%nat).
  { subst iv_hex. rewrite hex_of_bytes_length, Hrnd. reflexivity. }
  assert (Hiv : encode_ascii iv_hex = Ok (ascii_bytes iv_hex)).
  { apply encode_ascii_ok, hex_of_bytes_ascii. }
  assert (Hivlen : length (ascii_bytes iv_hex) = 16%nat).
  { unfold ascii_bytes. now rewrite length_map. }
  destruct (seal_open kb (ascii_bytes iv_hex) data Hk Hivlen)
    as (c & ct & txt & Hc & He & Ht & Htne & _ & Hb & Hd & Hu).
  assert (Etxt : txt = map Byte.to_N (Base64.urlsafe_b64encode ct)).
  { rewrite (decode_ascii_plain _ (urlsafe_plain ct)) in Ht. now injection Ht. }
  exists ct. rewrite <- Etxt. split; [|split].
  - unfold CryptoHelper.encrypt_circle_msisdn. rewrite Hne.
    cbn [negb]. rewrite Hkey. fold iv_hex. rewrite Hiv. run_bind.
    rewrite Hc. run_bind. rewrite Henc. run_bind.
    unfold CryptoHelper._BLOCK_SIZE. rewrite He. run_bind. now rewrite Ht.
  - now rewrite (aes_encrypt_length _ _ _ He), pad_length_exact.
  - unfold CryptoHelper.decrypt_circle_msisdn, CryptoHelper.decrypt_circle_msisdn_body.
    destruct (skipn_firstn_app txt iv_hex 16 Hlen) as [-> ->].
    replace (negb (CryptoHelper.nonempty (txt ++ iv_hex))) with false
      by (destruct txt; [discriminate|reflexivity]).
    replace (length (txt ++ iv_hex) <? 16)%nat with false
      by (symmetry; apply Nat.ltb_ge; rewrite length_app; lia).
    cbn [orb]. rewrite Hkey, Hiv. run_bind. rewrite Hb. run_bind. rewrite Hc. run_bind.
    rewrite Hd. run_bind. rewrite Hu. run_bind.
    now rewrite (utf8_roundtrip _ _ Henc).
Qed.

(** X12: [encrypt_circle_msisdn] returns the empty string exactly when the
    number is empty, the field key is missing or invalid, the number has no
    UTF-8 encoding, or the random bytes are not eight. *)
Theorem encrypt_circle_msisdn_succeeds_iff (env : environ) (rnd : bytes) (msisdn : pystr) :
  CryptoHelper.encrypt_circle_msisdn env rnd msisdn <> [] <->
  msisdn <> [] /\
  (exists kb, CryptoHelper._key_bytes (ENCRYPTED_FIELD_KEY env) = Some kb) /\
  encodable msisdn = true /\ length rnd = 8%nat.
Proof.
  split.
  - unfold CryptoHelper.encrypt_circle_msisdn.
    destruct msisdn as [|ch r]; [intros H; now contradiction H|].
    cbn [CryptoHelper.nonempty negb].
    destruct (CryptoHelper._key_bytes (ENCRYPTED_FIELD_KEY env)) as [kb|];
      [|intros H; now contradiction H].
    cbv zeta. rewrite (encode_ascii_ok _ (hex_of_bytes_ascii rnd)). run_bind.
    destruct (Aes.new_cbc kb (ascii_bytes (hex_of_bytes rnd))) as [c|] eqn:Hc;
      [|intros H; now contradiction H].
    destruct (utf8_encode (ch :: r)) as [data|] eqn:Hd; [|intros H; now contradiction H].
    intros _. split; [discriminate|]. split; [eauto|]. split.
    + unfold encodable. now rewrite Hd.
    + destruct (new_cbc_inv _ _ _ Hc) as [_ L].
      unfold ascii_bytes in L. rewrite length_map, hex_of_bytes_length in L. lia.
  - intros (Hne & [kb Hk] & He & Hr). unfold encodable in He.
    destruct (utf8_encode msisdn) as [data|] eqn:Hd; [|discriminate].
    destruct (circle_blob env rnd msisdn kb data) as (ct & -> & _); try assumption.
    + now destruct msisdn.
    + intros E. apply app_eq_nil in E as [_ E].
      apply (f_equal (@length N)) in E. rewrite hex_of_bytes_length, Hr in E. discriminate.
Qed.

(** X13: the last sixteen characters of a blob are the hexadecimal digits of
    the random bytes, so two encryptions of a number with different random
    bytes differ. *)
Theorem encrypt_circle_msisdn_nonce (env : environ) (rnd1 rnd2 : bytes) (msisdn : pystr)
    (kb data : bytes) :
  CryptoHelper.nonempty msisdn = true ->
  CryptoHelper._key_bytes (ENCRYPTED_FIELD_KEY env) = Some kb ->
  utf8_encode msisdn = Ok data ->
  length rnd1 = 8%nat -> length rnd2 = 8%nat ->
  let blob1 := CryptoHelper.encrypt_circle_msisdn env rnd1 msisdn in
  let blob2 := CryptoHelper.encrypt_circle_msisdn env rnd2 msisdn in
  skipn (length blob1 - 16) blob1 = hex_of_bytes rnd1 /\
  (rnd1 <> rnd2 -> blob1 <> blob2).
Proof.
  intros Hne Hkey Henc H1 H2. cbv zeta.
  destruct (circle_blob env rnd1 msisdn kb data Hne Hkey H1 Henc) as (c1 & E1 & L1 & _).
  destruct (circle_blob env rnd2 msisdn kb data Hne Hkey H2 Henc) as (c2 & E2 & L2 & _).
  assert (S : forall (ct rnd : bytes), length rnd = 8%nat ->
            skipn (length (map Byte.to_N (Base64.urlsafe_b64encode ct) ++ hex_of_bytes rnd) - 16)
                  (map Byte.to_N (Base64.urlsafe_b64encode ct) ++ hex_of_bytes rnd)
            = hex_of_bytes rnd).
  { intros ct rnd Hr. apply skipn_firstn_app. now rewrite hex_of_bytes_length, Hr. }
  rewrite E1, E2. split; [now apply S|].
  intros Hd E. apply Hd, hex_of_bytes_inj.
  now rewrite <- (S c1 rnd1 H1), <- (S c2 rnd2 H2), E.
Qed.

Lemma encrypt_circle_msisdn_nonce_witness :
  let env := env_with_field_key "0123456789abcdef" in
  let blob1 := CryptoHelper.encrypt_circle_msisdn env
                 [x01; x23; x45; x67; x89; xab; xcd; xef] (lit "6281234567890") in
  let blob2 := CryptoHelper.encrypt_circle_msisdn env
                 [x00; x00; x00; x00; x00; x00; x00; x00] (lit "6281234567890") in
  skipn (length blob1 - 16) blob1 = lit "0123456789abcdef" /\
  (([x01; x23; x45; x67; x89; xab; xcd; xef] : bytes) <>
   [x00; x00; x00; x00; x00; x00; x00; x00] -> blob1 <> blob2).
Proof.
  apply (encrypt_circle_msisdn_nonce (env_with_field_key "0123456789abcdef")
           [x01; x23; x45; x67; x89; xab; xcd; xef] [x00; x00; x00; x00; x00; x00; x00; x00]
           (lit "6281234567890") (ascii_bytes (lit "0123456789abcdef"))
           (ascii_bytes (lit "6281234567890")));
    vm_compute; reflexivity.
Defined.

(** ** The self-test *)

Lemma dict_get_set_same (k : pystr) (v : pyval) (d : list (pystr * pyval)) :
  dict_get k (dict_set k v d) = v.
Proof.
  induction d as [|[k' x] r IH]; cbn [dict_set dict_get].
  - now rewrite (proj2 (pystr_eqb_eq k k) eq_refl).
  - destruct (pystr_eqb k' k) eqn:E; cbn [dict_get]; now rewrite E.
Qed.

Lemma dict_get_set_other (k k' : pystr) (v : pyval) (d : list (pystr * pyval)) :
  pystr_eqb k k' = false -> dict_get k' (dict_set k v d) = dict_get k' d.
Proof.
  intros N. induction d as [|[k0 x] r IH]; cbn [dict_set dict_get].
  - now rewrite N.
  - destruct (pystr_eqb k0 k) eqn:E; cbn [dict_get].
    + apply pystr_eqb_eq in E. subst k0. now rewrite N.
    + now rewrite IH.
Qed.

Lemma valid_len_some (s : pystr) :
  CryptoHelper._valid_len s =
  match CryptoHelper._key_bytes s with Some kb => Some (length kb) | None => None end.
Proof.
  unfold CryptoHelper._valid_len.
  destruct (CryptoHelper._key_bytes s) as [kb|] eqn:K; [|reflexivity].
  destruct (key_bytes_valid _ _ K) as [V _]. now rewrite (valid_key_nonempty _ V).
Qed.

Lemma self_test_sample_encodes :
  utf8_encode CryptoHelper.self_test_sample = Ok (ascii_bytes CryptoHelper.self_test_sample).
Proof. reflexivity. Qed.

Lemma encrypt_xdata_no_key (env : environ) (plaintext : pystr) (t : Z) :
  CryptoHelper._key_bytes (XDATA_KEY env) = None ->
  CryptoHelper.encrypt_xdata env plaintext t = [].
Proof.
  intros K. unfold CryptoHelper.encrypt_xdata. rewrite K.
  now destruct (negb (CryptoHelper.nonempty plaintext)).
Qed.

Lemma encrypt_circle_no_key (env : environ) (rnd : bytes) (msisdn : pystr) :
  CryptoHelper._key_bytes (ENCRYPTED_FIELD_KEY env) = None ->
  CryptoHelper.encrypt_circle_msisdn env rnd msisdn = [].
Proof.
  intros K. unfold CryptoHelper.encrypt_circle_msisdn. rewrite K.
  now destruct (negb (CryptoHelper.nonempty msisdn)).
Qed.

Lemma xdata_open_primary (env : environ) (plaintext : pystr) (t : Z) (kb data : bytes) :
  CryptoHelper.nonempty plaintext = true ->
  CryptoHelper._key_bytes (XDATA_KEY env) = Some kb ->
  utf8_encode plaintext = Ok data ->
  CryptoHelper.nonempty (CryptoHelper.encrypt_xdata env plaintext t) = true /\
  CryptoHelper.decrypt_xdata env (CryptoHelper.encrypt_xdata env plaintext t) t = plaintext.
Proof.
  intros Hne Hkey Henc.
  destruct (encrypt_xdata_open env plaintext t kb data Hne Hkey Henc) as [Hct Hopen].
  destruct (iter_candidate_keys_primary env kb Hkey) as [rest Hl].
  split; [assumption|].
  now apply (decrypt_xdata_first env _ plaintext t [] rest kb).
Qed.

(** X14: with eight random bytes, the self-test reports a round trip as
    passed exactly when the key of that round trip parses: the two flags
    are true when, and only when, the reported key lengths are not [None]. *)
Theorem crypto_self_test_flags (env : environ) (rnd : bytes) :
  length rnd = 8%nat ->
  let report := CryptoHelper.crypto_self_test env rnd in
  dict_get (lit "xdata_key_len") report
    = CryptoHelper.int_or_none (CryptoHelper._valid_len (XDATA_KEY env)) /\
  dict_get (lit "circle_key_len") report
    = CryptoHelper.int_or_none (CryptoHelper._valid_len (ENCRYPTED_FIELD_KEY env)) /\
  dict_get (lit "xdata_roundtrip_ok") report
    = VBool (match CryptoHelper._valid_len (XDATA_KEY env) with
             | Some _ => true | None => false end) /\
  dict_get (lit "circle_roundtrip_ok") report
    = VBool (match CryptoHelper._valid_len (ENCRYPTED_FIELD_KEY env) with
             | Some _ => true | None => false end).
Proof.
  intros Hr. cbv zeta. unfold CryptoHelper.crypto_self_test. cbv zeta.
  rewrite !valid_len_some.
  set (v1 := CryptoHelper.int_or_none _). set (v2 := CryptoHelper.int_or_none _).
  set (v3 := VBool (CryptoHelper.nonempty (AX_API_SIG_KEY env))).
  set (v4 := VBool (CryptoHelper.nonempty (X_API_BASE_SECRET env))).
  clearbody v1 v2 v3 v4.
  set (ct := CryptoHelper.encrypt_xdata env CryptoHelper.self_test_sample 1700000000000).
  set (enc := CryptoHelper.encrypt_circle_msisdn env rnd (lit "6281234567890")).
  assert (X : exists b,
    CryptoHelper.nonempty ct = b /\
    (b = true -> CryptoHelper.decrypt_xdata env ct 1700000000000
                 = CryptoHelper.self_test_sample) /\
    (match CryptoHelper._key_bytes (XDATA_KEY env) with Some _ => true | None => false end)
    = b).
  { subst ct. destruct (CryptoHelper._key_bytes (XDATA_KEY env)) as [kb|] eqn:K.
    - destruct (xdata_open_primary env CryptoHelper.self_test_sample 1700000000000 kb _
                  eq_refl K self_test_sample_encodes) as [N D].
      exists true. now rewrite N.
    - rewrite (encrypt_xdata_no_key env _ _ K). exists false.
      split; [reflexivity|]. split; [discriminate|reflexivity]. }
  assert (C : exists b,
    CryptoHelper.nonempty enc = b /\
    (b = true -> CryptoHelper.decrypt_circle_msisdn env enc = lit "6281234567890") /\
    (match CryptoHelper._key_bytes (ENCRYPTED_FIELD_KEY env) with
     | Some _ => true | None => false end) = b).
  { subst enc. destruct (CryptoHelper._key_bytes (ENCRYPTED_FIELD_KEY env)) as [kb|] eqn:K.
    - destruct (circle_blob env rnd (lit "6281234567890") kb _ eq_refl K Hr eq_refl)
        as (c & E & _ & D).
      rewrite E. exists true. split; [|split; [now intros _|reflexivity]].
      apply nonempty_app_r, nonempty_length. rewrite hex_of_bytes_length, Hr. cbn. lia.
    - rewrite (encrypt_circle_no_key env _ _ K). exists false.
      split; [reflexivity|]. split; [discriminate|reflexivity]. }
  destruct X as (b1 & -> & D1 & K1). destruct C as (b2 & -> & D2 & K2).
  destruct (CryptoHelper._key_bytes (XDATA_KEY env));
    destruct (CryptoHelper._key_bytes (ENCRYPTED_FIELD_KEY env));
    subst b1 b2; rewrite ?(D1 eq_refl), ?(D2 eq_refl);
    (split; [|split; [|split]]); reflexivity.
Qed.

Lemma crypto_self_test_flags_witness :
  let report :=
    CryptoHelper.crypto_self_test
      {| XDATA_KEY := lit "0123456789abcdef"; AX_API_SIG_KEY := [];
         X_API_BASE_SECRET := lit "s"; ENCRYPTED_FIELD_KEY := lit "too short";
         XDATA_KEYS := []; xdata_keys_file := None |}
      [x01; x23; x45; x67; x89; xab; xcd; xef] in
  dict_get (lit "xdata_key_len") report = VInt 16 /\
  dict_get (lit "circle_key_len") report = VNone /\
  dict_get (lit "xdata_roundtrip_ok") report = VBool true /\
  dict_get (lit "circle_roundtrip_ok") report = VBool false.
Proof.
  apply (crypto_self_test_flags
           {| XDATA_KEY := lit "0123456789abcdef"; AX_API_SIG_KEY := [];
              X_API_BASE_SECRET := lit "s"; ENCRYPTED_FIELD_KEY := lit "too short";
              XDATA_KEYS := []; xdata_keys_file := None |}
           [x01; x23; x45; x67; x89; xab; xcd; xef]).
  reflexivity.
Defined.

(** ** The encrypted field *)

Lemma aes_key_bytes_valid (key : pystr) (enc : encoding) (b : bytes) :
  Encrypt._aes_key_bytes key [16; 24; 32]%nat enc = Some b ->
  Aes.valid_key_length (length b) = true.
Proof.
  unfold Encrypt._aes_key_bytes. destruct (negb (CryptoHelper.nonempty key)); [discriminate|].
  destruct (str_encode enc key) as [x|]; [|discriminate].
  destruct (existsb _ _) eqn:E; [|discriminate]. intros [= <-].
  cbn [existsb] in E. unfold Aes.valid_key_length.
  now rewrite orb_false_r, orb_assoc in E.
Qed.

Lemma hex_digits_ascii (s : pystr) :
  forallb Encrypt.is_hex_digit s = true -> is_ascii s = true.
Proof.
  assert (A : forallb (fun x => x <? 128) (lit "0123456789abcdefABCDEF") = true)
    by reflexivity.
  rewrite forallb_forall in A.
  intros H. unfold is_ascii. rewrite forallb_forall in *. intros c Hc.
  specialize (H c Hc). unfold Encrypt.is_hex_digit in H.
  apply existsb_exists in H as (x & Hin & Heq). apply N.eqb_eq in Heq. subst x.
  now apply A.
Qed.

Lemma forallb_negb_existsb {A} (f : A -> bool) (l : list A) :
  existsb (fun x => negb (f x)) l = negb (forallb f l).
Proof.
  induction l as [|x r IH]; [reflexivity|]. cbn [existsb forallb].
  rewrite IH. now destruct (f x).
Qed.

Lemma pad_empty_length : length (Padding.pad [] 16) = 16%nat.
Proof. reflexivity. Qed.

(** X15: [build_encrypted_field] returns the empty string unless
    pycryptodome is there, the configured key encodes to 16, 24 or 32
    bytes, and the IV text (the argument, or the random token when the
    argument is missing or empty), once stripped, is made of 16 hexadecimal
    digits; then it returns 24 base64 characters, in the alphabet asked
    for, followed by the stripped IV text. *)
Theorem build_encrypted_field_shape (crypto_ready : bool) (key token : pystr)
    (iv_hex16 : option pystr) (urlsafe_b64 : bool) :
  let chosen := match iv_hex16 with
                | Some s => if CryptoHelper.nonempty s then s else token
                | None => token
                end in
  let iv_hex := strip chosen in
  let r := Encrypt.build_encrypted_field crypto_ready key token iv_hex16 urlsafe_b64 in
  if crypto_ready
     && match Encrypt._aes_key_bytes key [16; 24; 32]%nat Utf8 with
        | Some _ => true | None => false end
     && (length iv_hex =? 16)%nat && forallb Encrypt.is_hex_digit iv_hex
  then exists b64,
         r = b64 ++ iv_hex /\ length b64 = 24%nat /\
         forallb (if urlsafe_b64 then is_urlsafe_char else is_b64_char) b64 = true
  else r = [].
Proof.
  cbv zeta. unfold Encrypt.build_encrypted_field.
  destruct crypto_ready; cbn [negb andb]; [|reflexivity].
  destruct (Encrypt._aes_key_bytes key [16; 24; 32]%nat Utf8) as [kb|] eqn:K;
    cbn [andb]; [|reflexivity].
  set (iv_hex := strip _). rewrite forallb_negb_existsb.
  destruct (length iv_hex =? 16)%nat eqn:L; cbn [negb orb andb]; [|reflexivity].
  destruct (forallb Encrypt.is_hex_digit iv_hex) eqn:F; cbn [negb]; [|reflexivity].
  apply Nat.eqb_eq in L.
  rewrite (encode_ascii_ok _ (hex_digits_ascii _ F)). run_bind.
  destruct (new_cbc_ok kb (ascii_bytes iv_hex) (aes_key_bytes_valid _ _ _ K)) as [c Hc].
  { unfold ascii_bytes. now rewrite length_map. }
  rewrite Hc.
  destruct (aes_decrypt_encrypt c (Padding.pad [] 16) eq_refl) as (ct & He & _).
  rewrite He. pose proof (aes_encrypt_length _ _ _ He) as Lc.
  rewrite pad_empty_length in Lc.
  destruct urlsafe_b64.
  - rewrite (decode_ascii_plain _ (urlsafe_plain ct)).
    eexists. split; [reflexivity|]. split; [|apply urlsafe_chars].
    now rewrite urlsafe_text_length, Lc.
  - rewrite (decode_ascii_plain _ (b64encode_plain ct)).
    eexists. split; [reflexivity|]. split; [|apply b64_chars].
    now rewrite length_map, b64encode_length_exact, Lc.
Qed.

(** ** From the request to the response, and the members of a circle *)

Lemma make_x_signature_shape (env : environ) (id_token method path : pystr) (t : Z) :
  forallb encodable [X_API_BASE_SECRET env; id_token; method; path] = true ->
  hex128 (CryptoHelper.make_x_signature env id_token method path t) = true.
Proof.
  cbn [forallb]. intros H. unfold CryptoHelper.make_x_signature. cbv zeta.
  match goal with |- context [CryptoHelper._hmac_sha512_hex ?k ?m] =>
    pose proof (hmac_sha512_hex_shape k m) as S end.
  revert S. rewrite ?encodable_app, ?encodable_int.
  change (encodable [59]) with true. rewrite ?andb_true_r, ?andb_true_l.
  revert H.
  destruct (encodable (X_API_BASE_SECRET env)), (encodable id_token), (encodable method),
    (encodable path); cbn [andb]; trivial; discriminate.
Qed.

Lemma hex128_nonempty (s : pystr) : hex128 s = true -> CryptoHelper.nonempty s = true.
Proof.
  unfold hex128. intros H. apply andb_prop in H as [H _]. apply Nat.eqb_eq in H.
  apply nonempty_length. lia.
Qed.

Lemma json_dumps_dict_nonempty (d : list (pystr * pyval)) :
  CryptoHelper.nonempty (json_dumps (VDict d)) = true.
Proof. reflexivity. Qed.

Lemma decrypt_circle_no_key (env : environ) (blob : pystr) :
  CryptoHelper._key_bytes (ENCRYPTED_FIELD_KEY env) = None ->
  CryptoHelper.decrypt_circle_msisdn env blob = [].
Proof.
  intros K. unfold CryptoHelper.decrypt_circle_msisdn, CryptoHelper.decrypt_circle_msisdn_body.
  rewrite K. now destruct (_ || _).
Qed.

Lemma strip_solid (s : pystr) : forallb solid s = true -> strip s = s.
Proof.
  intros H. destruct s as [|c r]; [reflexivity|].
  rewrite <- (app_nil_r (c :: r)) at 1. now apply (strip_padded [] (c :: r) []).
Qed.

Section Callers.

Variable json_loads : pystr -> result pyval.
Variable container_repr : pyval -> pystr.

(** X16: what [encryptsign_xdata] makes of a dictionary is a 128-digit
    signature and a body that [EngselClient._decrypt_if_possible] opens to the
    dictionary again, provided the primary key is valid, the texts have a
    UTF-8 encoding and [json.loads] reads back what [json.dumps] wrote. *)
Theorem envelope_loopback (env : environ) (xtime : Z)
    (api_key method path id_token : pystr) (d : list (pystr * pyval)) (kb data : bytes) :
  CryptoHelper._key_bytes (XDATA_KEY env) = Some kb ->
  utf8_encode (json_dumps (VDict d)) = Ok data ->
  forallb encodable [X_API_BASE_SECRET env; id_token; method; path] = true ->
  json_loads (json_dumps (VDict d)) = Ok (VDict d) ->
  exists x_sig body,
    Encrypt.encryptsign_xdata env xtime api_key method path id_token (VDict d)
    = VDict [(lit "x_signature", VStr x_sig); (lit "encrypted_body", body)] /\
    hex128 x_sig = true /\
    Engsel._decrypt_if_possible json_loads container_repr env api_key body = VDict d.
Proof.
  intros Hkey Henc Hsig Hjson.
  destruct (xdata_open_primary env (json_dumps (VDict d)) xtime kb data
              (json_dumps_dict_nonempty d) Hkey Henc) as [Hn Hd].
  pose proof (make_x_signature_shape env id_token method path (xtime / 1000)%Z Hsig) as Hs.
  exists (CryptoHelper.make_x_signature env id_token method path (xtime / 1000)%Z).
  eexists. split; [|split; [exact Hs|]].
  - unfold Encrypt.encryptsign_xdata, Encrypt.encrypt_and_sign_xdata, Encrypt._safe_json_dumps.
    cbn [is_dict]. cbv zeta. rewrite Hn, (hex128_nonempty _ Hs). reflexivity.
  - set (ct := CryptoHelper.encrypt_xdata env (json_dumps (VDict d)) xtime) in *.
    unfold Engsel._decrypt_if_possible.
    change (dict_mem (lit "xdata") [(lit "xdata", VStr ct); (lit "xtime", VInt xtime)])
      with true.
    change (dict_mem (lit "xtime") [(lit "xdata", VStr ct); (lit "xtime", VInt xtime)])
      with true.
    cbn [negb orb]. cbv zeta.
    unfold Encrypt.decrypt_xdata, Encrypt.decrypt_xdata_payload. cbn [is_dict]. cbv zeta.
    change (dict_get (lit "xdata") [(lit "xdata", VStr ct); (lit "xtime", VInt xtime)])
      with (VStr ct).
    change (dict_get (lit "xtime") [(lit "xdata", VStr ct); (lit "xtime", VInt xtime)])
      with (VInt xtime).
    replace (truthy (VStr ct)) with true by (symmetry; exact Hn).
    cbn [negb orb]. unfold Encrypt._safe_int. run_bind. cbn [Encrypt.py_str].
    rewrite Hd, Hjson. reflexivity.
Qed.

End Callers.

Section CircleCallers.

Variable container_repr : pyval -> pystr.

(** X17: a number that [CircleClient._encrypt] encrypted is displayed by
    [_decrypt_msisdn] of the menu as the number, stripped of its blanks. *)
Theorem circle_display_roundtrip (env : environ) (rnd : bytes) (api_key : pystr)
    (msisdn : pyval) (kb data : bytes) :
  let shown := strip (ClientCircle._as_str container_repr msisdn) in
  CryptoHelper.nonempty shown = true ->
  CryptoHelper._key_bytes (ENCRYPTED_FIELD_KEY env) = Some kb ->
  length rnd = 8%nat ->
  utf8_encode shown = Ok data ->
  MenusCircle._decrypt_msisdn container_repr env api_key
    (VStr (ClientCircle._encrypt container_repr env rnd api_key msisdn)) = shown.
Proof.
  cbv zeta. intros Hne Hkey Hr Henc.
  destruct (circle_blob env rnd _ kb data Hne Hkey Hr Henc) as (ct & E & _ & D).
  unfold ClientCircle._encrypt, Encrypt.encrypt_circle_msisdn. cbv zeta.
  rewrite Hne. cbn [negb]. rewrite E.
  unfold MenusCircle._decrypt_msisdn, Encrypt.decrypt_circle_msisdn. cbv zeta.
  cbn [MenusCircle._safe_str Encrypt.py_str].
  rewrite strip_solid.
  - replace (CryptoHelper.nonempty (_ ++ hex_of_bytes rnd)) with true.
    + cbn [negb]. rewrite D, Hne. reflexivity.
    + symmetry. apply nonempty_app_r, nonempty_length.
      rewrite hex_of_bytes_length, Hr. cbn. lia.
  - rewrite forallb_app, (plain_solid _ (urlsafe_plain ct)). apply hex_of_bytes_solid.
Qed.

(** X18: [_decrypt_msisdn] never shows an empty text; without a valid field
    key it shows [<Empty>] for a blank input and [<Hidden>] for any other. *)
Theorem decrypt_msisdn_placeholders (env : environ) (api_key : pystr) (encrypted : pyval) :
  MenusCircle._decrypt_msisdn container_repr env api_key encrypted <> [] /\
  (CryptoHelper._key_bytes (ENCRYPTED_FIELD_KEY env) = None ->
   MenusCircle._decrypt_msisdn container_repr env api_key encrypted
   = if CryptoHelper.nonempty (strip (MenusCircle._safe_str container_repr encrypted []))
     then lit "<Hidden>" else lit "<Empty>").
Proof.
  unfold MenusCircle._decrypt_msisdn. cbv zeta.
  destruct (CryptoHelper.nonempty (strip _)); cbn [negb].
  - split.
    + cbn [MenusCircle._safe_str Encrypt.py_str].
      destruct (Encrypt.decrypt_circle_msisdn env api_key _); [|discriminate].
      cbn [CryptoHelper.nonempty]. discriminate.
    + intros K. unfold Encrypt.decrypt_circle_msisdn.
      now rewrite (decrypt_circle_no_key env _ K).
  - split; [discriminate|reflexivity].
Qed.

End CircleCallers.

Lemma envelope_loopback_witness :
  exists x_sig body,
    Encrypt.encryptsign_xdata
      {| XDATA_KEY := lit "0123456789abcdef"; AX_API_SIG_KEY := [];
         X_API_BASE_SECRET := lit "secret"; ENCRYPTED_FIELD_KEY := [];
         XDATA_KEYS := []; xdata_keys_file := None |}
      1700000000000 (lit "api-key") (lit "POST") (lit "api/v8/profile") (lit "token")
      (VDict [(lit "ping", VStr (lit "pong"))])
    = VDict [(lit "x_signature", VStr x_sig); (lit "encrypted_body", body)] /\
    hex128 x_sig = true /\
    Engsel._decrypt_if_possible sample_json_loads sample_repr
      {| XDATA_KEY := lit "0123456789abcdef"; AX_API_SIG_KEY := [];
         X_API_BASE_SECRET := lit "secret"; ENCRYPTED_FIELD_KEY := [];
         XDATA_KEYS := []; xdata_keys_file := None |}
      (lit "api-key") body
    = VDict [(lit "ping", VStr (lit "pong"))].
Proof.
  apply (envelope_loopback sample_json_loads sample_repr _ _ _ _ _ _ _
           (ascii_bytes (lit "0123456789abcdef")) (ascii_bytes ping_pong));
    vm_compute; reflexivity.
Defined.

Lemma circle_display_roundtrip_witness :
  MenusCircle._decrypt_msisdn sample_repr (env_with_field_key "0123456789abcdef") (lit "k")
    (VStr (ClientCircle._encrypt sample_repr (env_with_field_key "0123456789abcdef")
             [x01; x23; x45; x67; x89; xab; xcd; xef] (lit "k") (VInt 6281234567890)))
  = lit "6281234567890".
Proof.
  apply (circle_display_roundtrip sample_repr (env_with_field_key "0123456789abcdef")
           [x01; x23; x45; x67; x89; xab; xcd; xef] (lit "k") (VInt 6281234567890)
           (ascii_bytes (lit "0123456789abcdef")) (ascii_bytes (lit "6281234567890")));
    vm_compute; reflexivity.
Defined.

(** ** A fixed IV shows shared prefixes *)

Lemma blocks_of_bytes_app (bl : list Aes.state) (rest : bytes) :
  Aes.blocks_of_bytes (Aes.bytes_of_blocks bl ++ rest)
  = option_map (app bl) (Aes.blocks_of_bytes rest).
Proof.
  induction bl as [|s r IH].
  - cbn [Aes.bytes_of_blocks flat_map app]. now destruct (Aes.blocks_of_bytes rest).
  - destruct s as [[[[[[a0 a1] a2] a3] [[[b0 b1] b2] b3]] [[[c0 c1] c2] c3]] [[[d0 d1] d2] d3]].
    unfold Aes.bytes_of_blocks in *.
    cbn [flat_map Aes.bytes_of_state Aes.bytes_of_word app]. cbn [Aes.blocks_of_bytes].
    rewrite IH. now destruct (Aes.blocks_of_bytes rest).
Qed.

Lemma cbc_encrypt_app (rks : list Aes.state) (b1 b2 : list Aes.state) :
  forall iv, exists iv',
    Aes.cbc_encrypt rks iv (b1 ++ b2) = Aes.cbc_encrypt rks iv b1 ++ Aes.cbc_encrypt rks iv' b2.
Proof.
  induction b1 as [|b r IH]; intros iv.
  - now exists iv.
  - cbn [app Aes.cbc_encrypt].
    destruct (IH (Aes.cipher rks (Aes.sxor b iv))) as [iv' E]. exists iv'. now rewrite E.
Qed.

Lemma pad_app (common d : bytes) :
  (length common mod 16 = 0)%nat ->
  Padding.pad (common ++ d) 16 = common ++ Padding.pad d 16.
Proof.
  intros H. unfold Padding.pad. rewrite <- app_assoc, length_app.
  replace ((length common + length d) mod 16)%nat with (length d mod 16)%nat; [reflexivity|].
  rewrite Nat.Div0.add_mod, H, Nat.add_0_l. now rewrite Nat.Div0.mod_mod.
Qed.

(** Encrypting a text that begins with whole blocks: the ciphertext begins
    with blocks that depend on the key, the IV and those blocks only. *)
Lemma encrypt_prefix (c : Aes.cbc_cipher) (common : bytes) :
  (length common mod 16 = 0)%nat ->
  exists head, length head = length common /\
    forall rest ct, Aes.encrypt c (common ++ rest) = Ok ct ->
                    exists tail, ct = head ++ tail.
Proof.
  intros H. destruct (blocks_of_bytes_total common H) as [bc Ec].
  pose proof (bytes_of_blocks_of_bytes _ _ Ec) as Eb.
  exists (Aes.bytes_of_blocks (Aes.cbc_encrypt (Aes.round_keys c) (Aes.iv_state c) bc)).
  split.
  - now rewrite bytes_of_blocks_length, cbc_encrypt_length, <- bytes_of_blocks_length, Eb.
  - intros rest ct. unfold Aes.encrypt. rewrite <- Eb, blocks_of_bytes_app.
    destruct (Aes.blocks_of_bytes rest) as [br|]; [|discriminate].
    cbn [option_map]. intros [= <-].
    destruct (cbc_encrypt_app (Aes.round_keys c) bc br (Aes.iv_state c)) as [iv' ->].
    unfold Aes.bytes_of_blocks. rewrite flat_map_app. eauto.
Qed.

Lemma b64encode_app (n : nat) :
  forall (a b : bytes), length a = (3 * n)%nat ->
    Base64.b64encode (a ++ b) = Base64.b64encode a ++ Base64.b64encode b.
Proof.
  induction n as [|n IH]; intros a b H.
  - destruct a; [reflexivity|discriminate].
  - destruct a as [|x [|y [|z r]]]; cbn [length] in H; try lia.
    cbn [app Base64.b64encode]. rewrite (IH r b) by lia. reflexivity.
Qed.

(** X19: the IV depends on the timestamp only, so under one key and one
    timestamp two plaintexts whose UTF-8 bytes share their first [48 * m]
    bytes give texts that share their first [64 * m] characters. *)
Theorem encrypt_xdata_shared_prefix (env : environ) (p1 p2 : pystr) (t : Z)
    (kb common d1 d2 : bytes) (m : nat) :
  CryptoHelper._key_bytes (XDATA_KEY env) = Some kb ->
  utf8_encode p1 = Ok (common ++ d1) ->
  utf8_encode p2 = Ok (common ++ d2) ->
  length common = (48 * m)%nat ->
  firstn (64 * m) (CryptoHelper.encrypt_xdata env p1 t)
  = firstn (64 * m) (CryptoHelper.encrypt_xdata env p2 t).
Proof.
  intros Hkey H1 H2 Hc.
  destruct m as [|m]; [reflexivity|].
  destruct (key_bytes_valid _ _ Hkey) as [Hk _].
  destruct (new_cbc_ok kb (CryptoHelper.derive_iv t) Hk (derive_iv_length t)) as [c Hcb].
  assert (Hm : (length common mod 16 = 0)%nat).
  { rewrite Hc. replace (48 * S m)%nat with (0 + (3 * S m) * 16)%nat by lia.
    now rewrite Nat.Div0.mod_add. }
  destruct (encrypt_prefix c common Hm) as (head & Hh & Hpre).
  assert (P : forall p d, utf8_encode p = Ok (common ++ d) ->
            exists tail,
              CryptoHelper.encrypt_xdata env p t
              = map Byte.to_N (Base64.urlsafe_b64encode (head ++ tail))).
  { intros p d Hp.
    assert (Hne : CryptoHelper.nonempty p = true).
    { destruct p; [|reflexivity]. cbn in Hp. injection Hp as Hp.
      apply (f_equal (@length byte)) in Hp. rewrite length_app, Hc in Hp.
      cbn [length] in Hp. lia. }
    destruct (aes_decrypt_encrypt c _ (pad_length (common ++ d))) as (ct & He & _).
    pose proof He as He'. rewrite (pad_app _ _ Hm) in He'.
    destruct (Hpre _ _ He') as [tail ->]. exists tail.
    unfold CryptoHelper.encrypt_xdata. rewrite Hne. cbn [negb].
    rewrite Hkey, Hcb. run_bind. rewrite Hp. run_bind.
    unfold CryptoHelper._BLOCK_SIZE. rewrite He. run_bind.
    now rewrite (decode_ascii_plain _ (urlsafe_plain _)). }
  assert (F : forall tail,
            firstn (64 * S m) (map Byte.to_N (Base64.urlsafe_b64encode (head ++ tail)))
            = map Byte.to_N (Base64.urlsafe_b64encode head)).
  { intros tail. unfold Base64.urlsafe_b64encode.
    rewrite (b64encode_app (16 * S m)) by lia. rewrite !map_app.
    replace (64 * S m)%nat
      with (length (map Byte.to_N (map Base64.to_urlsafe (Base64.b64encode head))) + 0)%nat.
    - rewrite firstn_app_2. cbn [firstn]. now rewrite app_nil_r.
    - rewrite !length_map, b64encode_length_exact, Hh, Hc.
      replace (48 * S m + 2)%nat with (2 + (16 * S m) * 3)%nat by lia.
      rewrite Nat.div_add by lia. cbn [Nat.div Nat.divmod fst]. lia. }
  destruct (P p1 d1 H1) as [t1 ->]. destruct (P p2 d2 H2) as [t2 ->].
  now rewrite !F.
Qed.

Lemma encrypt_xdata_shared_prefix_witness :
  firstn (64 * 1)
    (CryptoHelper.encrypt_xdata (env_with_xdata_key "0123456789abcdef")
       (repeat 97 48 ++ lit "x") 1700000000000)
  = firstn (64 * 1)
      (CryptoHelper.encrypt_xdata (env_with_xdata_key "0123456789abcdef")
         (repeat 97 48 ++ lit "yz") 1700000000000).
Proof.
  apply (encrypt_xdata_shared_prefix _ _ _ _ (ascii_bytes (lit "0123456789abcdef"))
           (repeat x61 48) [x78] [x79; x7a] 1); vm_compute; reflexivity.
Defined.

(** ** Two processes *)

(** X20: what one process encrypts, every process whose primary key parses
    to the same bytes decrypts, however each of the two keys is spelled
    (raw text, [hex:] or [b64:]). *)
Theorem key_spellings_agree (sender receiver : environ) (kb data : bytes)
    (plaintext : pystr) (t : Z) :
  CryptoHelper._key_bytes (XDATA_KEY sender) = Some kb ->
  CryptoHelper._key_bytes (XDATA_KEY receiver) = Some kb ->
  CryptoHelper.nonempty plaintext = true ->
  utf8_encode plaintext = Ok data ->
  CryptoHelper.decrypt_xdata receiver (CryptoHelper.encrypt_xdata sender plaintext t) t
  = plaintext.
Proof.
  intros Ks Kr Hne Hd.
  destruct (encrypt_xdata_open sender plaintext t kb data Hne Ks Hd) as [Hct Hopen].
  destruct (iter_candidate_keys_primary receiver kb Kr) as [rest Hl].
  now apply (decrypt_xdata_first receiver _ plaintext t [] rest kb).
Qed.

Lemma key_spellings_agree_witness :
  CryptoHelper.decrypt_xdata (env_with_xdata_key "b64:MDEyMzQ1Njc4OWFiY2RlZg==")
    (CryptoHelper.encrypt_xdata (env_with_xdata_key "hex:30313233343536373839616263646566")
       ping_pong 1700000000000) 1700000000000
  = ping_pong.
Proof.
  apply (key_spellings_agree _ _ (ascii_bytes (lit "0123456789abcdef"))
           (ascii_bytes ping_pong));
    vm_compute; reflexivity.
Defined.

(** ** Texts that cannot be envelopes *)

Lemma blocks_of_bytes_length (bs : bytes) (bl : list Aes.state) :
  Aes.blocks_of_bytes bs = Some bl -> length bs = (16 * length bl)%nat.
Proof.
  intros E. now rewrite <- (bytes_of_blocks_of_bytes _ _ E), bytes_of_blocks_length.
Qed.

Lemma first_success_all_none (x : pystr) (t : Z) (keys : list bytes) :
  (forall k, CryptoHelper._try_decrypt_with_key x t k = None) ->
  CryptoHelper.first_success x t keys = None.
Proof.
  intros H. induction keys as [|k r IH]; [reflexivity|].
  cbn [CryptoHelper.first_success]. now rewrite H.
Qed.

(** X21: a text whose repaired form is no URL-safe base64, or decodes to
    bytes that are not a positive whole number of 16-byte blocks, decrypts
    to [{}] whatever the keys and the timestamp. *)
Theorem decrypt_xdata_rejects (env : environ) (xdata : pystr) (t : Z) :
  match Base64.urlsafe_b64decode (CryptoHelper._fix_b64 xdata) with
  | Ok ct => (length ct mod 16 =? 0)%nat && CryptoHelper.nonempty ct
  | Raise _ => false
  end = false ->
  CryptoHelper.decrypt_xdata env xdata t = lit "{}".
Proof.
  intros H. unfold CryptoHelper.decrypt_xdata.
  destruct (negb (CryptoHelper.nonempty xdata)); [reflexivity|].
  rewrite first_success_all_none; [reflexivity|]. intros k.
  unfold CryptoHelper._try_decrypt_with_key. cbv zeta.
  destruct (Base64.urlsafe_b64decode (CryptoHelper._fix_b64 xdata)) as [ct|]; [|reflexivity].
  run_bind. destruct (Aes.new_cbc k (CryptoHelper.derive_iv t)) as [c|]; [|reflexivity].
  unfold Aes.decrypt. destruct (Aes.blocks_of_bytes ct) as [bl|] eqn:E; [|reflexivity].
  pose proof (blocks_of_bytes_length _ _ E) as L.
  destruct ct as [|b r].
  - injection E as <-. reflexivity.
  - exfalso. cbn [CryptoHelper.nonempty] in H. rewrite andb_true_r in H.
    apply Nat.eqb_neq in H. apply H. rewrite L.
    replace (16 * length bl)%nat with (0 + length bl * 16)%nat by lia.
    now rewrite Nat.Div0.mod_add.
Qed.

Lemma decrypt_xdata_rejects_witness :
  CryptoHelper.decrypt_xdata (env_with_xdata_key "0123456789abcdef") (lit "AAAA") 0
  = lit "{}".
Proof.
  apply (decrypt_xdata_rejects (env_with_xdata_key "0123456789abcdef") (lit "AAAA") 0).
  vm_compute. reflexivity.
Defined.

(** ** Numbers typed by the user *)

(** A boolean property holds of every decimal digit once it holds on the
    ranges of the table. *)
Lemma decimal_forall (P : N -> bool) :
  forallb (fun r => forallb P (code_points r)) decimal_ranges = true ->
  forall c, is_decimal c = true -> P c = true.
Proof.
  intros H c Hc. unfold is_decimal in Hc.
  apply existsb_exists in Hc as (r & Hr & Hin).
  rewrite forallb_forall in H. specialize (H r Hr). rewrite forallb_forall in H.
  apply H. apply andb_prop in Hin as [Hlo Hhi].
  apply N.leb_le in Hlo. apply N.leb_le in Hhi.
  unfold code_points. apply in_map_iff. exists (N.to_nat c). split; [apply N2Nat.id|].
  apply in_seq. lia.
Qed.

Lemma decimal_solid (c : N) : is_decimal c = true -> solid c = true.
Proof. apply decimal_forall. vm_compute. reflexivity. Qed.

Lemma decimal_encodable (c : N) : is_decimal c = true -> encodable_char c = true.
Proof. apply decimal_forall. vm_compute. reflexivity. Qed.

Lemma forallb_impl {A} (f g : A -> bool) (l : list A) :
  (forall x, f x = true -> g x = true) -> forallb f l = true -> forallb g l = true.
Proof.
  intros I H. rewrite forallb_forall in *. intros x Hx. now apply I, H.
Qed.

Lemma forallb_skipn {A} (f : A -> bool) (n : nat) (l : list A) :
  forallb f l = true -> forallb f (skipn n l) = true.
Proof.
  intros H. rewrite <- (firstn_skipn n l), forallb_app in H.
  now apply andb_prop in H.
Qed.

Lemma filter_forallb_id {A} (f : A -> bool) (l : list A) :
  forallb f l = true -> filter f l = l.
Proof.
  induction l as [|x r IH]; [reflexivity|]. cbn [forallb filter].
  intros H. apply andb_prop in H as [-> Hr]. now rewrite IH.
Qed.

Lemma encodable_chars (s : pystr) :
  forallb encodable_char s = true -> exists data, utf8_encode s = Ok data.
Proof.
  unfold utf8_encode. induction s as [|c r IH]; [now exists []|].
  cbn [forallb utf8_encode_opt]. intros H. apply andb_prop in H as [Hc Hr].
  destruct (IH Hr) as [d E]. unfold encodable_char in Hc.
  destruct (utf8_encode_char c) as [b|]; [|discriminate].
  destruct (utf8_encode_opt r) as [x|]; [|discriminate]. eauto.
Qed.

(** The digits the function works on. *)
Lemma normalize_digits (user_input : option pystr) :
  let d := filter is_decimal (match user_input with Some u => u | None => [] end) in
  forallb is_decimal d = true /\ strip d = d.
Proof.
  cbv zeta. split; [apply forallb_filter|].
  apply strip_solid. apply (forallb_impl is_decimal); [apply decimal_solid|].
  apply forallb_filter.
Qed.

(** What the function returns is made of digits, at least ten. *)
Lemma normalize_msisdn_digits (user_input : option pystr) (s : pystr) :
  MenusCircleInput._normalize_msisdn user_input = Some s ->
  forallb is_decimal s = true /\ (10 <= length s)%nat.
Proof.
  unfold MenusCircleInput._normalize_msisdn. cbv zeta.
  destruct (normalize_digits user_input) as [D ->]. cbv zeta in D.
  set (d := filter is_decimal _) in *.
  destruct (negb (CryptoHelper.nonempty d)); [discriminate|].
  match goal with |- context [startswith (lit "628") ?x] => set (r := x) end.
  assert (R : forallb is_decimal r = true).
  { subst r.
    repeat match goal with
           | |- forallb _ (if ?b then _ else _) = true => destruct b
           | |- forallb _ (lit "62" ++ _) = true =>
               rewrite forallb_app; apply andb_true_intro; split; [reflexivity|]
           | |- forallb _ (skipn _ _) = true => apply forallb_skipn
           end; assumption. }
  destruct (negb (startswith (lit "628") r)); [discriminate|].
  destruct (Nat.ltb_spec (length r) 10); cbn [orb]; [discriminate|].
  destruct (15 <? length r)%nat; [discriminate|].
  intros [= <-]. now split.
Qed.

Ltac prefix_tests :=
  change (lit "08") with [48; 56]; change (lit "8") with [56];
  change (lit "0062") with [48; 48; 54; 50]; change (lit "6208") with [54; 50; 48; 56];
  change (lit "628") with [54; 50; 56]; change (lit "62") with [54; 50];
  change (lit "00628") with [48; 48; 54; 50; 56];
  cbn [app startswith skipn N.eqb Pos.eqb andb negb].

Lemma startswith_628 (s : pystr) :
  startswith (lit "628") s = true -> exists r, s = 54 :: 50 :: 56 :: r.
Proof.
  change (lit "628") with [54; 50; 56].
  destruct s as [|a [|b [|c r]]]; cbn [startswith]; rewrite ?andb_false_r;
    try discriminate.
  intros H. apply andb_prop in H as [Ha H]. apply andb_prop in H as [Hb H].
  apply andb_prop in H as [Hc _].
  apply N.eqb_eq in Ha, Hb, Hc. subst. now exists r.
Qed.

(** X22: a number [_normalize_msisdn] returns starts with 628, has 10 to 15
    characters, all of them decimal digits, and is returned unchanged when
    normalised again. *)
Theorem normalize_msisdn_shape (user_input : option pystr) (s : pystr) :
  MenusCircleInput._normalize_msisdn user_input = Some s ->
  startswith (lit "628") s = true /\ (10 <= length s <= 15)%nat /\
  forallb is_decimal s = true /\
  MenusCircleInput._normalize_msisdn (Some s) = Some s.
Proof.
  intros H. destruct (normalize_msisdn_digits _ _ H) as [D L].
  assert (B : startswith (lit "628") s = true /\ (length s <= 15)%nat).
  { revert H. unfold MenusCircleInput._normalize_msisdn. cbv zeta.
    destruct (negb (CryptoHelper.nonempty _)); [discriminate|].
    match goal with |- context [startswith (lit "628") ?x] => set (r := x) end.
    destruct (startswith (lit "628") r) eqn:E; cbn [negb]; [|discriminate].
    destruct (length r <? 10)%nat; cbn [orb]; [discriminate|].
    destruct (Nat.ltb_spec 15 (length r)); [discriminate|].
    intros [= <-]. now split. }
  destruct B as [P U]. split; [assumption|]. split; [lia|]. split; [assumption|].
  unfold MenusCircleInput._normalize_msisdn. cbv zeta.
  rewrite (filter_forallb_id _ _ D).
  rewrite (strip_solid s (forallb_impl _ _ _ decimal_solid D)).
  destruct (startswith_628 s P) as [r ->].
  prefix_tests. cbn [CryptoHelper.nonempty negb].
  cbn [length] in L, U.
  match goal with |- context [(?a <? 10)%nat] =>
    replace (a <? 10)%nat with false by (symmetry; apply Nat.ltb_ge; cbn [length]; lia);
    replace (15 <? a)%nat with false by (symmetry; apply Nat.ltb_ge; cbn [length]; lia)
  end.
  reflexivity.
Qed.

Lemma normalize_msisdn_shape_witness :
  startswith (lit "628") (lit "6281234567890") = true /\
  (10 <= length (lit "6281234567890") <= 15)%nat /\
  forallb is_decimal (lit "6281234567890") = true /\
  MenusCircleInput._normalize_msisdn (Some (lit "6281234567890"))
  = Some (lit "6281234567890").
Proof.
  apply (normalize_msisdn_shape (Some (lit "+62 812-3456-7890"))).
  vm_compute. reflexivity.
Defined.

(** X23: the accepted spellings agree: whatever else the input holds, if
    its digits are [08x], [8x], [00628x], [6208x] or [628x] for 7 to 12
    digits [x], the number is [628x]. *)
Theorem normalize_msisdn_formats (u x : pystr) :
  forallb is_decimal x = true -> (7 <= length x <= 12)%nat ->
  In (filter is_decimal u)
     [lit "08" ++ x; lit "8" ++ x; lit "00628" ++ x; lit "6208" ++ x; lit "628" ++ x] ->
  MenusCircleInput._normalize_msisdn (Some u) = Some (lit "628" ++ x).
Proof.
  intros D L I. unfold MenusCircleInput._normalize_msisdn. cbv zeta.
  destruct (normalize_digits (Some u)) as [_ ->]. cbv zeta.
  assert (T : forall s : pystr, s = 54 :: 50 :: 56 :: x ->
              (length s <? 10)%nat = false /\ (15 <? length s)%nat = false).
  { intros s ->. split; apply Nat.ltb_ge; cbn [length]; lia. }
  destruct (T _ eq_refl) as [T1 T2].
  cbn [In] in I. destruct I as [<-|[<-|[<-|[<-|[<-|[]]]]]];
    prefix_tests; cbn [CryptoHelper.nonempty negb]; now rewrite T1, T2.
Qed.

Lemma normalize_msisdn_formats_witness :
  MenusCircleInput._normalize_msisdn (Some (lit "+62 (0) 812-3456-7890"))
  = Some (lit "628" ++ lit "1234567890").
Proof.
  apply (normalize_msisdn_formats (lit "+62 (0) 812-3456-7890") (lit "1234567890")).
  - vm_compute. reflexivity.
  - vm_compute. lia.
  - vm_compute. right. right. right. left. reflexivity.
Defined.

Section NumbersOfCircle.

Variable container_repr : pyval -> pystr.

(** X24: a number that [_normalize_msisdn] accepted is encrypted by
    [CircleClient._encrypt] under any valid field key, and the menu displays
    the blob as that number again. *)
Theorem normalized_number_displays (env : environ) (rnd : bytes) (api_key : pystr)
    (user_input : option pystr) (s : pystr) (kb : bytes) :
  MenusCircleInput._normalize_msisdn user_input = Some s ->
  CryptoHelper._key_bytes (ENCRYPTED_FIELD_KEY env) = Some kb ->
  length rnd = 8%nat ->
  ClientCircle._encrypt container_repr env rnd api_key (VStr s) <> [] /\
  MenusCircle._decrypt_msisdn container_repr env api_key
    (VStr (ClientCircle._encrypt container_repr env rnd api_key (VStr s))) = s.
Proof.
  intros Hn Hkey Hr. destruct (normalize_msisdn_digits _ _ Hn) as [D L].
  pose proof (strip_solid s (forallb_impl _ _ _ decimal_solid D)) as Hs.
  destruct (encodable_chars s (forallb_impl _ _ _ decimal_encodable D)) as [data Henc].
  assert (Hne : CryptoHelper.nonempty s = true) by (apply nonempty_length; lia).
  destruct (circle_blob env rnd s kb data Hne Hkey Hr Henc) as (ct & E & _ & Dc).
  assert (Hb : CryptoHelper.nonempty
                 (map Byte.to_N (Base64.urlsafe_b64encode ct) ++ hex_of_bytes rnd) = true).
  { apply nonempty_app_r, nonempty_length. rewrite hex_of_bytes_length, Hr. cbn. lia. }
  unfold ClientCircle._encrypt, Encrypt.encrypt_circle_msisdn. cbv zeta.
  cbn [ClientCircle._as_str Encrypt.py_str]. rewrite Hs, Hne. cbn [negb]. rewrite E.
  split.
  - now destruct (map _ _ ++ _).
  - unfold MenusCircle._decrypt_msisdn, Encrypt.decrypt_circle_msisdn. cbv zeta.
    cbn [MenusCircle._safe_str Encrypt.py_str].
    rewrite strip_solid.
    + rewrite Hb. cbn [negb]. rewrite Dc, Hne. reflexivity.
    + rewrite forallb_app, (plain_solid _ (urlsafe_plain ct)). apply hex_of_bytes_solid.
Qed.

End NumbersOfCircle.

Lemma normalized_number_displays_witness :
  ClientCircle._encrypt sample_repr (env_with_field_key "0123456789abcdef")
    [x01; x23; x45; x67; x89; xab; xcd; xef] (lit "k") (VStr (lit "6281234567890")) <> [] /\
  MenusCircle._decrypt_msisdn sample_repr (env_with_field_key "0123456789abcdef") (lit "k")
    (VStr (ClientCircle._encrypt sample_repr (env_with_field_key "0123456789abcdef")
             [x01; x23; x45; x67; x89; xab; xcd; xef] (lit "k") (VStr (lit "6281234567890"))))
  = lit "6281234567890".
Proof.
  apply (normalized_number_displays sample_repr (env_with_field_key "0123456789abcdef")
           [x01; x23; x45; x67; x89; xab; xcd; xef] (lit "k") (Some (lit "081234567890"))
           (lit "6281234567890") (ascii_bytes (lit "0123456789abcdef")));
    vm_compute; reflexivity.
Defined.

(** The digits of other scripts are digits too: [08] followed by the
    Arabic-Indic digits one to eight is accepted; a number that does not
    lead to [628], or is too short, is not. *)
Example normalize_msisdn_samples :
  MenusCircleInput._normalize_msisdn (Some (lit "0812-3456-7890"))
  = Some (lit "6281234567890") /\
  MenusCircleInput._normalize_msisdn (Some (lit "08" ++ [1633; 1634; 1635; 1636; 1637; 1638; 1639; 1640]))
  = Some (lit "628" ++ [1633; 1634; 1635; 1636; 1637; 1638; 1639; 1640]) /\
  MenusCircleInput._normalize_msisdn (Some (lit "7123456789")) = None /\
  MenusCircleInput._normalize_msisdn (Some (lit "08123")) = None /\
  MenusCircleInput._normalize_msisdn None = None.
Proof. repeat split; vm_compute; reflexivity. Qed.

(** ** The other signatures and the encrypted field: known answers *)

Example make_x_signature_payment_sample :
  CryptoHelper.make_x_signature_payment (env_with_secret "secret") (lit "tok") 1700000000
    (lit "PKG") (lit "tp") (lit "BALANCE") (lit "BUY_PACKAGE") (lit "api/v8/pay")
  = lit "c34d07d9c7db9be1109a1f131461a29883c6dddb0f597499591c3f746716643dbde2bab665d0d2fdc9dad7840c553f7bb40faf6523a4bc6454aa8a4a4f61a23a".
Proof. vm_compute. reflexivity. Qed.

Example make_x_signature_bounty_sample :
  CryptoHelper.make_x_signature_bounty (env_with_secret "secret") (lit "tok") 1700000000
    (lit "PKG") (lit "tp")
  = lit "35934f52b521541c29f83d910549b8596207e7b3b1fad480e5038983707dfb8e71bee49ec56a35b98c04baef4523b42ec903ea72e332beae72ae264ef0848f82".
Proof. vm_compute. reflexivity. Qed.

Example make_ax_api_signature_sample :
  CryptoHelper.make_ax_api_signature
    {| XDATA_KEY := []; AX_API_SIG_KEY := lit "ax-key"; X_API_BASE_SECRET := [];
       ENCRYPTED_FIELD_KEY := []; XDATA_KEYS := []; xdata_keys_file := None |}
    (lit "20240101T000000") (lit "6281234567") (lit "1234") (lit "SMS")
  = lit "fE0yeLMC22OlJcvPZ/ubdv6wlJYXWE1k/fNHx0NaOd4=".
Proof. vm_compute. reflexivity. Qed.

Example build_encrypted_field_samples :
  Encrypt.build_encrypted_field true (lit "0123456789abcdef") (lit "0123456789abcdef")
    None false
  = lit "7Uf+4FRcP6fdBw1EuG6Y2Q==0123456789abcdef" /\
  Encrypt.build_encrypted_field true (lit "0123456789abcdef") (lit "0123456789abcdef")
    (Some (lit " 0123456789ABCDEF ")) true
  = lit "WNhv9BnSzqsVqDNMphIQpQ==0123456789ABCDEF" /\
  Encrypt.build_encrypted_field true (lit "0123456789abcdef") (lit "0123456789abcdef")
    (Some (lit "0123456789abcdeg")) false
  = [].
Proof. split; [|split]; vm_compute; reflexivity. Qed.
